(** * graphit: the facility handler (app/core/facility_handler.py)

    A shallow embedding of [FacilityHandler]: the constructor with its
    cache-or-rebuild decision, [populate_facility],
    [insert_all_transp_records] and [dump_facility].

    The handler is a mutable Python object working on files, so its methods
    are functions in a state-and-exception monad.  The state holds the
    handler's attributes, the file system and a log of the calls and file
    accesses made. *)

From stdpp Require Import base gmap strings list.
From Stdlib Require Import ZArith Ascii String Lia.

Open Scope Z_scope.

(** ** Exceptions *)

(** The exceptions the handler can meet.  [SelfEdgesNotSupported] is the one
    it catches by name; [dump_facility] catches all of them. *)
Inductive exn : Type :=
  | KeyError (key : string)
  | IndexError
  | ValueError
  | TypeError
  | AttributeError (attr : string)
  | OSError (path : string)
  | EOFError
  | UnpicklingError
  | PicklingError
  | SelfEdgesNotSupported
  | FacilityError (name : string).

Definition is_SelfEdgesNotSupported (e : exn) : bool :=
  match e with SelfEdgesNotSupported => true | _ => false end.

(** ** datetime *)

(** A naive [datetime] as produced by the format ["%Y-%m-%d %X"]: the
    microsecond field is always zero and is left out. *)
Record datetime : Type := mkdt {
  year : Z; month : Z; day : Z; hour : Z; minute : Z; second : Z
}.

Definition lex (c1 c2 : comparison) : comparison :=
  match c1 with Eq => c2 | _ => c1 end.

(** Python compares datetimes field by field, most significant first. *)
Definition dt_compare (a b : datetime) : comparison :=
  lex (year a ?= year b)
 (lex (month a ?= month b)
 (lex (day a ?= day b)
 (lex (hour a ?= hour b)
 (lex (minute a ?= minute b)
      (second a ?= second b))))).

(** [a < b], [a > b] and [a <= b] on datetimes. *)
Definition dt_ltb (a b : datetime) : bool :=
  match dt_compare a b with Lt => true | _ => false end.
Definition dt_gtb (a b : datetime) : bool := dt_ltb b a.
Definition dt_leb (a b : datetime) : bool :=
  match dt_compare a b with Gt => false | _ => true end.

Definition dt_le (a b : datetime) : Prop := dt_leb a b = true.
Definition dt_lt (a b : datetime) : Prop := dt_ltb a b = true.

(** *** Parsing and formatting with ["%Y-%m-%d %X"] *)

(** Strings are sequences of 8-bit characters: the code points 0 to 255. *)

Definition digit_of_ascii (c : ascii) : option Z :=
  let n := nat_of_ascii c in
  if (48 <=? n)%nat && (n <=? 57)%nat then Some (Z.of_nat (n - 48)) else None.

Definition ascii_of_digit (d : Z) : ascii :=
  ascii_of_nat (Z.to_nat d + 48).

Definition is_digit (c : ascii) : bool :=
  match digit_of_ascii c with Some _ => true | None => false end.

Definition is_char (c : ascii) (x : ascii) : bool := Ascii.eqb c x.

(** [c] is one of the characters from [lo] to [hi]. *)
Definition between (lo hi : ascii) (c : ascii) : bool :=
  (nat_of_ascii lo <=? nat_of_ascii c)%nat && (nat_of_ascii c <=? nat_of_ascii hi)%nat.

(** The characters that [\s] matches in a pattern over [str]. *)
Definition re_space (c : ascii) : bool :=
  let n := nat_of_ascii c in
  ((9 <=? n) && (n <=? 13) || (28 <=? n) && (n <=? 32)
   || (n =? 133) || (n =? 160))%nat.

Definition is_leap (y : Z) : bool :=
  ((y mod 4 =? 0) && negb (y mod 100 =? 0)) || (y mod 400 =? 0).

Definition days_in_month (y m : Z) : Z :=
  if m =? 2 then (if is_leap y then 29 else 28)
  else if (m =? 4) || (m =? 6) || (m =? 9) || (m =? 11) then 30
  else 31.

(** The checks of the [datetime] constructor. *)
Definition valid_datetime (d : datetime) : bool :=
  (1 <=? year d) && (year d <=? 9999) &&
  (1 <=? month d) && (month d <=? 12) &&
  (1 <=? day d) && (day d <=? days_in_month (year d) (month d)) &&
  (0 <=? hour d) && (hour d <=? 23) &&
  (0 <=? minute d) && (minute d <=? 59) &&
  (0 <=? second d) && (second d <=? 59).

(** [datetime.strptime] turns the format into a regular expression and
    matches it at the start of the string.  The pieces of that expression
    are written here as matchers that take what follows them as a
    continuation [k]: an alternative that matches but whose continuation
    fails gives way to the next one, as in the backtracking of [re]. *)
Section Regex.

Context {R : Type}.

Definition or_else (a b : option R) : option R :=
  match a with Some r => Some r | None => b end.

(** Two digits, the first satisfying [pa] and the second [pb]. *)
Definition two (pa pb : ascii -> bool) (k : Z -> list ascii -> option R)
    (l : list ascii) : option R :=
  match l with
  | a :: b :: r =>
      if pa a && pb b
      then match digit_of_ascii a, digit_of_ascii b with
           | Some x, Some y => k (10 * x + y) r
           | _, _ => None
           end
      else None
  | _ => None
  end.

(** One digit satisfying [p]. *)
Definition one (p : ascii -> bool) (k : Z -> list ascii -> option R)
    (l : list ascii) : option R :=
  match l with
  | a :: r =>
      if p a
      then match digit_of_ascii a with Some x => k x r | None => None end
      else None
  | _ => None
  end.

(** A space and one digit satisfying [p]. *)
Definition sp_one (p : ascii -> bool) (k : Z -> list ascii -> option R)
    (l : list ascii) : option R :=
  match l with
  | sp :: r => if is_char " " sp then one p k r else None
  | _ => None
  end.

(** The character [c]. *)
Definition lit (c : ascii) (k : list ascii -> option R) (l : list ascii)
  : option R :=
  match l with
  | x :: r => if is_char c x then k r else None
  | _ => None
  end.

(** [\s*] and [\s+]: as many as there are, then fewer. *)
Fixpoint re_spaces_star (k : list ascii -> option R) (l : list ascii)
  : option R :=
  match l with
  | c :: r => if re_space c then or_else (re_spaces_star k r) (k l) else k l
  | [] => k l
  end.

Definition re_spaces (k : list ascii -> option R) (l : list ascii) : option R :=
  match l with
  | c :: r => if re_space c then re_spaces_star k r else None
  | [] => None
  end.

(** [%Y] is [\d\d\d\d]. *)
Definition re_Y (k : Z -> list ascii -> option R) (l : list ascii) : option R :=
  two is_digit is_digit (fun hi => two is_digit is_digit (fun lo => k (100 * hi + lo))) l.

(** [%m] is [1[0-2]|0[1-9]|[1-9]]. *)
Definition re_m (k : Z -> list ascii -> option R) (l : list ascii) : option R :=
  or_else (two (is_char "1") (between "0" "2") k l)
 (or_else (two (is_char "0") (between "1" "9") k l)
          (one (between "1" "9") k l)).

(** [%d] is [3[0-1]|[1-2]\d|0[1-9]|[1-9]| [1-9]]. *)
Definition re_d (k : Z -> list ascii -> option R) (l : list ascii) : option R :=
  or_else (two (is_char "3") (between "0" "1") k l)
 (or_else (two (between "1" "2") is_digit k l)
 (or_else (two (is_char "0") (between "1" "9") k l)
 (or_else (one (between "1" "9") k l)
          (sp_one (between "1" "9") k l)))).

(** [%H] is [2[0-3]|[0-1]\d|\d]. *)
Definition re_H (k : Z -> list ascii -> option R) (l : list ascii) : option R :=
  or_else (two (is_char "2") (between "0" "3") k l)
 (or_else (two (between "0" "1") is_digit k l)
          (one is_digit k l)).

(** [%M] is [[0-5]\d|\d]. *)
Definition re_M (k : Z -> list ascii -> option R) (l : list ascii) : option R :=
  or_else (two (between "0" "5") is_digit k l) (one is_digit k l).

(** [%S] is [6[0-1]|[0-5]\d|\d]. *)
Definition re_S (k : Z -> list ascii -> option R) (l : list ascii) : option R :=
  or_else (two (is_char "6") (between "0" "1") k l)
 (or_else (two (between "0" "5") is_digit k l)
          (one is_digit k l)).

End Regex.

(** The expression of ["%Y-%m-%d %X"], with [%X] the ["%H:%M:%S"] of the C
    locale and the blank of the format turned into [\s+]: the six numbers of
    the first match and the characters left after it. *)
Definition re_date (l : list ascii) : option (datetime * list ascii) :=
  re_Y (fun y => lit "-" (re_m (fun m => lit "-" (re_d (fun d =>
  re_spaces (re_H (fun h => lit ":" (re_M (fun n => lit ":" (re_S (fun s rest =>
    Some (mkdt y m d h n s, rest)))))))))))) l.

(** [datetime.strptime(date_string, "%Y-%m-%d %X")].  [None] stands for the
    [ValueError] Python raises: when the expression does not match, when
    characters are left after the match, and when the numbers are refused
    by the [datetime] constructor. *)
Definition strptime (date_string : string) : option datetime :=
  match re_date (list_ascii_of_string date_string) with
  | Some (dt, []) => if valid_datetime dt then Some dt else None
  | _ => None
  end.

Definition fmt2 (n : Z) : list ascii :=
  [ascii_of_digit (n / 10); ascii_of_digit (n mod 10)].

Definition fmt4 (n : Z) : list ascii :=
  fmt2 (n / 100) ++ fmt2 (n mod 100).

(** [%Y] as the C library writes it: the year in decimal without padding, so
    with fewer than four digits before the year 1000. *)
Definition fmt_year (y : Z) : list ascii :=
  if y <? 10 then [ascii_of_digit y]
  else if y <? 100 then fmt2 y
  else if y <? 1000 then ascii_of_digit (y / 100) :: fmt2 (y mod 100)
  else fmt4 y.

(** [d.strftime("%Y-%m-%d %X")]: the year as [%Y] gives it, every other
    field with two digits. *)
Definition strftime (d : datetime) : string :=
  string_of_list_ascii
    (fmt_year (year d) ++ ["-"%char] ++ fmt2 (month d) ++ ["-"%char]
     ++ fmt2 (day d) ++ [" "%char] ++ fmt2 (hour d) ++ [":"%char]
     ++ fmt2 (minute d) ++ [":"%char] ++ fmt2 (second d)).

(** ** Strings and numbers *)

(** The slice [s[:-4]]: all but the last four characters, the empty string
    when [s] has fewer than four. *)
Definition strip4 (s : string) : string :=
  substring 0 (String.length s - 4) s.

(** The white space [int] skips at both ends of its argument. *)
Definition int_space (c : ascii) : bool :=
  let n := nat_of_ascii c in
  ((9 <=? n) && (n <=? 13) || (n =? 32) || (n =? 133) || (n =? 160))%nat.

Fixpoint drop_space (l : list ascii) : list ascii :=
  match l with
  | c :: l' => if int_space c then drop_space l' else l
  | [] => []
  end.

Definition strip_space (l : list ascii) : list ascii :=
  rev (drop_space (rev (drop_space l))).

(** Decimal digits with single underscores between them: the value and the
    number of digits. *)
Fixpoint digits_value (acc : Z) (n : Z) (l : list ascii) : option (Z * Z) :=
  match l with
  | [] => Some (acc, n)
  | c :: l' =>
      if is_char "_" c then
        match l' with
        | d :: _ => if is_digit d then digits_value acc n l' else None
        | [] => None
        end
      else
        match digit_of_ascii c with
        | Some d => digits_value (10 * acc + d) (n + 1) l'
        | None => None
        end
  end.

(** The interpreter's limit on the digits of a decimal string
    ([sys.get_int_max_str_digits()], as it is set by default). *)
Definition int_max_str_digits : Z := 4300.

Definition unsigned_int (l : list ascii) : option Z :=
  match l with
  | c :: _ =>
      if is_digit c then
        match digits_value 0 0 l with
        | Some (v, n) => if n <=? int_max_str_digits then Some v else None
        | None => None
        end
      else None
  | [] => None
  end.

(** [int(s)] on a string: white space at both ends is skipped, then come an
    optional sign and decimal digits, with single underscores allowed
    between digits.  [None] stands for [ValueError]. *)
Definition py_int (s : string) : option Z :=
  match strip_space (list_ascii_of_string s) with
  | [] => None
  | c :: l =>
      if is_char "-" c then Z.opp <$> unsigned_int l
      else if is_char "+" c then unsigned_int l
      else unsigned_int (c :: l)
  end.

(** [x in l] for a list of strings. *)
Definition str_in (x : string) (l : list string) : bool :=
  existsb (String.eqb x) l.

(** ** Data read from the sources *)

(** A JSON object as the handler uses it: the keys it subscripts, each at the
    type the code uses the value at.  [None] is an absent key, and
    subscripting it raises [KeyError].  The configuration file and the layout
    file are both such objects. *)
Record DepSrc : Type := {
  dep_src_label : option string;
  dep_src_points : option (list (list Z))
}.

Record JsonDoc : Type := {
  facility_dump_path : option string;
  facility_boundaries : option (list (list Z));
  facility_source_path : option string;
  masterplan_csv_path : option string;
  peg_csv_path : option string;
  error_dep_list : option (list string);
  departments : option (list DepSrc)
}.

(** A parsed transportation record [rec]: [rec[0]] and [rec[1]] are the two
    department labels, [rec[2]] the time stamp with its four-character
    suffix, [rec[3]] the weight, still a string. *)
Record TranspRec : Type := {
  rec0 : string; rec1 : string; rec2 : string; rec3 : string
}.

(** Modelled from the spec: [Point2D] and [Department] of [app.dstruct] are
    not among the sources.  A point is a pair of coordinates, a department a
    label and its boundary points; both only store what they are given. *)
Record Point2D : Type := { px : Z; py : Z }.
Record Department : Type := { label : string; points : list Point2D }.

(** What a file holds.  [F] is the type of facility objects; a pickle holds
    the pickled object, which may be [None]. *)
Inductive FileData (F : Type) : Type :=
  | FJson (doc : JsonDoc)
  | FCsv (rows : list (list string))
  | FPickle (obj : option F)
  | FRaw (bytes : string).
Arguments FJson {F} doc.
Arguments FCsv {F} rows.
Arguments FPickle {F} obj.
Arguments FRaw {F} bytes.

(** Modelled from the spec: the [Facility] class of [app.dstruct.facility]
    and the [MPParser] of [app.parse.mp_parser] are not among the sources, so
    the handler is stated over any implementation of them.
    - [Facility_new low high] is [Facility(low, high)], which does not
      validate;
    - [add_department] and [add_transp_record] either fail, leaving the
      facility as it was, or give the updated facility;
    - [facility_bool] is the truth value of an instance and [picklable]
      tells whether [pickle.dump] accepts it;
    - [mpp_parse] is what [MPParser(mp, peg).parse()] returns from the
      contents of the two files: the records in the order a loop over the
      returned dict visits them, each with its key. *)
Class Externals : Type := {
  Facility : Type;
  Facility_new : list Z -> list Z -> Facility;
  add_department : Facility -> Department -> exn + Facility;
  add_transp_record : Facility -> string -> string -> Z -> exn + Facility;
  facility_bool : Facility -> bool;
  picklable : Facility -> bool;
  mpp_parse : option (FileData Facility) -> option (FileData Facility)
              -> exn + list (string * TranspRec)
}.

(** ** The log *)

Inductive Mode : Type := ReadText | ReadBinary | WriteBinary.

(** What the handler did, in the order it did it. *)
Inductive Event : Type :=
  | EOpen (path : string) (mode : Mode)
  | EIsFile (path : string)
  | ECallPopulate (path : string)
  | ECallInsertAll (mp peg : string)
  | ECallDump (path : string)
  | ENewParser (mp peg : string)
  | EParse (mp peg : string).

(** The events that belong to parsing the sources. *)
Definition is_parsing (e : Event) : bool :=
  match e with
  | ECallPopulate _ | ECallInsertAll _ _ | ENewParser _ _ | EParse _ _ => true
  | _ => false
  end.

(** The events that touch the artifact for writing. *)
Definition is_writing (e : Event) : bool :=
  match e with
  | ECallDump _ | EOpen _ WriteBinary => true
  | _ => false
  end.

(** ** The monad of the handler's methods *)

(** A computation over a state [S] that returns a value or raises.  The
    state it leaves is kept in both cases: what a method changed before it
    raised stays changed. *)
Definition M (S A : Type) : Type := S -> (exn + A) * S.

Definition ret {S A} (x : A) : M S A := fun s => (inr x, s).

Definition raise {S A} (e : exn) : M S A := fun s => (inl e, s).

Definition bind {S A B} (m : M S A) (k : A -> M S B) : M S B :=
  fun s => match m s with
           | (inr x, s') => k x s'
           | (inl e, s') => (inl e, s')
           end.

(** [try: body  except <exception>: handler], the handler choosing by the
    exception what it catches. *)
Definition try_except {S A} (body : M S A) (handler : exn -> M S A) : M S A :=
  fun s => match body s with
           | (inl e, s') => handler e s'
           | r => r
           end.

Notation "x <- m ;; k" := (bind m (fun x => k))
  (at level 100, m at next level, right associativity).
Notation "m ;; k" := (bind m (fun _ => k))
  (at level 100, right associativity).

(** A value that may be absent, raising [e] when it is. *)
Definition or_raise {S A} (e : exn) (o : option A) : M S A :=
  match o with Some x => ret x | None => raise e end.

(** [d[key]] on a JSON object. *)
Definition subscript {S A} (key : string) (o : option A) : M S A :=
  or_raise (KeyError key) o.

(** [l[i]] on a list. *)
Definition index {S A} (l : list A) (i : nat) : M S A :=
  or_raise IndexError (nth_error l i).

(** The outcome of a call into the facility. *)
Definition of_result {S A} (r : exn + A) : M S A :=
  match r with inl e => raise e | inr x => ret x end.

(** [for x in l: body], the loop's local variables threaded through. *)
Fixpoint for_each {S A L} (l : list A) (body : A -> L -> M S L) (locals : L)
  : M S L :=
  match l with
  | [] => ret locals
  | x :: l' => locals' <- body x locals ;; for_each l' body locals'
  end.

(** [date_boundaries]: [None] or a list of strings.  Python takes [None]
    and the empty list for false. *)
Definition db_bool (date_boundaries : option (list string)) : bool :=
  match date_boundaries with Some (_ :: _) => true | _ => false end.

Definition db_index {S} (date_boundaries : option (list string)) (i : nat)
  : M S string :=
  match date_boundaries with
  | Some l => index l i
  | None => raise TypeError
  end.

(** [for point in points: p_vect.append(Point2D(point[0], point[1]))]. *)
Fixpoint build_points (pts : list (list Z)) : exn + list Point2D :=
  match pts with
  | [] => inr []
  | point :: pts' =>
      match nth_error point 0, nth_error point 1 with
      | Some x, Some y =>
          match build_points pts' with
          | inr p_vect => inr ({| px := x; py := y |} :: p_vect)
          | inl e => inl e
          end
      | _, _ => inl IndexError
      end
  end.

(** The local variables of the loop in [insert_all_transp_records]. *)
Record Locals : Type := {
  self_edges_weight : Z;
  date_from : datetime;
  date_to : datetime
}.

Definition sentinel_from : string := "9999-01-01 00:00:00".
Definition sentinel_to : string := "1002-01-01 00:00:00".

Section FacilityHandler.

Context `{Ext : Externals}.

(** The attributes of a [FacilityHandler].  [facility] is set first thing
    by the constructor, perhaps to [None]; each of the others is [None]
    until it is assigned, and reading it before raises [AttributeError]. *)
Record Handler : Type := {
  h_facility : option Facility;
  h_conf : option JsonDoc;
  h_self_edges_weight : option Z;
  h_date_from : option string;
  h_date_to : option string
}.

Definition new_handler : Handler :=
  {| h_facility := None; h_conf := None; h_self_edges_weight := None;
     h_date_from := None; h_date_to := None |}.

(** The handler object, the files, the paths that cannot be opened for
    writing, and the log. *)
Record State : Type := {
  self : Handler;
  files : gmap string (FileData Facility);
  unwritable : list string;
  trace : list Event
}.

Definition with_self (h : Handler) (s : State) : State :=
  {| self := h; files := files s; unwritable := unwritable s; trace := trace s |}.

Definition with_files (fs : gmap string (FileData Facility)) (s : State) : State :=
  {| self := self s; files := fs; unwritable := unwritable s; trace := trace s |}.

(** The log grows at its end. *)
Definition logged (e : Event) (s : State) : State :=
  {| self := self s; files := files s; unwritable := unwritable s;
     trace := trace s ++ [e] |}.

Definition log (e : Event) : M State unit := fun s => (inr tt, logged e s).

(** *** Attributes of [self] *)

Definition get_facility : M State (option Facility) :=
  fun s => (inr (h_facility (self s)), s).

Definition set_facility (o : option Facility) : M State unit :=
  fun s => (inr tt, with_self
    {| h_facility := o; h_conf := h_conf (self s);
       h_self_edges_weight := h_self_edges_weight (self s);
       h_date_from := h_date_from (self s); h_date_to := h_date_to (self s) |} s).

Definition get_conf : M State JsonDoc :=
  fun s => or_raise (AttributeError "conf") (h_conf (self s)) s.

Definition set_conf (c : JsonDoc) : M State unit :=
  fun s => (inr tt, with_self
    {| h_facility := h_facility (self s); h_conf := Some c;
       h_self_edges_weight := h_self_edges_weight (self s);
       h_date_from := h_date_from (self s); h_date_to := h_date_to (self s) |} s).

(** [self.self_edges_weight = res[0]; self.date_from = res[1];
    self.date_to = res[2]]. *)
Definition set_result (res : Z * string * string) : M State unit :=
  fun s => (inr tt, with_self
    {| h_facility := h_facility (self s); h_conf := h_conf (self s);
       h_self_edges_weight := Some (res.1.1);
       h_date_from := Some (res.1.2); h_date_to := Some (res.2) |} s).

(** The facility object behind [self.facility]; a method call on [None]
    raises [AttributeError]. *)
Definition the_facility (meth : string) : M State Facility :=
  o <- get_facility ;; or_raise (AttributeError meth) o.

(** Truth value of [self.facility]. *)
Definition obj_bool (o : option Facility) : bool :=
  match o with None => false | Some f => facility_bool f end.

(** *** Files *)

(** [open(path)] for reading. *)
Definition open_read (path : string) (mode : Mode) : M State (FileData Facility) :=
  log (EOpen path mode) ;;
  (fun s => or_raise (OSError path) (files s !! path) s).

(** [json.load(f)]. *)
Definition json_load (data : FileData Facility) : M State JsonDoc :=
  match data with FJson doc => ret doc | _ => raise ValueError end.

(** [pkl.load(f)]: the pickled object; [EOFError] on a file with nothing in
    it, [UnpicklingError] on other contents. *)
Definition pkl_load (data : FileData Facility) : M State (option Facility) :=
  match data with
  | FPickle obj => ret obj
  | FRaw EmptyString | FCsv [] => raise EOFError
  | _ => raise UnpicklingError
  end.

(** [os.path.isfile(path)]. *)
Definition isfile (path : string) : M State bool :=
  log (EIsFile path) ;;
  (fun s => (inr (bool_decide (is_Some (files s !! path))), s)).

(** [open(path, "wb")]: fails on a path that cannot be written, and
    otherwise leaves an empty file there. *)
Definition open_write (path : string) : M State unit :=
  log (EOpen path WriteBinary) ;;
  (fun s => if str_in path (unwritable s) then (inl (OSError path), s)
            else (inr tt, with_files (<[path := FRaw ""]> (files s)) s)).

(** Whether [pickle] accepts the object; it always accepts [None]. *)
Definition can_pickle (obj : option Facility) : bool :=
  match obj with Some f => picklable f | None => true end.

(** [pkl.dump(obj, f, -1)] into the file opened at [path]. *)
Definition pkl_dump (obj : option Facility) (path : string) : M State unit :=
  fun s => if can_pickle obj
           then (inr tt, with_files (<[path := FPickle obj]> (files s)) s)
           else (inl PicklingError, s).

(** *** [populate_facility] *)

(** The body of [for dep_src in src["departments"]]. *)
Definition populate_body (dep_src : DepSrc) (_ : unit) : M State unit :=
  pts <- subscript "points" (dep_src_points dep_src) ;;
  p_vect <- of_result (build_points pts) ;;
  lbl <- subscript "label" (dep_src_label dep_src) ;;
  let dep := {| label := lbl; points := p_vect |} in
  f <- the_facility "add_department" ;;
  f' <- of_result (add_department f dep) ;;
  set_facility (Some f').

Definition populate_facility (path_to_source : string) : M State unit :=
  log (ECallPopulate path_to_source) ;;
  data <- open_read path_to_source ReadText ;;
  src <- json_load data ;;
  deps <- subscript "departments" (departments src) ;;
  for_each deps populate_body tt.

(** *** [insert_all_transp_records] *)

(** Lines 105 to 111: the running minimum and maximum, kept only when no
    date boundaries were given.  The time stamp is parsed twice. *)
Definition track_dates (date_boundaries : option (list string))
    (rec : TranspRec) (l : Locals) : M State Locals :=
  if negb (db_bool date_boundaries) then
    d_f_cand <- or_raise ValueError (strptime (strip4 (rec2 rec))) ;;
    d_t_cand <- or_raise ValueError (strptime (strip4 (rec2 rec))) ;;
    let l1 := if dt_ltb d_f_cand (date_from l)
              then {| self_edges_weight := self_edges_weight l;
                      date_from := d_f_cand; date_to := date_to l |}
              else l in
    let l2 := if dt_gtb d_t_cand (date_to l1)
              then {| self_edges_weight := self_edges_weight l1;
                      date_from := date_from l1; date_to := d_t_cand |}
              else l1 in
    ret l2
  else ret l.

(** Line 114: is one of the two labels in [self.conf['error_dep_list']]? *)
Definition in_error_list (rec : TranspRec) : M State bool :=
  conf <- get_conf ;;
  errs <- subscript "error_dep_list" (error_dep_list conf) ;;
  ret (str_in (rec0 rec) errs || str_in (rec1 rec) errs).

(** Lines 116 and 117: [date_boundaries and not lo <= t <= hi].  The chained
    comparison parses the upper boundary only when [lo <= t] holds. *)
Definition out_of_boundaries (date_boundaries : option (list string))
    (rec : TranspRec) : M State bool :=
  if db_bool date_boundaries then
    b0 <- db_index date_boundaries 0 ;;
    lo <- or_raise ValueError (strptime b0) ;;
    t <- or_raise ValueError (strptime (strip4 (rec2 rec))) ;;
    if dt_leb lo t then
      b1 <- db_index date_boundaries 1 ;;
      hi <- or_raise ValueError (strptime b1) ;;
      ret (negb (dt_leb t hi))
    else ret true
  else ret false.

(** Lines 119 to 122: the insertion, a self edge counted instead of
    stored. *)
Definition try_insert (rec : TranspRec) (l : Locals) : M State Locals :=
  try_except
    (f <- the_facility "add_transp_record" ;;
     w <- or_raise ValueError (py_int (rec3 rec)) ;;
     f' <- of_result (add_transp_record f (rec0 rec +:+ ".centroid")
                                          (rec1 rec +:+ ".centroid") w) ;;
     set_facility (Some f') ;;
     ret l)
    (fun e =>
       if is_SelfEdgesNotSupported e then
         w <- or_raise ValueError (py_int (rec3 rec)) ;;
         ret {| self_edges_weight := self_edges_weight l + w;
                date_from := date_from l; date_to := date_to l |}
       else raise e).

(** The body of [for key in res], on [rec = res[key]]. *)
Definition insert_body (date_boundaries : option (list string))
    (entry : string * TranspRec) (l : Locals) : M State Locals :=
  let rec := entry.2 in
  l' <- track_dates date_boundaries rec l ;;
  skip <- in_error_list rec ;;
  if skip then ret l' else
  out <- out_of_boundaries date_boundaries rec ;;
  if out then ret l' else
  try_insert rec l'.

(** The state once the parser has been made and run. *)
Definition parsed (mp peg : string) (s : State) : State :=
  logged (EParse mp peg)
    (logged (ENewParser mp peg) (logged (ECallInsertAll mp peg) s)).

Definition insert_all_transp_records (mp_csv_path peg_csv_path : string)
    (date_boundaries : option (list string)) : M State (Z * string * string) :=
  log (ECallInsertAll mp_csv_path peg_csv_path) ;;
  log (ENewParser mp_csv_path peg_csv_path) ;;
  log (EParse mp_csv_path peg_csv_path) ;;
  res <- (fun s => of_result (mpp_parse (files s !! mp_csv_path)
                                        (files s !! peg_csv_path)) s) ;;
  d_from <- (if db_bool date_boundaries
             then b0 <- db_index date_boundaries 0 ;; or_raise ValueError (strptime b0)
             else or_raise ValueError (strptime sentinel_from)) ;;
  d_to <- (if db_bool date_boundaries
           then b1 <- db_index date_boundaries 1 ;; or_raise ValueError (strptime b1)
           else or_raise ValueError (strptime sentinel_to)) ;;
  l <- for_each res (insert_body date_boundaries)
         {| self_edges_weight := 0; date_from := d_from; date_to := d_to |} ;;
  ret (self_edges_weight l, strftime (date_from l), strftime (date_to l)).

(** *** [dump_facility] *)

Definition dump_facility (path : string) : M State bool :=
  log (ECallDump path) ;;
  try_except
    (open_write path ;;
     obj <- get_facility ;;
     pkl_dump obj path ;;
     ret true)
    (fun _ => ret false).

(** *** The constructor *)

Definition rebuild (date_boundaries : option (list string)) : M State unit :=
  conf <- get_conf ;;
  bs0 <- subscript "facility_boundaries" (facility_boundaries conf) ;;
  lo <- index bs0 0 ;;
  bs1 <- subscript "facility_boundaries" (facility_boundaries conf) ;;
  hi <- index bs1 1 ;;
  set_facility (Some (Facility_new lo hi)) ;;
  src <- subscript "facility_source_path" (facility_source_path conf) ;;
  populate_facility src ;;
  mp <- subscript "masterplan_csv_path" (masterplan_csv_path conf) ;;
  peg <- subscript "peg_csv_path" (peg_csv_path conf) ;;
  res <- insert_all_transp_records mp peg date_boundaries ;;
  set_result res ;;
  dump <- subscript "facility_dump_path" (facility_dump_path conf) ;;
  dump_facility dump ;;
  ret tt.

Definition restore (dump : string) : M State unit :=
  data <- open_read dump ReadBinary ;;
  obj <- pkl_load data ;;
  set_facility obj.

(** Line 47: [not date_boundaries and not force_rebuild and
    os.path.isfile(self.conf["facility_dump_path"])]; the path is looked up
    only when the first two hold. *)
Definition can_restore (force_rebuild : bool)
    (date_boundaries : option (list string)) : M State bool :=
  if negb (db_bool date_boundaries) && negb force_rebuild then
    conf <- get_conf ;;
    dump <- subscript "facility_dump_path" (facility_dump_path conf) ;;
    isfile dump
  else ret false.

Definition __init__ (path_to_conf_file : string)
    (facility_instance : option Facility) (force_rebuild : bool)
    (date_boundaries : option (list string)) : M State unit :=
  set_facility facility_instance ;;
  data <- open_read path_to_conf_file ReadText ;;
  conf <- json_load data ;;
  set_conf conf ;;
  o <- get_facility ;;
  if negb (obj_bool o) then
    cached <- can_restore force_rebuild date_boundaries ;;
    if cached then
      conf <- get_conf ;;
      dump <- subscript "facility_dump_path" (facility_dump_path conf) ;;
      restore dump
    else rebuild date_boundaries
  else
    conf <- get_conf ;;
    dump <- subscript "facility_dump_path" (facility_dump_path conf) ;;
    dump_facility dump ;;
    ret tt.

(** A computation that writes no file and logs no write, whatever it
    returns or raises. *)
Definition quiet {A : Type} (m : M State A) : Prop :=
  forall s r s', m s = (r, s') ->
    files s' = files s
    /\ exists evs, trace s' = trace s ++ evs
                   /\ Forall (fun ev => is_writing ev = false) evs.

(** A computation that has written nothing when it raises. *)
Definition fails_quietly {A : Type} (m : M State A) : Prop :=
  forall s e s', m s = (inl e, s') ->
    files s' = files s
    /\ exists evs, trace s' = trace s ++ evs
                   /\ Forall (fun ev => is_writing ev = false) evs.

(** The state a constructor call starts from: a fresh object. *)
Definition fresh (fs : gmap string (FileData Facility)) (ro : list string)
  : State :=
  {| self := new_handler; files := fs; unwritable := ro; trace := [] |}.

End FacilityHandler.

(** ** The redundant parse removed *)

Section SingleParse.

Context `{Ext : Externals}.

(** The date tracking as the specification allows it to be simplified: the
    time stamp is parsed once and the one value serves both comparisons. *)
Definition track_dates_single_parse (date_boundaries : option (list string))
    (rec : TranspRec) (l : Locals) : M State Locals :=
  if negb (db_bool date_boundaries) then
    cand <- or_raise ValueError (strptime (strip4 (rec2 rec))) ;;
    let l1 := if dt_ltb cand (date_from l)
              then {| self_edges_weight := self_edges_weight l;
                      date_from := cand; date_to := date_to l |}
              else l in
    let l2 := if dt_gtb cand (date_to l1)
              then {| self_edges_weight := self_edges_weight l1;
                      date_from := date_from l1; date_to := cand |}
              else l1 in
    ret l2
  else ret l.

Definition insert_body_single_parse (date_boundaries : option (list string))
    (entry : string * TranspRec) (l : Locals) : M State Locals :=
  let rec := entry.2 in
  l' <- track_dates_single_parse date_boundaries rec l ;;
  skip <- in_error_list rec ;;
  if skip then ret l' else
  out <- out_of_boundaries date_boundaries rec ;;
  if out then ret l' else
  try_insert rec l'.

Definition insert_all_transp_records_single_parse
    (mp_csv_path peg_csv_path : string)
    (date_boundaries : option (list string)) : M State (Z * string * string) :=
  log (ECallInsertAll mp_csv_path peg_csv_path) ;;
  log (ENewParser mp_csv_path peg_csv_path) ;;
  log (EParse mp_csv_path peg_csv_path) ;;
  res <- (fun s => of_result (mpp_parse (files s !! mp_csv_path)
                                        (files s !! peg_csv_path)) s) ;;
  d_from <- (if db_bool date_boundaries
             then b0 <- db_index date_boundaries 0 ;; or_raise ValueError (strptime b0)
             else or_raise ValueError (strptime sentinel_from)) ;;
  d_to <- (if db_bool date_boundaries
           then b1 <- db_index date_boundaries 1 ;; or_raise ValueError (strptime b1)
           else or_raise ValueError (strptime sentinel_to)) ;;
  l <- for_each res (insert_body_single_parse date_boundaries)
         {| self_edges_weight := 0; date_from := d_from; date_to := d_to |} ;;
  ret (self_edges_weight l, strftime (date_from l), strftime (date_to l)).

End SingleParse.

(** ** A registry to run the handler on *)

(** Modelled from the spec: a facility after section 4.2.  It keeps its
    extent, the departments in insertion order and the accumulated weight of
    every ordered pair of nodes.  A department brings two nodes, its label
    and its centroid [label.centroid]. *)
Record Registry : Type := {
  reg_low : list Z;
  reg_high : list Z;
  reg_departments : list Department;
  reg_edges : gmap (string * string) Z
}.

Definition reg_new (low high : list Z) : Registry :=
  {| reg_low := low; reg_high := high; reg_departments := []; reg_edges := ∅ |}.

Definition reg_has_label (r : Registry) (lbl : string) : bool :=
  existsb (fun d => String.eqb lbl (label d)) (reg_departments r).

Definition reg_has_node (r : Registry) (n : string) : bool :=
  existsb (fun d => String.eqb n (label d) || String.eqb n (label d +:+ ".centroid"))
          (reg_departments r).

Definition reg_add_department (r : Registry) (d : Department) : exn + Registry :=
  if reg_has_label r (label d) then inl (FacilityError "DuplicateLabel")
  else inr {| reg_low := reg_low r; reg_high := reg_high r;
              reg_departments := reg_departments r ++ [d];
              reg_edges := reg_edges r |}.

Definition reg_add_transp_record (r : Registry) (src dst : string) (w : Z)
  : exn + Registry :=
  if String.eqb src dst then inl SelfEdgesNotSupported
  else if negb (reg_has_node r src && reg_has_node r dst)
  then inl (FacilityError "UnknownLabel")
  else inr {| reg_low := reg_low r; reg_high := reg_high r;
              reg_departments := reg_departments r;
              reg_edges := <[(src, dst) := default 0 (reg_edges r !! (src, dst)) + w]>
                             (reg_edges r) |}.

(** Modelled from the spec: a parser after section 4.3.  A row
    [key, weight] of the primary table joins the first row
    [key, source, destination, timestamp] of the lookup table with its key;
    a row without a match or with a weight that is not a number is left
    out. *)
Fixpoint lookup_row (key : string) (rows : list (list string))
  : option (string * string * string) :=
  match rows with
  | [] => None
  | [k; a; b; t] :: rows' =>
      if String.eqb key k then Some (a, b, t) else lookup_row key rows'
  | _ :: rows' => lookup_row key rows'
  end.

Fixpoint join_rows (primary lookup : list (list string))
  : list (string * TranspRec) :=
  match primary with
  | [] => []
  | [k; w] :: primary' =>
      match lookup_row k lookup, py_int w with
      | Some (a, b, t), Some _ =>
          (k, {| rec0 := a; rec1 := b; rec2 := t; rec3 := w |})
            :: join_rows primary' lookup
      | _, _ => join_rows primary' lookup
      end
  | _ :: primary' => join_rows primary' lookup
  end.

Definition reg_parse (mp peg : option (FileData Registry))
  : exn + list (string * TranspRec) :=
  match mp, peg with
  | Some (FCsv primary), Some (FCsv lookup) => inr (join_rows primary lookup)
  | None, _ => inl (OSError "masterplan")
  | _, None => inl (OSError "peg")
  | _, _ => inl ValueError
  end.

#[export] Instance registry : Externals := {
  Facility := Registry;
  Facility_new := reg_new;
  add_department := reg_add_department;
  add_transp_record := reg_add_transp_record;
  facility_bool := fun _ => true;
  picklable := fun _ => true;
  mpp_parse := reg_parse
}.

(** *** A small installation *)

Definition the_conf : JsonDoc :=
  {| facility_dump_path := Some "facility.pkl";
     facility_boundaries := Some [[0; 0]; [100; 100]];
     facility_source_path := Some "layout.json";
     masterplan_csv_path := Some "masterplan.csv";
     peg_csv_path := Some "peg.csv";
     error_dep_list := Some ["Z"];
     departments := None |}.

Definition square (x y : Z) : option (list (list Z)) :=
  Some [[x; y]; [x + 1; y]; [x + 1; y + 1]; [x; y + 1]].

Definition the_layout : JsonDoc :=
  {| facility_dump_path := None; facility_boundaries := None;
     facility_source_path := None; masterplan_csv_path := None;
     peg_csv_path := None; error_dep_list := None;
     departments := Some
       [ {| dep_src_label := Some "A"; dep_src_points := square 0 0 |};
         {| dep_src_label := Some "B"; dep_src_points := square 2 0 |};
         {| dep_src_label := Some "C"; dep_src_points := square 4 0 |} ] |}.

(** The facility once the layout is loaded. *)
Definition the_facility_ABC : Registry :=
  {| reg_low := [0; 0]; reg_high := [100; 100];
     reg_departments :=
       [ {| label := "A"; points := [ {| px := 0; py := 0 |}; {| px := 1; py := 0 |};
                                      {| px := 1; py := 1 |}; {| px := 0; py := 1 |} ] |};
         {| label := "B"; points := [ {| px := 2; py := 0 |}; {| px := 3; py := 0 |};
                                      {| px := 3; py := 1 |}; {| px := 2; py := 1 |} ] |};
         {| label := "C"; points := [ {| px := 4; py := 0 |}; {| px := 5; py := 0 |};
                                      {| px := 5; py := 1 |}; {| px := 4; py := 1 |} ] |} ];
     reg_edges := ∅ |}.

(** The files of an installation with the given two tables. *)
Definition installation (primary lookup : list (list string))
  : gmap string (FileData Registry) :=
  <["config.json" := FJson the_conf]>
  (<["layout.json" := FJson the_layout]>
  (<["masterplan.csv" := FCsv primary]>
  (<["peg.csv" := FCsv lookup]> ∅))).

(** The scenario of the specification: two trips from A to B, a self edge
    on A and a record whose source is on the error list. *)
Definition scenario_primary : list (list string) :=
  [["1"; "5"]; ["2"; "3"]; ["3"; "10"]; ["4"; "7"]].

Definition scenario_lookup : list (list string) :=
  [["1"; "A"; "B"; "2015-05-25 18:00:00.000"];
   ["2"; "A"; "B"; "2015-05-26 09:30:00.000"];
   ["3"; "A"; "A"; "2015-05-27 12:00:00.000"];
   ["4"; "Z"; "B"; "2015-05-20 07:15:00.000"]].

(** ** Vocabulary of the statements *)

(** [a] before [b], field by field. *)
Definition dt_before (a b : datetime) : Prop :=
  year a < year b \/ (year a = year b /\
  (month a < month b \/ (month a = month b /\
  (day a < day b \/ (day a = day b /\
  (hour a < hour b \/ (hour a = hour b /\
  (minute a < minute b \/ (minute a = minute b /\
   second a < second b))))))))).

(** The earlier and the later of a candidate and the current value, as the
    loop updates them: the current value stays unless the candidate is
    strictly beyond it. *)
Definition dt_min (cand cur : datetime) : datetime :=
  if dt_ltb cand cur then cand else cur.

Definition dt_max (cand cur : datetime) : datetime :=
  if dt_gtb cand cur then cand else cur.

(** The locals after a record with time stamp [t] was seen without date
    boundaries. *)
Definition seen (t : datetime) (l : Locals) : Locals :=
  {| self_edges_weight := self_edges_weight l;
     date_from := dt_min t (date_from l);
     date_to := dt_max t (date_to l) |}.

(** The locals after a self edge of weight [w] was counted. *)
Definition counted (w : Z) (l : Locals) : Locals :=
  {| self_edges_weight := self_edges_weight l + w;
     date_from := date_from l; date_to := date_to l |}.

(** [m] is the least, respectively the greatest, of the datetimes [ts]. *)
Definition is_minimum (m : datetime) (ts : list datetime) : Prop :=
  In m ts /\ Forall (dt_le m) ts.

Definition is_maximum (m : datetime) (ts : list datetime) : Prop :=
  In m ts /\ Forall (fun t => dt_le t m) ts.

(** The time stamp of a parsed record: [rec[2]] without its last four
    characters, read with the date format. *)
Definition timestamp (entry : string * TranspRec) : option datetime :=
  strptime (strip4 (rec2 entry.2)).

(** A handler that has read its configuration and its layout, about to
    insert the records of the given tables. *)
Definition populated (primary lookup : list (list string)) : State :=
  {| self := {| h_facility := Some the_facility_ABC; h_conf := Some the_conf;
                h_self_edges_weight := None; h_date_from := None;
                h_date_to := None |};
     files := installation primary lookup;
     unwritable := [];
     trace := [] |}.

(** The locals the loop starts from when no boundaries are given. *)
Definition initial_locals : Locals :=
  {| self_edges_weight := 0; date_from := mkdt 9999 1 1 0 0 0;
     date_to := mkdt 1002 1 1 0 0 0 |}.

(** The four records of the scenario. *)
Definition record_AB : TranspRec :=
  {| rec0 := "A"; rec1 := "B"; rec2 := "2015-05-25 18:00:00.000"; rec3 := "5" |}.
Definition record_AB' : TranspRec :=
  {| rec0 := "A"; rec1 := "B"; rec2 := "2015-05-26 09:30:00.000"; rec3 := "3" |}.
Definition record_AA : TranspRec :=
  {| rec0 := "A"; rec1 := "A"; rec2 := "2015-05-27 12:00:00.000"; rec3 := "10" |}.
Definition record_ZB : TranspRec :=
  {| rec0 := "Z"; rec1 := "B"; rec2 := "2015-05-20 07:15:00.000"; rec3 := "7" |}.

(** Tables with a single trip, late in the year 9999. *)
Definition late_primary : list (list string) := [["1"; "5"]].
Definition late_lookup : list (list string) :=
  [["1"; "A"; "B"; "9999-06-01 00:00:00.000"]].
Definition record_late : TranspRec :=
  {| rec0 := "A"; rec1 := "B"; rec2 := "9999-06-01 00:00:00.000"; rec3 := "5" |}.

(** The installation after a forced build on the scenario, and a second
    handler constructed on the files that build left. *)
Definition built : State :=
  (__init__ "config.json" None true None
     (fresh (installation scenario_primary scenario_lookup) [])).2.

Definition restored : State :=
  (__init__ "config.json" None false None (fresh (files built) [])).2.

(** An installation whose layout file has no ["departments"] key, next to an
    artifact from an earlier build. *)
Definition broken_layout : gmap string (FileData Registry) :=
  <["layout.json" := FJson the_conf]>
  (<["facility.pkl" := FPickle (Some the_facility_ABC)]>
   (installation scenario_primary scenario_lookup)).

(** An installation with an artifact from an earlier build. *)
Definition with_artifact : gmap string (FileData Registry) :=
  <["facility.pkl" := FPickle (Some the_facility_ABC)]>
  (installation scenario_primary scenario_lookup).

(** Tables whose one record names a department the layout does not have and
    the error list does not exclude. *)
Definition unknown_primary : list (list string) := [["1"; "5"]].
Definition unknown_lookup : list (list string) :=
  [["1"; "A"; "Q"; "2015-05-25 18:00:00.000"]].

(** ** The rest of the handler, and its caller *)

Section MoreVocabulary.

Context `{Ext : Externals}.

(** [Department(dep_src["label"], *p_vect)] for one entry of the layout:
    the points are read first, then the label (lines 73 to 76). *)
Definition to_department (dep_src : DepSrc) : exn + Department :=
  match dep_src_points dep_src with
  | None => inl (KeyError "points")
  | Some pts =>
      match build_points pts with
      | inl e => inl e
      | inr p_vect =>
          match dep_src_label dep_src with
          | None => inl (KeyError "label")
          | Some lbl => inr {| label := lbl; points := p_vect |}
          end
      end
  end.

(** The departments added one after the other to a facility: the facility
    reached, and the exception that stopped the walk, if one did. *)
Fixpoint add_departments (f : Facility) (deps : list DepSrc)
  : option exn * Facility :=
  match deps with
  | [] => (None, f)
  | dep_src :: deps' =>
      match to_department dep_src with
      | inl e => (Some e, f)
      | inr dep =>
          match add_department f dep with
          | inl e => (Some e, f)
          | inr f' => add_departments f' deps'
          end
      end
  end.

(** The handler with another facility. *)
Definition with_facility (o : option Facility) (s : State) : State :=
  with_self
    {| h_facility := o; h_conf := h_conf (self s);
       h_self_edges_weight := h_self_edges_weight (self s);
       h_date_from := h_date_from (self s); h_date_to := h_date_to (self s) |} s.

(** Two states that differ at most in the facility the handler holds and in
    the log. *)
Definition same_but_facility (s s' : State) : Prop :=
  files s' = files s
  /\ unwritable s' = unwritable s
  /\ h_conf (self s') = h_conf (self s)
  /\ h_self_edges_weight (self s') = h_self_edges_weight (self s)
  /\ h_date_from (self s') = h_date_from (self s)
  /\ h_date_to (self s') = h_date_to (self s).

(** A computation that changes at most the facility and the log. *)
Definition facility_only {A : Type} (m : M State A) : Prop :=
  forall s r s', m s = (r, s') -> same_but_facility s s'.

(** The events of looking for the artifact and reading it. *)
Definition is_restoring (e : Event) : bool :=
  match e with
  | EIsFile _ | EOpen _ ReadBinary => true
  | _ => false
  end.

(** A computation that logs only events on which [P] is false. *)
Definition never_logs {A : Type} (P : Event -> bool) (m : M State A) : Prop :=
  forall s r s', m s = (r, s') ->
    exists evs, trace s' = trace s ++ evs /\ Forall (fun ev => P ev = false) evs.

(** A computation that changes no file and not what can be written. *)
Definition keeps_disk {A : Type} (m : M State A) : Prop :=
  forall s r s', m s = (r, s') ->
    files s' = files s /\ unwritable s' = unwritable s.

(** A computation which, when it returns, has put the facility the handler
    then holds at [dump] and touched no other file, provided [dump] can be
    written and the facility pickled. *)
Definition persists_at {A : Type} (dump : string) (m : M State A) : Prop :=
  forall s x s', m s = (inr x, s') ->
    str_in dump (unwritable s) = false ->
    can_pickle (h_facility (self s')) = true ->
    files s' = <[dump := FPickle (h_facility (self s'))]> (files s).

(** Lines 94 to 98 of [insert_all_transp_records]: the locals its loop
    starts from, or the exception raised before the loop.  [date_from] is
    evaluated first, index and parse, then [date_to]. *)
Definition start_locals (date_boundaries : option (list string))
  : exn + Locals :=
  if db_bool date_boundaries then
    match date_boundaries with
    | Some (b0 :: rest) =>
        match strptime b0 with
        | None => inl ValueError
        | Some lo =>
            match rest with
            | [] => inl IndexError
            | b1 :: _ =>
                match strptime b1 with
                | None => inl ValueError
                | Some hi =>
                    inr {| self_edges_weight := 0; date_from := lo;
                           date_to := hi |}
                end
            end
        end
    | _ => inl TypeError
    end
  else
    match strptime sentinel_from, strptime sentinel_to with
    | Some d_from, Some d_to =>
        inr {| self_edges_weight := 0; date_from := d_from; date_to := d_to |}
    | _, _ => inl ValueError
    end.

(** Line 124: what the method returns from the locals the loop ended
    with. *)
Definition returned (l : Locals) : Z * string * string :=
  (self_edges_weight l, strftime (date_from l), strftime (date_to l)).

(** The method's outcome from the outcome of its loop. *)
Definition finish (r : (exn + Locals) * State)
  : (exn + Z * string * string) * State :=
  match r with
  | (inl e, s) => (inl e, s)
  | (inr l, s) => (inr (returned l), s)
  end.

(** An outcome of the loop with [w] more on the self-edge weight. *)
Definition and_counted (w : Z) (r : (exn + Locals) * State)
  : (exn + Locals) * State :=
  match r with
  | (inl e, s) => (inl e, s)
  | (inr l, s) => (inr (counted w l), s)
  end.

(** Line 47 of the constructor: the artifact is looked for only when no
    date boundaries are given and the rebuild is not forced. *)
Definition look_for (force_rebuild : bool)
    (date_boundaries : option (list string)) (conf : JsonDoc) (s : State)
  : State :=
  if negb (db_bool date_boundaries) && negb force_rebuild then
    match facility_dump_path conf with
    | Some dump => logged (EIsFile dump) s
    | None => s
    end
  else s.

(** The state in which the rebuilding branch of the constructor calls
    [populate_facility] (line 52): the configuration is loaded, the handler
    holds the empty facility of line 51, and the log has the configuration
    opened and the artifact looked for, if it was. *)
Definition build_start (path_to_conf_file : string) (force_rebuild : bool)
    (date_boundaries : option (list string)) (conf : JsonDoc)
    (low high : list Z) (s : State) : State :=
  {| self := {| h_facility := Some (Facility_new low high);
                h_conf := Some conf;
                h_self_edges_weight := h_self_edges_weight (self s);
                h_date_from := h_date_from (self s);
                h_date_to := h_date_to (self s) |};
     files := files s;
     unwritable := unwritable s;
     trace := trace (look_for force_rebuild date_boundaries conf
                       (logged (EOpen path_to_conf_file ReadText) s)) |}.

End MoreVocabulary.

(** *** The pieces of a date string *)

(** A number written with one digit or with two. *)
Definition digits_token (tok : list ascii) (v : Z) : Prop :=
  (exists a, tok = [a] /\ digit_of_ascii a = Some v)
  \/ (exists a b x y, tok = [a; b] /\ digit_of_ascii a = Some x
                      /\ digit_of_ascii b = Some y /\ v = 10 * x + y).

(** *** [views.py] *)

(** [x + dummy_time] where [x] is what [request.args.get(key, None,
    type=str)] gave: [None] for an absent argument, and then the sum raises
    [TypeError]. *)
Definition dummy_time : string := " 00:00:00".

Definition add_dummy_time (arg : option string) : exn + string :=
  match arg with
  | Some x => inr (x +:+ dummy_time)
  | None => inl TypeError
  end.

(** The [date_boundaries] that [get_data_filtered] hands on, from the request
    arguments [start] and [end] (lines 20 to 23). *)
Definition get_data_filtered_boundaries (start end_ : option string)
  : exn + list string :=
  match add_dummy_time start with
  | inl e => inl e
  | inr date_from =>
      match add_dummy_time end_ with
      | inl e => inl e
      | inr date_to => inr [date_from; date_to]
      end
  end.

(** The time of day of a datetime is midnight. *)
Definition at_midnight (d : datetime) : Prop :=
  hour d = 0 /\ minute d = 0 /\ second d = 0.

(** Two datetimes on the same calendar day. *)
Definition same_day (a b : datetime) : Prop :=
  year a = year b /\ month a = month b /\ day a = day b.

(** *** More of the small installation *)

(** A handler that has read its configuration and made its empty facility,
    about to read the layout. *)
Definition unpopulated (fs : gmap string (FileData Registry)) : State :=
  {| self := {| h_facility := Some (reg_new [0; 0] [100; 100]);
                h_conf := Some the_conf;
                h_self_edges_weight := None; h_date_from := None;
                h_date_to := None |};
     files := fs;
     unwritable := [];
     trace := [] |}.

(** The departments of the layout, and a layout that names A twice. *)
Definition dep_A : DepSrc :=
  {| dep_src_label := Some "A"; dep_src_points := square 0 0 |}.
Definition dep_B : DepSrc :=
  {| dep_src_label := Some "B"; dep_src_points := square 2 0 |}.
Definition dep_C : DepSrc :=
  {| dep_src_label := Some "C"; dep_src_points := square 4 0 |}.

Definition layout_with_duplicate : JsonDoc :=
  {| facility_dump_path := None; facility_boundaries := None;
     facility_source_path := None; masterplan_csv_path := None;
     peg_csv_path := None; error_dep_list := None;
     departments := Some ([dep_A; dep_B] ++ dep_A :: [dep_C]) |}.

(** The facility with the departments A and B only. *)
Definition the_facility_AB : Registry :=
  {| reg_low := [0; 0]; reg_high := [100; 100];
     reg_departments :=
       [ {| label := "A"; points := [ {| px := 0; py := 0 |}; {| px := 1; py := 0 |};
                                      {| px := 1; py := 1 |}; {| px := 0; py := 1 |} ] |};
         {| label := "B"; points := [ {| px := 2; py := 0 |}; {| px := 3; py := 0 |};
                                      {| px := 3; py := 1 |}; {| px := 2; py := 1 |} ] |} ];
     reg_edges := ∅ |}.

(** The scenario's primary table read backwards. *)
Definition scenario_primary_reversed : list (list string) :=
  [["4"; "7"]; ["3"; "10"]; ["2"; "3"]; ["1"; "5"]].

(** A trip to a department the layout does not have, and a record whose
    time stamp is no date. *)
Definition record_AQ : TranspRec :=
  {| rec0 := "A"; rec1 := "Q"; rec2 := "2015-05-25 18:00:00.000"; rec3 := "5" |}.
Definition record_undated : TranspRec :=
  {| rec0 := "A"; rec1 := "B"; rec2 := "yesterday evening.000"; rec3 := "5" |}.

(** The installation with that layout in place of the usual one. *)
Definition installation_with_duplicate : gmap string (FileData Registry) :=
  <["layout.json" := FJson layout_with_duplicate]>
  (installation scenario_primary scenario_lookup).

(** The records the parser gives on the scenario, and on its primary table
    read backwards. *)
Definition scenario_records : list (string * TranspRec) :=
  [("1"%string, record_AB); ("2"%string, record_AB');
   ("3"%string, record_AA); ("4"%string, record_ZB)].

Definition scenario_records_reversed : list (string * TranspRec) :=
  [("4"%string, record_ZB); ("3"%string, record_AA);
   ("2"%string, record_AB'); ("1"%string, record_AB)].

(** The scenario once the loop has got through its first two records, the
    trips from A to B, each read throughout a call without boundaries. *)
Definition after_two_trips : State :=
  (for_each [("1"%string, record_AB); ("2"%string, record_AB')]
     (insert_body None) initial_locals
     (parsed "masterplan.csv" "peg.csv"
        (populated scenario_primary scenario_lookup))).2.

(** The facility of the layout with one trip of weight [w] from A to B. *)
Definition the_facility_with_trip (w : Z) : Registry :=
  {| reg_low := reg_low the_facility_ABC;
     reg_high := reg_high the_facility_ABC;
     reg_departments := reg_departments the_facility_ABC;
     reg_edges := <[("A.centroid"%string, "B.centroid"%string) := w]> ∅ |}.

(** Boundaries around the second trip, boundaries around the self edge, and
    the first ones written without the leading zero of the month. *)
Definition second_trip_only : list string :=
  ["2015-05-26 00:00:00"; "2015-05-27 00:00:00"]%string.
Definition self_edge_day : list string :=
  ["2015-05-27 00:00:00"; "2015-05-28 00:00:00"]%string.
Definition second_trip_only_unpadded : list string :=
  ["2015-5-26 00:00:00"; "2015-5-27 00:00:00"]%string.

(** * Properties *)

(** ** The library functions on examples *)

Example strptime_ex :
  strptime "2015-05-25 18:00:00" = Some (mkdt 2015 5 25 18 0 0).
Proof. reflexivity. Qed.

Example strptime_bad_day : strptime "2015-02-30 18:00:00" = None.
Proof. reflexivity. Qed.

Example strftime_ex :
  strftime (mkdt 2015 5 25 18 0 0) = "2015-05-25 18:00:00"%string.
Proof. reflexivity. Qed.

Example strip4_ex : strip4 "2015-05-25 18:00:00.000" = "2015-05-25 18:00:00"%string.
Proof. reflexivity. Qed.

Example py_int_ex : py_int "42" = Some 42 /\ py_int "-7" = Some (-7) /\ py_int "4x" = None.
Proof. repeat split; reflexivity. Qed.

(** Fields may be written without their leading zero and the blank may be
    any white space; what follows the seconds is refused. *)
Example strptime_loose :
  strptime "2015-5-26 0:00:07" = Some (mkdt 2015 5 26 0 0 7)
  /\ strptime "2015-05- 6  18:00:00" = Some (mkdt 2015 5 6 18 0 0)
  /\ strptime "2015-05-26 18:00:00 " = None
  /\ strptime "2015-05-26 24:00:00" = None
  /\ strptime "0000-01-01 00:00:00" = None.
Proof. repeat split; reflexivity. Qed.

(** A year before 1000 is read with four digits and written with fewer. *)
Example strftime_early_year :
  strptime "0042-06-01 00:00:00" = Some (mkdt 42 6 1 0 0 0)
  /\ strftime (mkdt 42 6 1 0 0 0) = "42-06-01 00:00:00"%string
  /\ strftime (mkdt 999 12 31 0 0 0) = "999-12-31 00:00:00"%string.
Proof. repeat split; reflexivity. Qed.

Example py_int_loose :
  py_int " 42 " = Some 42 /\ py_int "1_000" = Some 1000
  /\ py_int "+007" = Some 7 /\ py_int "1__0" = None /\ py_int "- 1" = None
  /\ py_int "" = None.
Proof. repeat split; reflexivity. Qed.

(** ** The order on datetimes *)

Lemma lex_Eq c1 c2 : lex c1 c2 = Eq <-> c1 = Eq /\ c2 = Eq.
Proof. destruct c1, c2; simpl; intuition congruence. Qed.

Lemma lex_Lt c1 c2 : lex c1 c2 = Lt <-> c1 = Lt \/ (c1 = Eq /\ c2 = Lt).
Proof. destruct c1, c2; simpl; intuition congruence. Qed.

Lemma lex_Gt c1 c2 : lex c1 c2 = Gt <-> c1 = Gt \/ (c1 = Eq /\ c2 = Gt).
Proof. destruct c1, c2; simpl; intuition congruence. Qed.

Lemma dt_compare_Eq a b : dt_compare a b = Eq <-> a = b.
Proof.
  unfold dt_compare. rewrite !lex_Eq, !Z.compare_eq_iff.
  destruct a, b; simpl. split.
  - intros (-> & -> & -> & -> & -> & ->). reflexivity.
  - intros [= -> -> -> -> -> ->]. tauto.
Qed.

Lemma dt_compare_Lt a b : dt_compare a b = Lt <-> dt_before a b.
Proof.
  unfold dt_compare, dt_before.
  rewrite !lex_Lt, !Z.compare_eq_iff, !Z.compare_lt_iff. reflexivity.
Qed.

Lemma dt_compare_Gt a b : dt_compare a b = Gt <-> dt_before b a.
Proof.
  unfold dt_compare, dt_before.
  rewrite !lex_Gt, !Z.compare_eq_iff, !Z.compare_gt_iff.
  intuition lia.
Qed.

Lemma dt_ltb_before a b : dt_ltb a b = true <-> dt_before a b.
Proof.
  rewrite <- dt_compare_Lt. unfold dt_ltb.
  destruct (dt_compare a b); intuition congruence.
Qed.

Lemma dt_leb_spec a b : dt_leb a b = true <-> a = b \/ dt_before a b.
Proof.
  rewrite <- dt_compare_Eq, <- dt_compare_Lt. unfold dt_leb.
  destruct (dt_compare a b); intuition congruence.
Qed.

Lemma dt_ltb_leb a b : dt_ltb a b = negb (dt_leb b a).
Proof.
  unfold dt_ltb, dt_leb.
  destruct (dt_compare a b) eqn:Hab, (dt_compare b a) eqn:Hba; try reflexivity;
    exfalso.
  all: try (apply dt_compare_Eq in Hab; subst;
            first [ apply dt_compare_Lt in Hba | apply dt_compare_Gt in Hba ];
            unfold dt_before in Hba; lia).
  all: try (apply dt_compare_Eq in Hba; subst;
            first [ apply dt_compare_Lt in Hab | apply dt_compare_Gt in Hab ];
            unfold dt_before in Hab; lia).
  all: try (apply dt_compare_Lt in Hab; apply dt_compare_Lt in Hba;
            unfold dt_before in *; lia).
  all: try (apply dt_compare_Gt in Hab; apply dt_compare_Gt in Hba;
            unfold dt_before in *; lia).
Qed.

Lemma dt_le_refl a : dt_le a a.
Proof. apply dt_leb_spec. now left. Qed.

Lemma dt_before_trans a b c : dt_before a b -> dt_before b c -> dt_before a c.
Proof. unfold dt_before. lia. Qed.

Lemma dt_le_trans a b c : dt_le a b -> dt_le b c -> dt_le a c.
Proof.
  unfold dt_le. rewrite !dt_leb_spec.
  intros [-> | Hab] [-> | Hbc]; auto.
  right. eapply dt_before_trans; eauto.
Qed.

Lemma dt_before_irrefl a : ~ dt_before a a.
Proof. unfold dt_before. lia. Qed.

Lemma dt_le_antisym a b : dt_le a b -> dt_le b a -> a = b.
Proof.
  unfold dt_le. rewrite !dt_leb_spec.
  intros [-> | Hab] [Heq | Hba]; auto.
  exfalso. eapply dt_before_irrefl, dt_before_trans; eauto.
Qed.

Lemma dt_le_total a b : dt_le a b \/ dt_le b a.
Proof.
  unfold dt_le. destruct (dt_leb a b) eqn:E; auto.
  right. pose proof (dt_ltb_leb b a) as H. rewrite E in H. simpl in H.
  apply dt_leb_spec. right. now apply dt_ltb_before.
Qed.

Lemma dt_ltb_false_le a b : dt_ltb a b = false -> dt_le b a.
Proof.
  rewrite dt_ltb_leb. unfold dt_le. destruct (dt_leb b a); simpl; congruence.
Qed.

Lemma dt_ltb_true_le a b : dt_ltb a b = true -> dt_le a b.
Proof.
  intros H. apply dt_leb_spec. right. now apply dt_ltb_before.
Qed.

(** ** The loop of [insert_all_transp_records] *)

Section Loop.

Context `{Ext : Externals}.

Implicit Types (s : State) (l : Locals) (rec : TranspRec)
  (db : option (list string)).

Ltac unfold_monad :=
  unfold subscript, index, of_result, or_raise, try_except, bind, ret, raise
    in *.

(** Without boundaries the tracking reads the time stamp and keeps the
    state. *)
Lemma track_dates_without db rec l s t :
  db_bool db = false ->
  strptime (strip4 (rec2 rec)) = Some t ->
  track_dates db rec l s = (inr (seen t l), s).
Proof.
  intros Hdb Ht. unfold track_dates. rewrite Hdb. simpl.
  unfold_monad. rewrite Ht. unfold seen, dt_min, dt_max.
  destruct l as [w d_from d_to]; simpl.
  destruct (dt_ltb t d_from); simpl; destruct (dt_gtb t d_to); reflexivity.
Qed.

Lemma track_dates_unparsed db rec l s :
  db_bool db = false ->
  strptime (strip4 (rec2 rec)) = None ->
  track_dates db rec l s = (inl ValueError, s).
Proof.
  intros Hdb Ht. unfold track_dates. rewrite Hdb. simpl.
  unfold_monad. now rewrite Ht.
Qed.

Lemma track_dates_with db rec l s :
  db_bool db = true -> track_dates db rec l s = (inr l, s).
Proof. intros Hdb. unfold track_dates. now rewrite Hdb. Qed.

Lemma in_error_list_conf rec s conf errs :
  h_conf (self s) = Some conf ->
  error_dep_list conf = Some errs ->
  in_error_list rec s
  = (inr (str_in (rec0 rec) errs || str_in (rec1 rec) errs), s).
Proof.
  intros Hc He. unfold in_error_list, get_conf. unfold_monad.
  rewrite Hc. simpl. now rewrite He.
Qed.

Lemma in_error_list_state rec s r s' :
  in_error_list rec s = (r, s') -> s' = s.
Proof.
  unfold in_error_list, get_conf. unfold_monad.
  destruct (h_conf (self s)) as [c|]; [destruct (error_dep_list c)|];
    simpl; intros ?; simplify_eq; reflexivity.
Qed.

Lemma out_of_boundaries_without db rec s :
  db_bool db = false -> out_of_boundaries db rec s = (inr false, s).
Proof. intros Hdb. unfold out_of_boundaries. now rewrite Hdb. Qed.

Lemma out_of_boundaries_with from to rec s lo hi t :
  strptime from = Some lo ->
  strptime to = Some hi ->
  strptime (strip4 (rec2 rec)) = Some t ->
  out_of_boundaries (Some [from; to]) rec s
  = (inr (negb (dt_leb lo t && dt_leb t hi)), s).
Proof.
  intros Hlo Hhi Ht. unfold out_of_boundaries, db_index. simpl.
  unfold_monad. simpl. rewrite Hlo, Ht.
  destruct (dt_leb lo t); simpl; [now rewrite Hhi | reflexivity].
Qed.

Lemma out_of_boundaries_state db rec s r s' :
  out_of_boundaries db rec s = (r, s') -> s' = s.
Proof.
  unfold out_of_boundaries, db_index. unfold_monad.
  repeat case_match; simpl; intros ?; simplify_eq; reflexivity.
Qed.

(** The insertion never touches the two dates. *)
Lemma try_insert_dates rec l s l' s' :
  try_insert rec l s = (inr l', s') ->
  date_from l' = date_from l /\ date_to l' = date_to l.
Proof.
  unfold try_insert, the_facility, get_facility, set_facility.
  unfold_monad. repeat case_match; simplify_eq; intros [= <- _]; auto.
Qed.

Lemma insert_body_dates_without db entry l s l' s' :
  db_bool db = false ->
  insert_body db entry l s = (inr l', s') ->
  exists t, timestamp entry = Some t
            /\ date_from l' = dt_min t (date_from l)
            /\ date_to l' = dt_max t (date_to l).
Proof.
  intros Hdb. unfold insert_body, timestamp. unfold bind at 1.
  destruct (strptime (strip4 (rec2 entry.2))) as [t|] eqn:Ht.
  - rewrite (track_dates_without _ _ _ _ t Hdb Ht).
    unfold bind at 1.
    destruct (in_error_list entry.2 s) as [[e|skip] s1] eqn:Hin; [discriminate|].
    apply in_error_list_state in Hin as ->.
    destruct skip.
    + intros [= <- _]. exists t. auto.
    + unfold bind. rewrite (out_of_boundaries_without _ _ _ Hdb).
      intros H. apply try_insert_dates in H as [-> ->]. exists t. auto.
  - rewrite (track_dates_unparsed _ _ _ _ Hdb Ht). discriminate.
Qed.

Lemma insert_body_dates_with db entry l s l' s' :
  db_bool db = true ->
  insert_body db entry l s = (inr l', s') ->
  date_from l' = date_from l /\ date_to l' = date_to l.
Proof.
  intros Hdb. unfold insert_body. unfold bind at 1.
  rewrite (track_dates_with _ _ _ _ Hdb).
  unfold bind at 1.
  destruct (in_error_list entry.2 s) as [[e|skip] s1] eqn:Hin; [discriminate|].
  destruct skip; [intros [= <- _]; auto|].
  unfold bind at 1.
  destruct (out_of_boundaries db entry.2 s1) as [[e|out] s2]; [discriminate|].
  destruct out; [intros [= <- _]; auto|].
  apply try_insert_dates.
Qed.

(** The dates after the loop, without boundaries: every record's time stamp
    was read, and folded into the running minimum and maximum in visit
    order. *)
Lemma for_each_dates_without db res : forall l s l' s',
  db_bool db = false ->
  for_each res (insert_body db) l s = (inr l', s') ->
  exists ts, Forall2 (fun e t => timestamp e = Some t) res ts
             /\ date_from l' = fold_left (fun cur t => dt_min t cur) ts (date_from l)
             /\ date_to l' = fold_left (fun cur t => dt_max t cur) ts (date_to l).
Proof.
  induction res as [|e res IH]; intros l s l' s' Hdb; simpl.
  - intros [= <- _]. exists []. auto.
  - unfold bind.
    destruct (insert_body db e l s) as [[x|l1] s1] eqn:Hb; [discriminate|].
    intros Hrest.
    destruct (insert_body_dates_without _ _ _ _ _ _ Hdb Hb) as (t & Ht & Hf & Hto).
    destruct (IH _ _ _ _ Hdb Hrest) as (ts & Hts & Hf' & Hto').
    exists (t :: ts). simpl. rewrite <- Hf, <- Hto. auto.
Qed.

Lemma for_each_dates_with db res : forall l s l' s',
  db_bool db = true ->
  for_each res (insert_body db) l s = (inr l', s') ->
  date_from l' = date_from l /\ date_to l' = date_to l.
Proof.
  induction res as [|e res IH]; intros l s l' s' Hdb; simpl.
  - intros [= <- _]. auto.
  - unfold bind.
    destruct (insert_body db e l s) as [[x|l1] s1] eqn:Hb; [discriminate|].
    intros Hrest.
    destruct (insert_body_dates_with _ _ _ _ _ _ Hdb Hb) as [<- <-].
    eauto.
Qed.

End Loop.

(** ** [insert_all_transp_records] as a whole *)

Section InsertAll.

Context `{Ext : Externals}.

Implicit Types (s : State) (l : Locals) (db : option (list string)).

Lemma strptime_sentinel_from : strptime sentinel_from = Some (mkdt 9999 1 1 0 0 0).
Proof. reflexivity. Qed.

Lemma strptime_sentinel_to : strptime sentinel_to = Some (mkdt 1002 1 1 0 0 0).
Proof. reflexivity. Qed.

(** The method without boundaries: the loop starts from the two sentinels. *)
Lemma insert_all_without mp peg db s :
  db_bool db = false ->
  insert_all_transp_records mp peg db s =
  match mpp_parse (files s !! mp) (files s !! peg) with
  | inl e => (inl e, parsed mp peg s)
  | inr res =>
      match for_each res (insert_body db)
              {| self_edges_weight := 0; date_from := mkdt 9999 1 1 0 0 0;
                 date_to := mkdt 1002 1 1 0 0 0 |} (parsed mp peg s) with
      | (inl e, s') => (inl e, s')
      | (inr l, s') =>
          (inr (self_edges_weight l, strftime (date_from l), strftime (date_to l)), s')
      end
  end.
Proof.
  intros Hdb. unfold insert_all_transp_records. rewrite Hdb.
  rewrite strptime_sentinel_from, strptime_sentinel_to.
  unfold bind, log, of_result, or_raise, ret, raise, parsed. simpl.
  destruct (mpp_parse _ _); reflexivity.
Qed.

(** The method with the boundaries [from] and [to]. *)
Lemma insert_all_with mp peg from to lo hi s :
  strptime from = Some lo ->
  strptime to = Some hi ->
  insert_all_transp_records mp peg (Some [from; to]) s =
  match mpp_parse (files s !! mp) (files s !! peg) with
  | inl e => (inl e, parsed mp peg s)
  | inr res =>
      match for_each res (insert_body (Some [from; to]))
              {| self_edges_weight := 0; date_from := lo; date_to := hi |}
              (parsed mp peg s) with
      | (inl e, s') => (inl e, s')
      | (inr l, s') =>
          (inr (self_edges_weight l, strftime (date_from l), strftime (date_to l)), s')
      end
  end.
Proof.
  intros Hlo Hhi. unfold insert_all_transp_records, db_index, index. simpl.
  unfold bind, log, of_result, or_raise, ret, raise, parsed. simpl.
  rewrite Hlo, Hhi.
  destruct (mpp_parse _ _); reflexivity.
Qed.

End InsertAll.

(** ** Minimum and maximum *)

Lemma dt_min_cases t cur : dt_min t cur = t \/ dt_min t cur = cur.
Proof. unfold dt_min. destruct (dt_ltb t cur); auto. Qed.

Lemma dt_min_le_l t cur : dt_le (dt_min t cur) t.
Proof.
  unfold dt_min. destruct (dt_ltb t cur) eqn:E.
  - apply dt_le_refl.
  - now apply dt_ltb_false_le.
Qed.

Lemma dt_min_le_r t cur : dt_le (dt_min t cur) cur.
Proof.
  unfold dt_min. destruct (dt_ltb t cur) eqn:E.
  - now apply dt_ltb_true_le.
  - apply dt_le_refl.
Qed.

Lemma dt_max_cases t cur : dt_max t cur = t \/ dt_max t cur = cur.
Proof. unfold dt_max. destruct (dt_gtb t cur); auto. Qed.

Lemma dt_max_ge_l t cur : dt_le t (dt_max t cur).
Proof.
  unfold dt_max, dt_gtb. destruct (dt_ltb cur t) eqn:E.
  - apply dt_le_refl.
  - now apply dt_ltb_false_le.
Qed.

Lemma dt_max_ge_r t cur : dt_le cur (dt_max t cur).
Proof.
  unfold dt_max, dt_gtb. destruct (dt_ltb cur t) eqn:E.
  - now apply dt_ltb_true_le.
  - apply dt_le_refl.
Qed.

(** The running minimum ends as the least of the start value and the
    values seen. *)
Lemma fold_min_is_minimum ts : forall d0,
  is_minimum (fold_left (fun cur t => dt_min t cur) ts d0) (d0 :: ts).
Proof.
  induction ts as [|t ts IH]; intros d0; simpl.
  - split; [now left | constructor; [apply dt_le_refl | constructor]].
  - destruct (IH (dt_min t d0)) as [Hin Hall].
    inversion Hall as [|? ? Hhd Htl]; subst. split.
    + destruct Hin as [Hin | Hin].
      * rewrite <- Hin. destruct (dt_min_cases t d0) as [-> | ->]; simpl; auto.
      * simpl. auto.
    + constructor; [|constructor]; auto.
      * eapply dt_le_trans; [exact Hhd | apply dt_min_le_r].
      * eapply dt_le_trans; [exact Hhd | apply dt_min_le_l].
Qed.

Lemma fold_max_is_maximum ts : forall d0,
  is_maximum (fold_left (fun cur t => dt_max t cur) ts d0) (d0 :: ts).
Proof.
  induction ts as [|t ts IH]; intros d0; simpl.
  - split; [now left | constructor; [apply dt_le_refl | constructor]].
  - destruct (IH (dt_max t d0)) as [Hin Hall].
    inversion Hall as [|? ? Hhd Htl]; subst. split.
    + destruct Hin as [Hin | Hin].
      * rewrite <- Hin. destruct (dt_max_cases t d0) as [-> | ->]; simpl; auto.
      * simpl. auto.
    + constructor; [|constructor]; auto.
      * eapply dt_le_trans; [apply dt_max_ge_r | exact Hhd].
      * eapply dt_le_trans; [apply dt_max_ge_l | exact Hhd].
Qed.

(** When a value seen is not beyond the start value, the start value can be
    left out. *)
Lemma is_minimum_drop m d0 ts :
  is_minimum m (d0 :: ts) -> Exists (fun t => dt_le t d0) ts -> is_minimum m ts.
Proof.
  intros [Hin Hall] Hex. inversion Hall as [|? ? Hd0 Hts]; subst.
  split; [|exact Hts].
  destruct Hin as [<- | Hin]; [|exact Hin].
  apply Exists_exists in Hex as (t & Ht & Hle).
  rewrite Forall_forall in Hts.
  assert (t = d0) as <- by (apply dt_le_antisym; [exact Hle | apply Hts, Ht]).
  now apply list_elem_of_In.
Qed.

Lemma is_maximum_drop m d0 ts :
  is_maximum m (d0 :: ts) -> Exists (fun t => dt_le d0 t) ts -> is_maximum m ts.
Proof.
  intros [Hin Hall] Hex. inversion Hall as [|? ? Hd0 Hts]; subst.
  split; [|exact Hts].
  destruct Hin as [<- | Hin]; [|exact Hin].
  apply Exists_exists in Hex as (t & Ht & Hle).
  rewrite Forall_forall in Hts.
  assert (t = d0) as <- by (apply dt_le_antisym; [apply Hts, Ht | exact Hle]).
  now apply list_elem_of_In.
Qed.

(** A running minimum that no value seen undercuts stays where it
    started. *)
Lemma fold_min_unchanged ts : forall d0,
  Forall (fun t => dt_ltb t d0 = false) ts ->
  fold_left (fun cur t => dt_min t cur) ts d0 = d0.
Proof.
  induction ts as [|t ts IH]; intros d0 H; simpl; [reflexivity|].
  inversion H as [|? ? Ht Hts]; subst.
  unfold dt_min at 2. rewrite Ht. now apply IH.
Qed.

Lemma fold_max_unchanged ts : forall d0,
  Forall (fun t => dt_gtb t d0 = false) ts ->
  fold_left (fun cur t => dt_max t cur) ts d0 = d0.
Proof.
  induction ts as [|t ts IH]; intros d0 H; simpl; [reflexivity|].
  inversion H as [|? ? Ht Hts]; subst.
  unfold dt_max at 2. rewrite Ht. now apply IH.
Qed.

(** ** The observed date range *)

Section ObservedDates.

Context `{Ext : Externals}.

Lemma timestamps_Forall (Q : datetime -> Prop) res ts :
  Forall2 (fun e t => timestamp e = Some t) res ts ->
  Forall (fun e => forall t, timestamp e = Some t -> Q t) res ->
  Forall Q ts.
Proof.
  induction 1 as [|e t res' ts' Het _ IH]; intros Hall; [constructor|].
  inversion Hall; subst. constructor; auto.
Qed.

(** C2, as amended.  Without date boundaries, a call that returns has read
    the time stamp of every parsed record, whether or not the record is
    later dropped for its labels or counted as a self edge; it returns as
    [observedDateFrom] the least of the sentinel 9999-01-01 00:00:00 and all
    these time stamps, and as [observedDateTo] the greatest of the sentinel
    1002-01-01 00:00:00 and all of them.  They are the minimum and the
    maximum of the time stamps alone whenever some time stamp is not later
    than the first sentinel, respectively not earlier than the second. *)
Theorem observed_dates_without_boundaries
    (mp peg : string) (db : option (list string)) (s s' : State)
    (w : Z) (observedDateFrom observedDateTo : string) :
  db_bool db = false ->
  insert_all_transp_records mp peg db s
    = (inr (w, observedDateFrom, observedDateTo), s') ->
  exists res ts d_hi d_lo m_from m_to,
    mpp_parse (files s !! mp) (files s !! peg) = inr res
    /\ Forall2 (fun e t => timestamp e = Some t) res ts
    /\ strptime sentinel_from = Some d_hi
    /\ strptime sentinel_to = Some d_lo
    /\ observedDateFrom = strftime m_from
    /\ observedDateTo = strftime m_to
    /\ is_minimum m_from (d_hi :: ts)
    /\ is_maximum m_to (d_lo :: ts)
    /\ (Exists (fun t => dt_le t d_hi) ts -> is_minimum m_from ts)
    /\ (Exists (fun t => dt_le d_lo t) ts -> is_maximum m_to ts).
Proof.
  intros Hdb Hrun. rewrite (insert_all_without _ _ _ _ Hdb) in Hrun.
  destruct (mpp_parse _ _) as [e|res]; [discriminate|].
  destruct (for_each res _ _ _) as [[e|l] s1] eqn:Hloop; [discriminate|].
  injection Hrun as <- <- <- <-.
  destruct (for_each_dates_without _ _ _ _ _ _ Hdb Hloop) as (ts & Hts & Hf & Ht).
  simpl in Hf, Ht.
  exists res, ts, (mkdt 9999 1 1 0 0 0), (mkdt 1002 1 1 0 0 0),
    (date_from l), (date_to l).
  pose proof (fold_min_is_minimum ts (mkdt 9999 1 1 0 0 0)) as Hmin.
  pose proof (fold_max_is_maximum ts (mkdt 1002 1 1 0 0 0)) as Hmax.
  rewrite <- Hf in Hmin. rewrite <- Ht in Hmax.
  split_and!; try reflexivity; try assumption.
  - intros Hex. eapply is_minimum_drop; eauto.
  - intros Hex. eapply is_maximum_drop; eauto.
Qed.

(** C10.  Without date boundaries and with no record parsed, the method
    returns no self-edge weight and the two sentinels as they are,
    ["9999-01-01 00:00:00"] as [observedDateFrom] and
    ["1002-01-01 00:00:00"] as [observedDateTo]: a range whose start is
    later than its end.  More generally a sentinel is returned as it is
    whenever the loop never replaces it: the first when no time stamp is
    earlier than it, the second when none is later. *)
Theorem no_records_returns_sentinels
    (mp peg : string) (db : option (list string)) (s : State) :
  db_bool db = false ->
  mpp_parse (files s !! mp) (files s !! peg) = inr [] ->
  insert_all_transp_records mp peg db s
    = (inr (0, "9999-01-01 00:00:00"%string, "1002-01-01 00:00:00"%string),
       parsed mp peg s)
  /\ (exists d_from d_to,
        strptime "9999-01-01 00:00:00" = Some d_from
        /\ strptime "1002-01-01 00:00:00" = Some d_to
        /\ dt_lt d_to d_from)
  /\ (forall s0 s' w observedDateFrom observedDateTo res,
        insert_all_transp_records mp peg db s0
          = (inr (w, observedDateFrom, observedDateTo), s') ->
        mpp_parse (files s0 !! mp) (files s0 !! peg) = inr res ->
        (Forall (fun e => forall t, timestamp e = Some t ->
                   dt_ltb t (mkdt 9999 1 1 0 0 0) = false) res ->
         observedDateFrom = "9999-01-01 00:00:00"%string)
        /\ (Forall (fun e => forall t, timestamp e = Some t ->
                      dt_gtb t (mkdt 1002 1 1 0 0 0) = false) res ->
            observedDateTo = "1002-01-01 00:00:00"%string)).
Proof.
  intros Hdb Hres. split_and!.
  - rewrite (insert_all_without _ _ _ _ Hdb), Hres. reflexivity.
  - exists (mkdt 9999 1 1 0 0 0), (mkdt 1002 1 1 0 0 0).
    repeat split; reflexivity.
  - intros s0 s' w df dt res Hrun Hparse.
    rewrite (insert_all_without _ _ _ _ Hdb), Hparse in Hrun.
    destruct (for_each res _ _ _) as [[e|l] s1] eqn:Hloop; [discriminate|].
    injection Hrun as <- <- <- <-.
    destruct (for_each_dates_without _ _ _ _ _ _ Hdb Hloop) as (ts & Hts & Hf & Ht).
    simpl in Hf, Ht. split; intros Hall.
    + rewrite Hf, fold_min_unchanged; [reflexivity|].
      eapply timestamps_Forall; eauto.
    + rewrite Ht, fold_max_unchanged; [reflexivity|].
      eapply timestamps_Forall; eauto.
Qed.

End ObservedDates.

(** ** Skipped records, self edges, and the single parse *)

Section Records.

Context `{Ext : Externals}.

Implicit Types (s : State) (l : Locals) (rec : TranspRec)
  (db : option (list string)).

Lemma for_each_ext {A L : Type} (f g : A -> L -> M State L) (xs : list A) :
  (forall x (a : L) s, f x a s = g x a s) ->
  forall (a : L) s, for_each xs f a s = for_each xs g a s.
Proof.
  intros Hfg. induction xs as [|x xs IH]; intros a s; simpl; [reflexivity|].
  unfold bind. rewrite Hfg.
  destruct (g x a s) as [[e|a1] s1]; [reflexivity | apply IH].
Qed.

Lemma track_dates_single_parse_eq db rec l s :
  track_dates db rec l s = track_dates_single_parse db rec l s.
Proof.
  unfold track_dates, track_dates_single_parse.
  destruct (negb (db_bool db)); [|reflexivity].
  unfold bind, or_raise, ret, raise.
  destruct (strptime (strip4 (rec2 rec))); reflexivity.
Qed.

(** C9.  The method, which parses each time stamp twice when it tracks the
    dates, returns what the method that parses it once returns, and leaves
    the same state: the same [observedDateFrom] and [observedDateTo], the
    same self-edge weight, the same facility, the same exception if any. *)
Theorem double_parse_refines_single_parse
    (mp peg : string) db s :
  insert_all_transp_records mp peg db s
  = insert_all_transp_records_single_parse mp peg db s.
Proof.
  unfold insert_all_transp_records, insert_all_transp_records_single_parse.
  unfold bind.
  destruct (log (ECallInsertAll mp peg) s) as [[e|[]] s1]; [reflexivity|].
  destruct (log (ENewParser mp peg) s1) as [[e|[]] s2]; [reflexivity|].
  destruct (log (EParse mp peg) s2) as [[e|[]] s3]; [reflexivity|].
  destruct (of_result _ s3) as [[e|res] s4]; [reflexivity|].
  destruct (if db_bool db then _ else _) as [[e|d_from] s5]; [reflexivity|].
  destruct (if db_bool db then _ else _) as [[e|d_to] s6]; [reflexivity|].
  rewrite (for_each_ext (insert_body db) (insert_body_single_parse db)).
  - reflexivity.
  - intros x l s0. unfold insert_body, insert_body_single_parse, bind.
    now rewrite track_dates_single_parse_eq.
Qed.

(** A self edge met by the insertion is counted and nothing else happens. *)
Lemma try_insert_self_edge rec l s f w :
  h_facility (self s) = Some f ->
  py_int (rec3 rec) = Some w ->
  add_transp_record f (rec0 rec +:+ ".centroid") (rec1 rec +:+ ".centroid") w
    = inl SelfEdgesNotSupported ->
  try_insert rec l s = (inr (counted w l), s).
Proof.
  intros Hf Hw Hadd.
  unfold try_insert, the_facility, get_facility, try_except, bind, or_raise,
    of_result, ret, raise.
  rewrite Hf. simpl. rewrite Hw. simpl. rewrite Hadd. simpl.
  reflexivity.
Qed.

(** C1, as amended.  A record with one of its labels on the error list
    leaves the state, and so the facility, as it was and adds nothing to the
    self-edge weight.  With date boundaries it changes nothing at all.
    Without them its time stamp is still read and folded into the running
    minimum and maximum like that of any other record. *)
Theorem error_record_is_skipped
    db (key : string) rec l s (conf : JsonDoc) (errs : list string) :
  h_conf (self s) = Some conf ->
  error_dep_list conf = Some errs ->
  str_in (rec0 rec) errs || str_in (rec1 rec) errs = true ->
  (db_bool db = true -> insert_body db (key, rec) l s = (inr l, s))
  /\ (db_bool db = false ->
      forall t, strptime (strip4 (rec2 rec)) = Some t ->
        insert_body db (key, rec) l s = (inr (seen t l), s)
        /\ self_edges_weight (seen t l) = self_edges_weight l).
Proof.
  intros Hc He Hin. split.
  - intros Hdb. unfold insert_body, bind. simpl.
    rewrite (track_dates_with _ _ _ _ Hdb).
    rewrite (in_error_list_conf _ _ _ _ Hc He), Hin. reflexivity.
  - intros Hdb t Ht. split; [|reflexivity].
    unfold insert_body, bind. simpl.
    rewrite (track_dates_without _ _ _ _ _ Hdb Ht).
    rewrite (in_error_list_conf _ _ _ _ Hc He), Hin. reflexivity.
Qed.

End Records.

(** ** Persisting the facility *)

Section Persist.

Context `{Ext : Externals}.

Implicit Types (s : State) (db : option (list string)).

Lemma dump_facility_returns (path : string) s :
  exists b s', dump_facility path s = (inr b, s').
Proof.
  unfold dump_facility, open_write, pkl_dump, get_facility, try_except, bind,
    log, ret, raise. simpl.
  destruct (str_in path (unwritable s)); simpl; [eauto|].
  destruct (can_pickle (h_facility (self s))); simpl; eauto.
Qed.

(** What a successful dump leaves on disk. *)
Lemma dump_facility_true (path : string) s s' :
  dump_facility path s = (inr true, s') ->
  files s' = <[path := FPickle (h_facility (self s))]> (files s)
  /\ self s' = self s.
Proof.
  unfold dump_facility, open_write, pkl_dump, get_facility, try_except, bind,
    log, ret, raise. simpl.
  destruct (str_in path (unwritable s)); simpl; [discriminate|].
  destruct (can_pickle (h_facility (self s))); simpl; [|discriminate].
  intros [= <-]. simpl. split; [apply insert_insert_eq | reflexivity].
Qed.



End Persist.

(** ** What the constructor reads and writes *)

Section Constructor.

Context `{Ext : Externals}.

Implicit Types (s : State) (db : option (list string)).

Lemma quiet_ret {A} (x : A) : quiet (ret x).
Proof.
  intros s r s' [= <- <-]. split; [reflexivity|].
  exists []. split; [now rewrite app_nil_r | constructor].
Qed.

Lemma quiet_raise {A} (e : exn) : quiet (@raise State A e).
Proof.
  intros s r s' [= <- <-]. split; [reflexivity|].
  exists []. split; [now rewrite app_nil_r | constructor].
Qed.

Lemma quiet_bind {A B} (m : M State A) (k : A -> M State B) :
  quiet m -> (forall x, quiet (k x)) -> quiet (bind m k).
Proof.
  intros Hm Hk s r s'. unfold bind.
  destruct (m s) as [[e|x] s1] eqn:E.
  - intros [= <- <-]. eapply Hm; eauto.
  - intros Hkx.
    destruct (Hm _ _ _ E) as (Hf1 & evs1 & Ht1 & Hq1).
    destruct (Hk _ _ _ _ Hkx) as (Hf2 & evs2 & Ht2 & Hq2).
    split; [congruence|].
    exists (evs1 ++ evs2). split.
    + rewrite Ht2, Ht1. now rewrite app_assoc.
    + now apply Forall_app.
Qed.

Lemma quiet_or_raise {A} (e : exn) (o : option A) : quiet (@or_raise State A e o).
Proof. destruct o; [apply quiet_ret | apply quiet_raise]. Qed.

Lemma quiet_of_result {A} (r : exn + A) : quiet (@of_result State A r).
Proof. destruct r; [apply quiet_raise | apply quiet_ret]. Qed.

Lemma quiet_log (e : Event) : is_writing e = false -> quiet (log e).
Proof.
  intros He s r s' [= <- <-]. split; [reflexivity|].
  exists [e]. split; [reflexivity | repeat constructor; exact He].
Qed.

(** A computation that only reads the state or changes the handler. *)
Lemma quiet_local {A} (m : M State A) :
  (forall s, files (m s).2 = files s /\ trace (m s).2 = trace s) -> quiet m.
Proof.
  intros H s r s' E. destruct (H s) as [Hf Ht]. rewrite E in Hf, Ht.
  simpl in Hf, Ht. split; [exact Hf|].
  exists []. split; [now rewrite app_nil_r | constructor].
Qed.

Lemma quiet_for_each {A L} (body : A -> L -> M State L) (xs : list A) :
  (forall x a, quiet (body x a)) -> forall a, quiet (for_each xs body a).
Proof.
  intros Hb. induction xs as [|x xs IH]; intros a; simpl.
  - apply quiet_ret.
  - apply quiet_bind; auto.
Qed.

Lemma quiet_try_except {A} (body : M State A) (handler : exn -> M State A) :
  quiet body -> (forall e, quiet (handler e)) -> quiet (try_except body handler).
Proof.
  intros Hb Hh s r s'. unfold try_except.
  destruct (body s) as [[e|x] s1] eqn:E.
  - intros Hhe.
    destruct (Hb _ _ _ E) as (Hf1 & evs1 & Ht1 & Hq1).
    destruct (Hh _ _ _ _ Hhe) as (Hf2 & evs2 & Ht2 & Hq2).
    split; [congruence|].
    exists (evs1 ++ evs2). split.
    + rewrite Ht2, Ht1. now rewrite app_assoc.
    + now apply Forall_app.
  - intros [= <- <-]. eapply Hb; eauto.
Qed.

Lemma quiet_get_facility : quiet get_facility.
Proof. apply quiet_local. intros s. split; reflexivity. Qed.

Lemma quiet_set_facility o : quiet (set_facility o).
Proof. apply quiet_local. intros s. split; reflexivity. Qed.

Lemma quiet_get_conf : quiet get_conf.
Proof.
  apply quiet_local. intros s. unfold get_conf, or_raise.
  destruct (h_conf (self s)); split; reflexivity.
Qed.

Lemma quiet_set_conf c : quiet (set_conf c).
Proof. apply quiet_local. intros s. split; reflexivity. Qed.

Lemma quiet_set_result res : quiet (set_result res).
Proof. apply quiet_local. intros s. split; reflexivity. Qed.

Lemma quiet_open_read (path : string) mode :
  mode <> WriteBinary -> quiet (open_read path mode).
Proof.
  intros Hm. unfold open_read. apply quiet_bind.
  - apply quiet_log. destruct mode; simpl; congruence.
  - intros _. apply quiet_local. intros s. unfold or_raise.
    destruct (files s !! path); split; reflexivity.
Qed.

Lemma quiet_isfile (path : string) : quiet (isfile path).
Proof.
  unfold isfile. apply quiet_bind.
  - now apply quiet_log.
  - intros _. apply quiet_local. intros s. split; reflexivity.
Qed.

Lemma quiet_json_load data : quiet (json_load data).
Proof. destruct data; first [apply quiet_ret | apply quiet_raise]. Qed.

Lemma quiet_pkl_load data : quiet (pkl_load data).
Proof.
  destruct data as [doc|[|row rows]|obj|[|c bytes]];
    first [apply quiet_ret | apply quiet_raise].
Qed.

Lemma quiet_db_index db i : quiet (db_index db i).
Proof.
  destruct db; simpl; [apply quiet_or_raise | apply quiet_raise].
Qed.

Create HintDb quiet.

#[local] Hint Resolve quiet_ret quiet_raise quiet_or_raise quiet_of_result
  quiet_get_facility quiet_set_facility quiet_get_conf quiet_set_conf
  quiet_set_result quiet_isfile quiet_json_load quiet_pkl_load
  quiet_db_index : quiet.

Ltac quiet_steps :=
  repeat first
    [ apply quiet_log; reflexivity
    | apply quiet_open_read; discriminate
    | solve [auto with quiet]
    | apply quiet_for_each; intros ? ?
    | apply quiet_try_except; [|intros ?]
    | apply quiet_bind; [|intros ?]
    | progress unfold subscript, index, the_facility
    | match goal with |- quiet (if ?b then _ else _) => destruct b end ].

Lemma quiet_populate_facility (path : string) : quiet (populate_facility path).
Proof. unfold populate_facility, populate_body. quiet_steps. Qed.

Lemma quiet_insert_all_transp_records (mp peg : string) db :
  quiet (insert_all_transp_records mp peg db).
Proof.
  unfold insert_all_transp_records, insert_body, track_dates, in_error_list,
    out_of_boundaries, try_insert.
  quiet_steps.
  apply quiet_local. intros s. destruct (mpp_parse _ _); split; reflexivity.
Qed.

Lemma quiet_can_restore (force_rebuild : bool) db :
  quiet (can_restore force_rebuild db).
Proof. unfold can_restore. quiet_steps. Qed.

Lemma quiet_restore (dump : string) : quiet (restore dump).
Proof. unfold restore. quiet_steps. Qed.

Lemma quiet_fails_quietly {A} (m : M State A) : quiet m -> fails_quietly m.
Proof. intros H s e s' E. eapply H; eauto. Qed.

Lemma fails_quietly_bind {A B} (m : M State A) (k : A -> M State B) :
  quiet m -> (forall x, fails_quietly (k x)) -> fails_quietly (bind m k).
Proof.
  intros Hm Hk s e s'. unfold bind.
  destruct (m s) as [[e1|x] s1] eqn:E.
  - intros [= <- <-]. eapply Hm; eauto.
  - intros Hkx.
    destruct (Hm _ _ _ E) as (Hf1 & evs1 & Ht1 & Hq1).
    destruct (Hk _ _ _ _ Hkx) as (Hf2 & evs2 & Ht2 & Hq2).
    split; [congruence|].
    exists (evs1 ++ evs2). split.
    + rewrite Ht2, Ht1. now rewrite app_assoc.
    + now apply Forall_app.
Qed.

(** The last step of both building branches cannot fail at all. *)
Lemma fails_quietly_dump (dump : string) :
  fails_quietly (dump_facility dump ;; ret tt).
Proof.
  intros s e s'. unfold bind.
  destruct (dump_facility_returns dump s) as (b & s1 & ->). discriminate.
Qed.

Lemma fails_quietly_rebuild db : fails_quietly (rebuild db).
Proof.
  unfold rebuild.
  repeat first
    [ apply fails_quietly_dump
    | apply quiet_populate_facility
    | apply quiet_insert_all_transp_records
    | solve [auto with quiet]
    | apply fails_quietly_bind; [|intros ?]
    | progress unfold subscript, index ].
Qed.

Lemma fails_quietly_init (path_to_conf_file : string)
    (facility_instance : option Facility) (force_rebuild : bool) db :
  fails_quietly (__init__ path_to_conf_file facility_instance force_rebuild db).
Proof.
  unfold __init__.
  repeat first
    [ apply fails_quietly_dump
    | apply fails_quietly_rebuild
    | apply quiet_fails_quietly; solve [auto with quiet]
    | apply quiet_open_read; discriminate
    | apply quiet_can_restore
    | solve [auto with quiet]
    | apply fails_quietly_bind; [|intros ?]
    | progress unfold subscript
    | match goal with
      | |- fails_quietly (if ?b then _ else _) => destruct b
      end
    | apply quiet_fails_quietly; apply quiet_bind; [|intros ?]
    | apply quiet_restore ].
Qed.

End Constructor.

(** ** The constructor: failing, restoring, and what the artifact is *)

Section Build.

Context `{Ext : Externals}.

Implicit Types (s : State) (db : option (list string)).

(** The constructor on the path that restores. *)
Lemma init_restores (path_to_conf_file : string) db s
    (conf : JsonDoc) (dump : string) (data : FileData Facility) :
  db_bool db = false ->
  files s !! path_to_conf_file = Some (FJson conf) ->
  facility_dump_path conf = Some dump ->
  files s !! dump = Some data ->
  let s1 := with_self
              {| h_facility := None; h_conf := Some conf;
                 h_self_edges_weight := h_self_edges_weight (self s);
                 h_date_from := h_date_from (self s);
                 h_date_to := h_date_to (self s) |}
              (logged (EOpen dump ReadBinary)
                 (logged (EIsFile dump)
                    (logged (EOpen path_to_conf_file ReadText) s))) in
  __init__ path_to_conf_file None false db s
  = match data with
    | FPickle obj =>
        (inr tt, with_self
           {| h_facility := obj; h_conf := Some conf;
              h_self_edges_weight := h_self_edges_weight (self s);
              h_date_from := h_date_from (self s);
              h_date_to := h_date_to (self s) |} s1)
    | FRaw EmptyString | FCsv [] => (inl EOFError, s1)
    | _ => (inl UnpicklingError, s1)
    end.
Proof.
  intros Hdb Hconf Hdump Hdata.
  unfold __init__, can_restore, restore, open_read, isfile, json_load,
    get_conf, get_facility, set_facility, set_conf, subscript, or_raise,
    bind, log, ret, raise.
  simpl. rewrite Hconf. simpl. rewrite Hdb. simpl. rewrite Hdump. simpl.
  rewrite Hdata. simpl. rewrite Hdump. simpl. rewrite Hdata. simpl.
  destruct data as [doc|[|row rows]|obj|[|c bytes]]; reflexivity.
Qed.

(** C6.  With no facility supplied, no forced rebuild, no date boundaries
    and a file at the configured dump path, the constructor opens the
    configuration, asks whether the dump file exists and opens it, and does
    nothing else: [populate_facility] and [insert_all_transp_records] are
    not called, no parser is made or run, no file is written.  When the file
    is an artifact, the facility it holds becomes the handler's. *)
Theorem cached_facility_is_restored
    (path_to_conf_file : string) db s
    (conf : JsonDoc) (dump : string) (data : FileData Facility) :
  db_bool db = false ->
  files s !! path_to_conf_file = Some (FJson conf) ->
  facility_dump_path conf = Some dump ->
  files s !! dump = Some data ->
  exists r s',
    __init__ path_to_conf_file None false db s = (r, s')
    /\ trace s' = trace s ++ [EOpen path_to_conf_file ReadText; EIsFile dump;
                              EOpen dump ReadBinary]
    /\ Forall (fun ev => is_parsing ev = false /\ is_writing ev = false)
         [EOpen path_to_conf_file ReadText; EIsFile dump; EOpen dump ReadBinary]
    /\ files s' = files s
    /\ (forall obj, data = FPickle obj ->
          r = inr tt /\ h_facility (self s') = obj).
Proof.
  intros Hdb Hconf Hdump Hdata.
  pose proof (init_restores _ _ _ _ _ _ Hdb Hconf Hdump Hdata) as Hrun.
  simpl in Hrun.
  assert (Forall (fun ev => is_parsing ev = false /\ is_writing ev = false)
            [EOpen path_to_conf_file ReadText; EIsFile dump; EOpen dump ReadBinary])
    as Hevs by (repeat constructor).
  destruct data as [doc|[|row rows]|obj|[|c bytes]]; eexists _, _;
    (split; [exact Hrun|]); simpl;
    (split_and!; [now rewrite <- !app_assoc | exact Hevs | reflexivity |]);
    intros obj' [= <-]; auto.
Qed.


End Build.

(** * The handler at work *)

(** The scenario of the specification: the build succeeds, the two trips
    from A to B add up to 8 on the one edge, the self edge on A is counted
    as 10, and the record from Z is dropped. *)
Example scenario_build :
  (__init__ "config.json" None true None
     (fresh (installation scenario_primary scenario_lookup) [])).1 = inr tt
  /\ h_self_edges_weight (self built) = Some 10
  /\ (r ← h_facility (self built); Some (map_to_list (reg_edges r)))
     = Some [(("A.centroid", "B.centroid")%string, 8)].
Proof. vm_compute. repeat split; reflexivity. Qed.

Example scenario_dates :
  h_date_from (self built) = Some "2015-05-20 07:15:00"%string
  /\ h_date_to (self built) = Some "2015-05-27 12:00:00"%string.
Proof. vm_compute. split; reflexivity. Qed.

(** C1, refuted as stated.  The record from Z to B has its source on the
    error list, and without date boundaries it still moves the running
    minimum: from the sentinel to its own time stamp.  A table with this
    record alone makes the method return that time stamp as
    [observedDateFrom] and as [observedDateTo]. *)
Lemma error_record_moves_observed_dates :
  str_in (rec0 record_ZB) ["Z"] = true
  /\ insert_body None ("4"%string, record_ZB) initial_locals
       (populated scenario_primary scenario_lookup)
     = (inr {| self_edges_weight := 0; date_from := mkdt 2015 5 20 7 15 0;
               date_to := mkdt 2015 5 20 7 15 0 |},
        populated scenario_primary scenario_lookup)
  /\ mkdt 2015 5 20 7 15 0 <> date_from initial_locals
  /\ (insert_all_transp_records "masterplan.csv" "peg.csv" None
        (populated [["4"; "7"]] [["4"; "Z"; "B"; "2015-05-20 07:15:00.000"]])).1
     = inr (0, "2015-05-20 07:15:00"%string, "2015-05-20 07:15:00"%string).
Proof.
  split_and!.
  - reflexivity.
  - reflexivity.
  - discriminate.
  - reflexivity.
Qed.

Lemma error_record_is_skipped_witness :
  insert_body None ("4"%string, record_ZB) initial_locals
    (populated scenario_primary scenario_lookup)
  = (inr (seen (mkdt 2015 5 20 7 15 0) initial_locals),
     populated scenario_primary scenario_lookup)
  /\ insert_body (Some ["2015-05-26 00:00:00"; "2015-05-27 00:00:00"]%string)
       ("4"%string, record_ZB) initial_locals
       (populated scenario_primary scenario_lookup)
     = (inr initial_locals, populated scenario_primary scenario_lookup).
Proof.
  pose proof (error_record_is_skipped None "4" record_ZB initial_locals
                (populated scenario_primary scenario_lookup) the_conf ["Z"%string]
                eq_refl eq_refl eq_refl) as (_ & Hwithout).
  pose proof (error_record_is_skipped
                (Some ["2015-05-26 00:00:00"; "2015-05-27 00:00:00"]%string)
                "4" record_ZB initial_locals
                (populated scenario_primary scenario_lookup) the_conf ["Z"%string]
                eq_refl eq_refl eq_refl) as (Hwith & _).
  split.
  - exact (proj1 (Hwithout eq_refl (mkdt 2015 5 20 7 15 0) eq_refl)).
  - exact (Hwith eq_refl).
Defined.

(** C2, refuted as stated.  One record is parsed, dated 9999-06-01; the
    method returns the sentinel 9999-01-01 00:00:00 as [observedDateFrom],
    which is not the minimum of the time stamps. *)
Lemma observed_from_is_not_the_minimum :
  mpp_parse (files (populated late_primary late_lookup) !! "masterplan.csv")
            (files (populated late_primary late_lookup) !! "peg.csv")
    = inr [("1"%string, record_late)]
  /\ timestamp ("1"%string, record_late) = Some (mkdt 9999 6 1 0 0 0)
  /\ (insert_all_transp_records "masterplan.csv" "peg.csv" None
        (populated late_primary late_lookup)).1
     = inr (0, "9999-01-01 00:00:00"%string, "9999-06-01 00:00:00"%string)
  /\ ~ (exists m, is_minimum m [mkdt 9999 6 1 0 0 0]
                  /\ "9999-01-01 00:00:00"%string = strftime m).
Proof.
  split_and!.
  - reflexivity.
  - reflexivity.
  - reflexivity.
  - intros (m & [Hin _] & Hm). destruct Hin as [<- | []]. discriminate Hm.
Qed.

Lemma observed_dates_without_boundaries_witness :
  exists res ts d_hi d_lo m_from m_to,
    mpp_parse (files (populated scenario_primary scenario_lookup) !! "masterplan.csv")
              (files (populated scenario_primary scenario_lookup) !! "peg.csv")
      = inr res
    /\ Forall2 (fun e t => timestamp e = Some t) res ts
    /\ strptime sentinel_from = Some d_hi
    /\ strptime sentinel_to = Some d_lo
    /\ "2015-05-20 07:15:00"%string = strftime m_from
    /\ "2015-05-27 12:00:00"%string = strftime m_to
    /\ is_minimum m_from (d_hi :: ts)
    /\ is_maximum m_to (d_lo :: ts)
    /\ (Exists (fun t => dt_le t d_hi) ts -> is_minimum m_from ts)
    /\ (Exists (fun t => dt_le d_lo t) ts -> is_maximum m_to ts).
Proof.
  apply (observed_dates_without_boundaries "masterplan.csv" "peg.csv" None
           (populated scenario_primary scenario_lookup)
           (insert_all_transp_records "masterplan.csv" "peg.csv" None
              (populated scenario_primary scenario_lookup)).2
           10).
  - reflexivity.
  - reflexivity.
Defined.

Example self_edge_total_returned :
  (insert_all_transp_records "masterplan.csv" "peg.csv" None
     (populated scenario_primary scenario_lookup)).1
  = inr (10, "2015-05-20 07:15:00"%string, "2015-05-27 12:00:00"%string).
Proof. reflexivity. Qed.



Lemma cached_facility_is_restored_witness :
  exists (r : exn + unit) (s' : @State registry),
    __init__ "config.json" None false None (fresh (Ext := registry) with_artifact []) = (r, s')
    /\ trace s' = [] ++ [EOpen "config.json" ReadText; EIsFile "facility.pkl";
                         EOpen "facility.pkl" ReadBinary]
    /\ Forall (fun ev => is_parsing ev = false /\ is_writing ev = false)
         [EOpen "config.json" ReadText; EIsFile "facility.pkl";
          EOpen "facility.pkl" ReadBinary]
    /\ files s' = with_artifact
    /\ (forall obj, FPickle (Some the_facility_ABC) = FPickle obj ->
          r = inr tt /\ h_facility (self s') = obj).
Proof.
  apply (cached_facility_is_restored "config.json" None
           (fresh (Ext := registry) with_artifact []) the_conf "facility.pkl"
           (FPickle (Some the_facility_ABC))).
  - reflexivity.
  - reflexivity.
  - reflexivity.
  - reflexivity.
Defined.

(** A label the facility does not know aborts the build as well, and the
    artifact of the earlier build stays as it was. *)
Example unknown_label_aborts_build :
  (__init__ "config.json" None true None
     (fresh (Ext := registry)
        (<["facility.pkl" := FPickle (Some the_facility_ABC)]>
           (installation unknown_primary unknown_lookup)) [])).1
  = inl (FacilityError "UnknownLabel")
  /\ files (__init__ "config.json" None true None
              (fresh (Ext := registry)
                 (<["facility.pkl" := FPickle (Some the_facility_ABC)]>
                    (installation unknown_primary unknown_lookup)) [])).2
       !! "facility.pkl"
     = Some (FPickle (Some the_facility_ABC)).
Proof. split; reflexivity. Qed.

Lemma no_records_returns_sentinels_witness :
  insert_all_transp_records "masterplan.csv" "peg.csv" None (populated [] [])
  = (inr (0, "9999-01-01 00:00:00"%string, "1002-01-01 00:00:00"%string),
     parsed "masterplan.csv" "peg.csv" (populated [] []))
  /\ exists d_from d_to,
       strptime "9999-01-01 00:00:00" = Some d_from
       /\ strptime "1002-01-01 00:00:00" = Some d_to
       /\ dt_lt d_to d_from.
Proof.
  pose proof (no_records_returns_sentinels "masterplan.csv" "peg.csv" None
                (populated [] []) eq_refl eq_refl) as (Hrun & Hinv & _).
  split; [exact Hrun | exact Hinv].
Defined.

(** * More of the handler *)

(** ** [populate_facility] *)

Section Populate.

Context `{Ext : Externals}.

Implicit Types (s : State) (f : Facility).

(** One entry of the layout, on a handler that holds a facility. *)
Lemma populate_body_step (dep_src : DepSrc) s f :
  h_facility (self s) = Some f ->
  populate_body dep_src tt s
  = match to_department dep_src with
    | inl e => (inl e, s)
    | inr dep =>
        match add_department f dep with
        | inl e => (inl e, s)
        | inr f' => (inr tt, with_facility (Some f') s)
        end
    end.
Proof.
  intros Hf.
  unfold populate_body, to_department, the_facility, get_facility,
    set_facility, subscript, of_result, or_raise, bind, ret, raise.
  destruct (dep_src_points dep_src) as [pts|]; [|reflexivity].
  destruct (build_points pts) as [e|p_vect]; [reflexivity|].
  destruct (dep_src_label dep_src) as [lbl|]; [|reflexivity].
  rewrite Hf.
  destruct (add_department f _) as [e|f']; reflexivity.
Qed.

Lemma with_facility_same s f : h_facility (self s) = Some f ->
  with_facility (Some f) s = s.
Proof.
  intros Hf. destruct s as [[fa co we df dt] fs un tr]. simpl in *.
  subst. reflexivity.
Qed.

(** The loop over the entries is the walk [add_departments]. *)
Lemma for_each_populate (deps : list DepSrc) : forall s f,
  h_facility (self s) = Some f ->
  for_each deps populate_body tt s
  = (match (add_departments f deps).1 with
     | None => inr tt
     | Some e => inl e
     end,
     with_facility (Some (add_departments f deps).2) s).
Proof.
  induction deps as [|d deps IH]; intros s f Hf; simpl.
  - rewrite (with_facility_same _ _ Hf). reflexivity.
  - unfold bind. rewrite (populate_body_step _ _ _ Hf).
    destruct (to_department d) as [e|dep]; simpl.
    + rewrite (with_facility_same _ _ Hf). reflexivity.
    + destruct (add_department f dep) as [e|f']; simpl.
      * rewrite (with_facility_same _ _ Hf). reflexivity.
      * rewrite (IH (with_facility (Some f') s) f' eq_refl).
        reflexivity.
Qed.

(** The method up to its loop. *)
Lemma populate_facility_loop (path : string) s (doc : JsonDoc)
    (deps : list DepSrc) :
  files s !! path = Some (FJson doc) ->
  departments doc = Some deps ->
  populate_facility path s
  = for_each deps populate_body tt
      (logged (EOpen path ReadText) (logged (ECallPopulate path) s)).
Proof.
  intros Hfile Hdeps.
  unfold populate_facility, open_read, json_load, subscript, or_raise, bind,
    log, ret, raise.
  simpl. rewrite Hfile. simpl. rewrite Hdeps. reflexivity.
Qed.

(** The walk over a list in two parts. *)
Lemma add_departments_app f (pre post : list DepSrc) :
  add_departments f (pre ++ post)
  = match (add_departments f pre).1 with
    | Some e => add_departments f pre
    | None => add_departments (add_departments f pre).2 post
    end.
Proof.
  revert f. induction pre as [|d pre IH]; intros f; simpl; [reflexivity|].
  destruct (to_department d) as [e|dep]; [reflexivity|].
  destruct (add_department f dep) as [e|f']; [reflexivity|].
  apply IH.
Qed.

(** X1.  On a handler that holds a facility and a layout file with a
    ["departments"] list, [populate_facility] adds the departments in the
    order of the file, each built from its points and then its label, and
    stops at the first entry that cannot be read or that the facility
    rejects, raising that entry's exception.  Nothing of the handler but
    its facility changes, no file changes, and the log gains the call and
    the one file opened. *)
Theorem populate_facility_adds_in_order
    (path : string) s f (doc : JsonDoc) (deps : list DepSrc) :
  h_facility (self s) = Some f ->
  files s !! path = Some (FJson doc) ->
  departments doc = Some deps ->
  populate_facility path s
  = (match (add_departments f deps).1 with
     | None => inr tt
     | Some e => inl e
     end,
     with_facility (Some (add_departments f deps).2)
       (logged (EOpen path ReadText) (logged (ECallPopulate path) s))).
Proof.
  intros Hf Hfile Hdeps.
  rewrite (populate_facility_loop _ _ _ _ Hfile Hdeps).
  apply for_each_populate. exact Hf.
Qed.

(** X2.  [populate_facility] is not all-or-nothing.  When the entries
    [pre] of the layout are added without error and reach the facility
    [f_pre], and the next entry is rejected by [add_department] with [e],
    the method raises [e] and leaves the handler holding [f_pre]: the
    departments added so far stay, and the entries [post] after the
    rejected one play no part in the outcome. *)
Theorem populate_facility_keeps_what_it_added
    (path : string) s f f_pre (doc : JsonDoc)
    (pre post : list DepSrc) (bad : DepSrc) (dep : Department) (e : exn) :
  h_facility (self s) = Some f ->
  files s !! path = Some (FJson doc) ->
  departments doc = Some (pre ++ bad :: post) ->
  add_departments f pre = (None, f_pre) ->
  to_department bad = inr dep ->
  add_department f_pre dep = inl e ->
  populate_facility path s
  = (inl e,
     with_facility (Some f_pre)
       (logged (EOpen path ReadText) (logged (ECallPopulate path) s))).
Proof.
  intros Hf Hfile Hdeps Hpre Hbad Hadd.
  rewrite (populate_facility_loop _ _ _ _ Hfile Hdeps).
  rewrite (for_each_populate _ _ f); [|exact Hf].
  rewrite add_departments_app, Hpre. simpl.
  rewrite Hbad, Hadd. reflexivity.
Qed.

End Populate.

(** ** What a computation logs *)

Section Logs.

Context `{Ext : Externals}.

Implicit Types (s : State) (db : option (list string)).


Variable P : Event -> bool.

Lemma never_logs_ret {A} (x : A) : never_logs P (ret x).
Proof.
  intros s r s' [= <- <-]. exists []. split; [now rewrite app_nil_r | constructor].
Qed.

Lemma never_logs_raise {A} (e : exn) : never_logs P (@raise State A e).
Proof.
  intros s r s' [= <- <-]. exists []. split; [now rewrite app_nil_r | constructor].
Qed.

Lemma never_logs_bind {A B} (m : M State A) (k : A -> M State B) :
  never_logs P m -> (forall x, never_logs P (k x)) -> never_logs P (bind m k).
Proof.
  intros Hm Hk s r s'. unfold bind.
  destruct (m s) as [[e|x] s1] eqn:E.
  - intros [= <- <-]. eapply Hm; eauto.
  - intros Hkx.
    destruct (Hm _ _ _ E) as (evs1 & Ht1 & Hq1).
    destruct (Hk _ _ _ _ Hkx) as (evs2 & Ht2 & Hq2).
    exists (evs1 ++ evs2). split.
    + rewrite Ht2, Ht1. now rewrite app_assoc.
    + now apply Forall_app.
Qed.

Lemma never_logs_try_except {A} (body : M State A) (handler : exn -> M State A) :
  never_logs P body -> (forall e, never_logs P (handler e)) ->
  never_logs P (try_except body handler).
Proof.
  intros Hb Hh s r s'. unfold try_except.
  destruct (body s) as [[e|x] s1] eqn:E.
  - intros Hhe.
    destruct (Hb _ _ _ E) as (evs1 & Ht1 & Hq1).
    destruct (Hh _ _ _ _ Hhe) as (evs2 & Ht2 & Hq2).
    exists (evs1 ++ evs2). split.
    + rewrite Ht2, Ht1. now rewrite app_assoc.
    + now apply Forall_app.
  - intros [= <- <-]. eapply Hb; eauto.
Qed.

Lemma never_logs_for_each {A L} (body : A -> L -> M State L) (xs : list A) :
  (forall x a, never_logs P (body x a)) ->
  forall a, never_logs P (for_each xs body a).
Proof.
  intros Hb. induction xs as [|x xs IH]; intros a; simpl.
  - apply never_logs_ret.
  - apply never_logs_bind; auto.
Qed.

Lemma never_logs_log (e : Event) : P e = false -> never_logs P (log e).
Proof.
  intros He s r s' [= <- <-]. exists [e].
  split; [reflexivity | repeat constructor; exact He].
Qed.

(** A computation that leaves the log alone. *)
Lemma never_logs_silent {A} (m : M State A) :
  (forall s, trace (m s).2 = trace s) -> never_logs P m.
Proof.
  intros H s r s' E. pose proof (H s) as Ht. rewrite E in Ht. simpl in Ht.
  exists []. split; [now rewrite app_nil_r | constructor].
Qed.

Lemma never_logs_or_raise {A} (e : exn) (o : option A) :
  never_logs P (@or_raise State A e o).
Proof. destruct o; [apply never_logs_ret | apply never_logs_raise]. Qed.

Lemma never_logs_of_result {A} (r : exn + A) :
  never_logs P (@of_result State A r).
Proof. destruct r; [apply never_logs_raise | apply never_logs_ret]. Qed.

Lemma never_logs_get_facility : never_logs P get_facility.
Proof. apply never_logs_silent. reflexivity. Qed.

Lemma never_logs_set_facility o : never_logs P (set_facility o).
Proof. apply never_logs_silent. reflexivity. Qed.

Lemma never_logs_set_conf c : never_logs P (set_conf c).
Proof. apply never_logs_silent. reflexivity. Qed.

Lemma never_logs_set_result res : never_logs P (set_result res).
Proof. apply never_logs_silent. reflexivity. Qed.

Lemma never_logs_get_conf : never_logs P get_conf.
Proof.
  apply never_logs_silent. intros s. unfold get_conf, or_raise.
  destruct (h_conf (self s)); reflexivity.
Qed.

Lemma never_logs_db_index db i : never_logs P (db_index db i).
Proof.
  destruct db; simpl; [apply never_logs_or_raise | apply never_logs_raise].
Qed.

Lemma never_logs_json_load data : never_logs P (json_load data).
Proof. destruct data; first [apply never_logs_ret | apply never_logs_raise]. Qed.

Lemma never_logs_open (path : string) mode :
  P (EOpen path mode) = false -> never_logs P (open_read path mode).
Proof.
  intros HP. unfold open_read. apply never_logs_bind.
  - now apply never_logs_log.
  - intros _. apply never_logs_silent. intros s. unfold or_raise.
    destruct (files s !! path); reflexivity.
Qed.


(** A computation that logs nothing leaves the log as it is. *)
Lemma never_logs_anything {A} (m : M State A) s (r : exn + A) s' :
  never_logs (fun _ => true) m -> m s = (r, s') -> trace s' = trace s.
Proof.
  intros H E. destruct (H _ _ _ E) as (evs & -> & Hall).
  destruct evs as [|ev evs]; [now rewrite app_nil_r|].
  inversion Hall; discriminate.
Qed.

End Logs.

Ltac log_steps :=
  repeat match goal with
  | |- never_logs _ (log _) => apply never_logs_log; reflexivity
  | |- never_logs _ (open_read _ _) => apply never_logs_open; reflexivity
  | |- never_logs _ (ret _) => apply never_logs_ret
  | |- never_logs _ (raise _) => apply never_logs_raise
  | |- never_logs _ (or_raise _ _) => apply never_logs_or_raise
  | |- never_logs _ (of_result _) => apply never_logs_of_result
  | |- never_logs _ get_facility => apply never_logs_get_facility
  | |- never_logs _ (set_facility _) => apply never_logs_set_facility
  | |- never_logs _ get_conf => apply never_logs_get_conf
  | |- never_logs _ (set_conf _) => apply never_logs_set_conf
  | |- never_logs _ (set_result _) => apply never_logs_set_result
  | |- never_logs _ (db_index _ _) => apply never_logs_db_index
  | |- never_logs _ (json_load _) => apply never_logs_json_load
  | |- never_logs _ (for_each _ _ _) => apply never_logs_for_each; intros ? ?
  | |- never_logs _ (try_except _ _) => apply never_logs_try_except; [|intros ?]
  | |- never_logs _ (bind _ _) => apply never_logs_bind; [|intros ?]
  | |- never_logs _ (subscript _ _) => unfold subscript
  | |- never_logs _ (index _ _) => unfold index
  | |- never_logs _ (the_facility _) => unfold the_facility
  | |- never_logs _ (if ?b then _ else _) => destruct b
  end.

(** ** What [insert_all_transp_records] leaves alone *)

Section Frame.

Context `{Ext : Externals}.

Implicit Types (s : State) (db : option (list string)).

Lemma same_but_facility_refl s : same_but_facility s s.
Proof. repeat split. Qed.

Lemma same_but_facility_trans s1 s2 s3 :
  same_but_facility s1 s2 -> same_but_facility s2 s3 -> same_but_facility s1 s3.
Proof.
  unfold same_but_facility.
  intros (? & ? & ? & ? & ? & ?) (? & ? & ? & ? & ? & ?).
  split_and!; congruence.
Qed.

Lemma facility_only_ret {A} (x : A) : facility_only (ret x).
Proof. intros s r s' [= <- <-]. apply same_but_facility_refl. Qed.

Lemma facility_only_raise {A} (e : exn) : facility_only (@raise State A e).
Proof. intros s r s' [= <- <-]. apply same_but_facility_refl. Qed.

Lemma facility_only_bind {A B} (m : M State A) (k : A -> M State B) :
  facility_only m -> (forall x, facility_only (k x)) -> facility_only (bind m k).
Proof.
  intros Hm Hk s r s'. unfold bind.
  destruct (m s) as [[e|x] s1] eqn:E.
  - intros [= <- <-]. eapply Hm; eauto.
  - intros Hkx. eapply same_but_facility_trans; [eapply Hm | eapply Hk]; eauto.
Qed.

Lemma facility_only_or_raise {A} (e : exn) (o : option A) :
  facility_only (@or_raise State A e o).
Proof. destruct o; [apply facility_only_ret | apply facility_only_raise]. Qed.

Lemma facility_only_of_result {A} (r : exn + A) :
  facility_only (@of_result State A r).
Proof. destruct r; [apply facility_only_raise | apply facility_only_ret]. Qed.

Lemma facility_only_log (e : Event) : facility_only (log e).
Proof. intros s r s' [= <- <-]. repeat split. Qed.

Lemma facility_only_get_facility : facility_only get_facility.
Proof. intros s r s' [= <- <-]. apply same_but_facility_refl. Qed.

Lemma facility_only_set_facility o : facility_only (set_facility o).
Proof. intros s r s' [= <- <-]. repeat split. Qed.

Lemma facility_only_get_conf : facility_only get_conf.
Proof.
  intros s r s'. unfold get_conf, or_raise, ret, raise.
  destruct (h_conf (self s)); intros [= <- <-]; apply same_but_facility_refl.
Qed.

Lemma facility_only_db_index db i : facility_only (db_index db i).
Proof.
  destruct db; simpl; [apply facility_only_or_raise | apply facility_only_raise].
Qed.

Lemma facility_only_for_each {A L} (body : A -> L -> M State L) (xs : list A) :
  (forall x a, facility_only (body x a)) ->
  forall a, facility_only (for_each xs body a).
Proof.
  intros Hb. induction xs as [|x xs IH]; intros a; simpl.
  - apply facility_only_ret.
  - apply facility_only_bind; auto.
Qed.

Lemma facility_only_try_except {A} (body : M State A) (handler : exn -> M State A) :
  facility_only body -> (forall e, facility_only (handler e)) ->
  facility_only (try_except body handler).
Proof.
  intros Hb Hh s r s'. unfold try_except.
  destruct (body s) as [[e|x] s1] eqn:E.
  - intros Hhe. eapply same_but_facility_trans; [eapply Hb | eapply Hh]; eauto.
  - intros [= <- <-]. eapply Hb; eauto.
Qed.

Create HintDb frame.

#[local] Hint Resolve facility_only_ret facility_only_raise
  facility_only_or_raise facility_only_of_result facility_only_log
  facility_only_get_facility facility_only_set_facility
  facility_only_get_conf facility_only_db_index : frame.

Ltac frame_steps :=
  repeat first
    [ solve [auto with frame]
    | apply facility_only_for_each; intros ? ?
    | apply facility_only_try_except; [|intros ?]
    | apply facility_only_bind; [|intros ?]
    | progress unfold subscript, index, the_facility
    | match goal with
      | |- facility_only (if ?b then _ else _) => destruct b
      end ].

Lemma facility_only_insert_body db entry l : facility_only (insert_body db entry l).
Proof.
  unfold insert_body, track_dates, in_error_list, out_of_boundaries, try_insert.
  frame_steps.
Qed.

#[local] Hint Resolve facility_only_insert_body : frame.

Lemma facility_only_populate_facility (path : string) :
  facility_only (populate_facility path).
Proof.
  unfold populate_facility, populate_body, open_read, json_load.
  frame_steps.
  - intros s r s'. unfold or_raise, ret, raise.
    destruct (files s !! path); intros [= <- <-]; apply same_but_facility_refl.
  - destruct x0; frame_steps.
Qed.

Lemma facility_only_insert_all (mp peg : string) db :
  facility_only (insert_all_transp_records mp peg db).
Proof.
  unfold insert_all_transp_records.
  frame_steps.
  - intros s r s'. unfold of_result, ret, raise.
    destruct (mpp_parse _ _); intros [= <- <-]; apply same_but_facility_refl.
Qed.

(** The loop logs nothing. *)
Lemma insert_body_logs_nothing db entry l :
  never_logs (fun _ => true) (insert_body db entry l).
Proof.
  unfold insert_body, track_dates, in_error_list, out_of_boundaries, try_insert.
  log_steps.
Qed.

Lemma for_each_insert_trace db res : forall l s r s',
  for_each res (insert_body db) l s = (r, s') -> trace s' = trace s.
Proof.
  intros l s r s'. apply never_logs_anything.
  apply never_logs_for_each. intros entry l0. apply insert_body_logs_nothing.
Qed.

(** X3.  Whatever it returns or raises, [insert_all_transp_records] changes
    nothing of the handler but [self.facility]: the configuration and the
    attributes [self_edges_weight], [date_from] and [date_to] are as
    before (the method returns the three values, it does not store them),
    and so is every file.  It logs the call, the parser made and the parse,
    and nothing more. *)
Theorem insert_all_changes_the_facility_only
    (mp peg : string) db s (r : exn + Z * string * string) s' :
  insert_all_transp_records mp peg db s = (r, s') ->
  same_but_facility s s'
  /\ trace s' = trace s ++ [ECallInsertAll mp peg; ENewParser mp peg; EParse mp peg].
Proof.
  intros Hrun. split; [eapply facility_only_insert_all; eauto|].
  revert Hrun. unfold insert_all_transp_records, bind, log.
  change (logged (EParse mp peg)
            (logged (ENewParser mp peg) (logged (ECallInsertAll mp peg) s)))
    with (parsed mp peg s).
  assert (trace (parsed mp peg s)
          = trace s ++ [ECallInsertAll mp peg; ENewParser mp peg; EParse mp peg])
    as Htr by (simpl; now rewrite <- !app_assoc).
  unfold of_result, ret, raise.
  destruct (mpp_parse _ _) as [e|res]; [intros [= <- <-]; exact Htr|].
  destruct (if db_bool db then _ else _) as [[e|d_from] s5] eqn:H5.
  { intros [= <- <-].
    destruct (db_bool db); unfold db_index, index, bind, or_raise, ret, raise in H5;
      repeat case_match; simplify_eq; exact Htr. }
  assert (s5 = parsed mp peg s) as ->.
  { destruct (db_bool db); unfold db_index, index, bind, or_raise, ret, raise in H5;
      repeat case_match; simplify_eq; reflexivity. }
  destruct (if db_bool db then _ else _) as [[e|d_to] s6] eqn:H6 in |- *.
  { intros [= <- <-].
    destruct (db_bool db); unfold db_index, index, bind, or_raise, ret, raise in H6;
      repeat case_match; simplify_eq; exact Htr. }
  assert (s6 = parsed mp peg s) as ->.
  { destruct (db_bool db); unfold db_index, index, bind, or_raise, ret, raise in H6;
      repeat case_match; simplify_eq; reflexivity. }
  destruct (for_each res _ _ _) as [[e|l] s7] eqn:Hloop;
    intros [= <- <-]; apply for_each_insert_trace in Hloop;
    rewrite Hloop; exact Htr.
Qed.

End Frame.

(** ** Boundaries that are wrong, and records that abort the loop *)

Section Aborts.

Context `{Ext : Externals}.

Implicit Types (s : State) (l : Locals) (rec : TranspRec)
  (db : option (list string)).

(** X4.  Date boundaries are checked before any record is looked at.  When
    the list is not empty but does not start with two strings that parse as
    dates, the method raises once the parser has run, and nothing of the
    handler has changed: no record was inserted or counted.  If the parser
    itself gave its records, the exception is [ValueError] (a boundary that
    does not parse) or [IndexError] (a list with one element only). *)
Theorem boundaries_are_checked_first (mp peg : string) (bs : list string) s :
  bs <> [] ->
  ~ (exists b0 b1 lo hi,
       nth_error bs 0 = Some b0 /\ nth_error bs 1 = Some b1
       /\ strptime b0 = Some lo /\ strptime b1 = Some hi) ->
  exists e,
    insert_all_transp_records mp peg (Some bs) s = (inl e, parsed mp peg s)
    /\ (forall res, mpp_parse (files s !! mp) (files s !! peg) = inr res ->
          e = ValueError \/ e = IndexError).
Proof.
  intros Hne Hbad.
  destruct bs as [|b0 rest]; [congruence|].
  unfold insert_all_transp_records, bind, log, of_result, ret, raise.
  fold (parsed mp peg s). simpl.
  destruct (mpp_parse _ _) as [e|res].
  { exists e. split; [reflexivity | discriminate]. }
  unfold db_index, index, or_raise, bind, ret, raise. simpl.
  destruct (strptime b0) as [lo|] eqn:Hlo.
  2: { exists ValueError. split; [reflexivity | auto]. }
  destruct rest as [|b1 rest]; simpl.
  { exists IndexError. split; [reflexivity | auto]. }
  destruct (strptime b1) as [hi|] eqn:Hhi.
  - exfalso. apply Hbad. exists b0, b1, lo, hi. auto.
  - exists ValueError. split; [reflexivity | auto].
Qed.

(** With the end before the start, no time stamp is inside. *)
Lemma inverted_is_empty (lo hi t : datetime) :
  dt_ltb hi lo = true -> dt_leb lo t && dt_leb t hi = false.
Proof.
  intros Hinv.
  destruct (dt_leb lo t) eqn:H1; [|reflexivity].
  destruct (dt_leb t hi) eqn:H2; [|reflexivity].
  exfalso.
  assert (dt_le lo hi) as Hle by (eapply dt_le_trans; eauto).
  rewrite dt_ltb_leb in Hinv. unfold dt_le in Hle. rewrite Hle in Hinv.
  discriminate.
Qed.

Lemma insert_body_inverted (from to : string) (lo hi : datetime)
    (entry : string * TranspRec) l s (conf : JsonDoc) (errs : list string) :
  strptime from = Some lo ->
  strptime to = Some hi ->
  dt_ltb hi lo = true ->
  h_conf (self s) = Some conf ->
  error_dep_list conf = Some errs ->
  str_in (rec0 entry.2) errs || str_in (rec1 entry.2) errs = true
  \/ timestamp entry <> None ->
  insert_body (Some [from; to]) entry l s = (inr l, s).
Proof.
  intros Hlo Hhi Hinv Hc He Hrec.
  unfold insert_body, bind.
  rewrite (track_dates_with (Some [from; to]) _ l s eq_refl).
  rewrite (in_error_list_conf _ _ _ _ Hc He).
  destruct (str_in (rec0 entry.2) errs || str_in (rec1 entry.2) errs) eqn:Hin;
    [reflexivity|].
  destruct Hrec as [Hrec | Hrec]; [discriminate|].
  unfold timestamp in Hrec.
  destruct (strptime (strip4 (rec2 entry.2))) as [t|] eqn:Ht; [|congruence].
  rewrite (out_of_boundaries_with _ _ _ _ _ _ _ Hlo Hhi Ht).
  rewrite (inverted_is_empty _ _ _ Hinv). reflexivity.
Qed.

(** X5.  Boundaries whose end is earlier than their start let no record
    through.  When every record is either on the error list or has a time
    stamp that parses, the method returns a self-edge weight of 0 and the
    two boundaries, and the handler, its facility included, is exactly as
    it was: nothing was inserted and nothing counted. *)
Theorem inverted_boundaries_insert_nothing
    (mp peg from to : string) (lo hi : datetime) s
    (conf : JsonDoc) (errs : list string) (res : list (string * TranspRec)) :
  strptime from = Some lo ->
  strptime to = Some hi ->
  dt_ltb hi lo = true ->
  h_conf (self s) = Some conf ->
  error_dep_list conf = Some errs ->
  mpp_parse (files s !! mp) (files s !! peg) = inr res ->
  Forall (fun entry =>
            str_in (rec0 entry.2) errs || str_in (rec1 entry.2) errs = true
            \/ timestamp entry <> None) res ->
  insert_all_transp_records mp peg (Some [from; to]) s
  = (inr (0, strftime lo, strftime hi), parsed mp peg s).
Proof.
  intros Hlo Hhi Hinv Hc He Hparse Hall.
  rewrite (insert_all_with _ _ _ _ _ _ _ Hlo Hhi), Hparse.
  assert (forall l, for_each res (insert_body (Some [from; to])) l (parsed mp peg s)
                    = (inr l, parsed mp peg s)) as Hloop.
  { clear Hparse. induction Hall as [|entry res' Hentry _ IH]; intros l; simpl.
    - reflexivity.
    - unfold bind.
      rewrite (insert_body_inverted from to lo hi entry l (parsed mp peg s)
                 conf errs Hlo Hhi Hinv Hc He Hentry).
      apply IH. }
  rewrite Hloop. reflexivity.
Qed.

(** X6.  What aborts the loop at the insertion.  For a record that reaches
    the insertion: a weight that [int] does not accept raises [ValueError],
    whatever the two labels are, because the weight is converted before the
    facility is called; and any exception of [add_transp_record] other than
    [SelfEdgesNotSupported] is raised on.  In both cases the state is as it
    was before the record, and the records after it are not processed. *)
Theorem insertion_errors_propagate
    db (key : string) rec (rest : list (string * TranspRec)) l l1 s
    (f : Facility) :
  h_facility (self s) = Some f ->
  track_dates db rec l s = (inr l1, s) ->
  in_error_list rec s = (inr false, s) ->
  out_of_boundaries db rec s = (inr false, s) ->
  (py_int (rec3 rec) = None ->
   for_each ((key, rec) :: rest) (insert_body db) l s = (inl ValueError, s))
  /\ (forall w e,
        py_int (rec3 rec) = Some w ->
        add_transp_record f (rec0 rec +:+ ".centroid") (rec1 rec +:+ ".centroid") w
          = inl e ->
        e <> SelfEdgesNotSupported ->
        for_each ((key, rec) :: rest) (insert_body db) l s = (inl e, s)).
Proof.
  intros Hf Htrack Herr Hout. split.
  - intros Hw. simpl. unfold bind at 1. unfold insert_body, bind. simpl.
    rewrite Htrack, Herr, Hout.
    unfold try_insert, the_facility, get_facility, try_except, bind, or_raise,
      of_result, ret, raise.
    rewrite Hf. simpl. rewrite Hw. reflexivity.
  - intros w e Hw Hadd Hne. simpl. unfold bind at 1. unfold insert_body, bind.
    simpl. rewrite Htrack, Herr, Hout.
    unfold try_insert, the_facility, get_facility, try_except, bind, or_raise,
      of_result, ret, raise.
    rewrite Hf. simpl. rewrite Hw. simpl. rewrite Hadd. simpl.
    destruct e; try reflexivity. congruence.
Qed.

(** X7.  A record that is not on the error list and whose time stamp does
    not parse aborts the method with [ValueError], with date boundaries as
    well as without, and leaves the state as it was. *)
Theorem unparsed_timestamp_aborts
    db (key : string) rec (rest : list (string * TranspRec)) l s
    (conf : JsonDoc) (errs : list string) :
  h_conf (self s) = Some conf ->
  error_dep_list conf = Some errs ->
  str_in (rec0 rec) errs || str_in (rec1 rec) errs = false ->
  strptime (strip4 (rec2 rec)) = None ->
  (db_bool db = false \/
   exists from to lo, db = Some [from; to] /\ strptime from = Some lo) ->
  for_each ((key, rec) :: rest) (insert_body db) l s = (inl ValueError, s).
Proof.
  intros Hc He Hin Ht [Hdb | (from & to & lo & -> & Hlo)].
  - simpl. unfold bind at 1. unfold insert_body, bind. simpl.
    now rewrite (track_dates_unparsed _ _ _ _ Hdb Ht).
  - simpl. unfold bind at 1. unfold insert_body, bind. cbn [snd].
    rewrite (track_dates_with (Some [from; to]) rec l s eq_refl).
    rewrite (in_error_list_conf _ _ _ _ Hc He), Hin.
    unfold out_of_boundaries, db_index, index, or_raise, bind, ret, raise.
    simpl. rewrite Hlo, Ht. reflexivity.
Qed.

End Aborts.

(** ** The observed dates as a function of the records *)

Section DatesOfRecords.

Context `{Ext : Externals}.

Implicit Types (s : State) (db : option (list string)).

Lemma timestamps_In_r (res : list (string * TranspRec)) (ts : list datetime) :
  Forall2 (fun e t => timestamp e = Some t) res ts ->
  forall t, In t ts -> exists e, In e res /\ timestamp e = Some t.
Proof.
  induction 1 as [|e t0 res' ts' He _ IH]; intros t Hin; [destruct Hin|].
  destruct Hin as [<- | Hin].
  - exists e. split; [now left | exact He].
  - destruct (IH t Hin) as (e' & He' & Ht). exists e'. split; [now right | exact Ht].
Qed.

Lemma timestamps_In_l (res : list (string * TranspRec)) (ts : list datetime) :
  Forall2 (fun e t => timestamp e = Some t) res ts ->
  forall e, In e res -> exists t, In t ts /\ timestamp e = Some t.
Proof.
  induction 1 as [|e0 t res' ts' He _ IH]; intros e Hin; [destruct Hin|].
  destruct Hin as [<- | Hin].
  - exists t. split; [now left | exact He].
  - destruct (IH e Hin) as (t' & Ht' & Ht). exists t'. split; [now right | exact Ht].
Qed.

(** Records drawn from the same set have time stamps drawn from the same
    set. *)
Lemma timestamps_same_set (res1 res2 : list (string * TranspRec))
    (ts1 ts2 : list datetime) :
  Forall2 (fun e t => timestamp e = Some t) res1 ts1 ->
  Forall2 (fun e t => timestamp e = Some t) res2 ts2 ->
  (forall e, In e res1 -> In e res2) ->
  forall t, In t ts1 -> In t ts2.
Proof.
  intros H1 H2 Hsub t Hin.
  destruct (timestamps_In_r _ _ H1 t Hin) as (e & He & Ht).
  destruct (timestamps_In_l _ _ H2 e (Hsub e He)) as (t' & Ht' & Ht2).
  congruence.
Qed.

Lemma is_minimum_unique (m1 m2 d0 : datetime) (ts1 ts2 : list datetime) :
  is_minimum m1 (d0 :: ts1) -> is_minimum m2 (d0 :: ts2) ->
  (forall t, In t ts1 -> In t ts2) -> (forall t, In t ts2 -> In t ts1) ->
  m1 = m2.
Proof.
  intros [Hin1 Hall1] [Hin2 Hall2] H12 H21.
  rewrite Forall_forall in Hall1, Hall2.
  apply dt_le_antisym.
  - apply Hall1. apply list_elem_of_In.
    destruct Hin2 as [<- | Hin2]; [now left | right; auto].
  - apply Hall2. apply list_elem_of_In.
    destruct Hin1 as [<- | Hin1]; [now left | right; auto].
Qed.

Lemma is_maximum_unique (m1 m2 d0 : datetime) (ts1 ts2 : list datetime) :
  is_maximum m1 (d0 :: ts1) -> is_maximum m2 (d0 :: ts2) ->
  (forall t, In t ts1 -> In t ts2) -> (forall t, In t ts2 -> In t ts1) ->
  m1 = m2.
Proof.
  intros [Hin1 Hall1] [Hin2 Hall2] H12 H21.
  rewrite Forall_forall in Hall1, Hall2.
  apply dt_le_antisym.
  - apply Hall2. apply list_elem_of_In.
    destruct Hin1 as [<- | Hin1]; [now left | right; auto].
  - apply Hall1. apply list_elem_of_In.
    destruct Hin2 as [<- | Hin2]; [now left | right; auto].
Qed.

(** The two dates a call without boundaries returns, from its loop. *)
Lemma observed_dates_of_run (mp peg : string) db s s' w
    (df dt : string) (res : list (string * TranspRec)) :
  db_bool db = false ->
  mpp_parse (files s !! mp) (files s !! peg) = inr res ->
  insert_all_transp_records mp peg db s = (inr (w, df, dt), s') ->
  exists ts m_from m_to,
    Forall2 (fun e t => timestamp e = Some t) res ts
    /\ is_minimum m_from (mkdt 9999 1 1 0 0 0 :: ts)
    /\ is_maximum m_to (mkdt 1002 1 1 0 0 0 :: ts)
    /\ df = strftime m_from /\ dt = strftime m_to.
Proof.
  intros Hdb Hparse Hrun.
  rewrite (insert_all_without _ _ _ _ Hdb), Hparse in Hrun.
  destruct (for_each res _ _ _) as [[e|l] s1] eqn:Hloop; [discriminate|].
  injection Hrun as <- <- <- <-.
  destruct (for_each_dates_without _ _ _ _ _ _ Hdb Hloop) as (ts & Hts & Hf & Ht).
  simpl in Hf, Ht.
  exists ts, (date_from l), (date_to l). split_and!; try reflexivity; auto.
  - rewrite Hf. apply fold_min_is_minimum.
  - rewrite Ht. apply fold_max_is_maximum.
Qed.

(** X8.  Without date boundaries the two dates returned depend on the set
    of parsed records only, not on the order in which the loop visits them
    nor on how often a record occurs: two calls whose parsers gave lists
    with the same members return the same [observedDateFrom] and the same
    [observedDateTo]. *)
Theorem observed_dates_ignore_the_order
    (mp peg : string) db s1 s2 s1' s2' (w1 w2 : Z) (from1 to1 from2 to2 : string)
    (res1 res2 : list (string * TranspRec)) :
  db_bool db = false ->
  mpp_parse (files s1 !! mp) (files s1 !! peg) = inr res1 ->
  mpp_parse (files s2 !! mp) (files s2 !! peg) = inr res2 ->
  (forall e, In e res1 <-> In e res2) ->
  insert_all_transp_records mp peg db s1 = (inr (w1, from1, to1), s1') ->
  insert_all_transp_records mp peg db s2 = (inr (w2, from2, to2), s2') ->
  from1 = from2 /\ to1 = to2.
Proof.
  intros Hdb Hp1 Hp2 Hset Hrun1 Hrun2.
  destruct (observed_dates_of_run _ _ _ _ _ _ _ _ _ Hdb Hp1 Hrun1)
    as (ts1 & a1 & b1 & Hts1 & Hmin1 & Hmax1 & -> & ->).
  destruct (observed_dates_of_run _ _ _ _ _ _ _ _ _ Hdb Hp2 Hrun2)
    as (ts2 & a2 & b2 & Hts2 & Hmin2 & Hmax2 & -> & ->).
  assert (forall t, In t ts1 -> In t ts2) as H12
    by (eapply timestamps_same_set; eauto; intros e; apply Hset).
  assert (forall t, In t ts2 -> In t ts1) as H21
    by (eapply timestamps_same_set; eauto; intros e; apply Hset).
  split; f_equal.
  - eapply is_minimum_unique; eauto.
  - eapply is_maximum_unique; eauto.
Qed.

(** X9.  The range that starts after it ends comes from an empty parse
    only.  Without date boundaries, when at least one record was parsed and
    the method returns, the date returned as [observedDateFrom] is not later
    than the one returned as [observedDateTo], and every record's time
    stamp lies between the two. *)
Theorem observed_range_is_ordered
    (mp peg : string) db s s' (w : Z) (observedDateFrom observedDateTo : string)
    (res : list (string * TranspRec)) :
  db_bool db = false ->
  mpp_parse (files s !! mp) (files s !! peg) = inr res ->
  res <> [] ->
  insert_all_transp_records mp peg db s
    = (inr (w, observedDateFrom, observedDateTo), s') ->
  exists m_from m_to,
    observedDateFrom = strftime m_from
    /\ observedDateTo = strftime m_to
    /\ dt_le m_from m_to
    /\ forall e, In e res ->
         exists t, timestamp e = Some t /\ dt_le m_from t /\ dt_le t m_to.
Proof.
  intros Hdb Hparse Hne Hrun.
  destruct (observed_dates_of_run _ _ _ _ _ _ _ _ _ Hdb Hparse Hrun)
    as (ts & a & b & Hts & [_ Hmin] & [_ Hmax] & -> & ->).
  inversion Hmin as [|? ? _ Hmin']; subst.
  inversion Hmax as [|? ? _ Hmax']; subst.
  rewrite Forall_forall in Hmin', Hmax'.
  assert (forall e, In e res ->
            exists t, timestamp e = Some t /\ dt_le a t /\ dt_le t b) as Hbetween.
  { intros e He.
    destruct (timestamps_In_l _ _ Hts e He) as (t & Ht & Hte).
    exists t. apply list_elem_of_In in Ht. auto. }
  exists a, b. split_and!; try reflexivity; [|exact Hbetween].
  destruct res as [|e res']; [congruence|].
  destruct (Hbetween e (or_introl eq_refl)) as (t & _ & H1 & H2).
  eapply dt_le_trans; eauto.
Qed.

End DatesOfRecords.

(** ** The constructor's other paths *)

Section Paths.

Context `{Ext : Externals}.

Implicit Types (s : State) (db : option (list string)).

(** X10.  A facility handed to the constructor is persisted and nothing
    else.  With an instance that counts as true, a configuration that loads
    and names a dump path, the constructor returns normally for every
    [force_rebuild] and every [date_boundaries]: it opens the configuration,
    calls [dump_facility] and stops.  The handler holds the instance, and its
    [self_edges_weight], [date_from] and [date_to] are not assigned.  The
    boolean of [dump_facility] is dropped: when the dump path cannot be
    written the constructor returns all the same and the files are as they
    were. *)
Theorem supplied_facility_is_only_persisted
    (path_to_conf_file : string) (f : Facility) (force_rebuild : bool) db s
    (conf : JsonDoc) (dump : string) :
  facility_bool f = true ->
  files s !! path_to_conf_file = Some (FJson conf) ->
  facility_dump_path conf = Some dump ->
  exists s',
    __init__ path_to_conf_file (Some f) force_rebuild db s = (inr tt, s')
    /\ h_facility (self s') = Some f
    /\ h_conf (self s') = Some conf
    /\ h_self_edges_weight (self s') = h_self_edges_weight (self s)
    /\ h_date_from (self s') = h_date_from (self s)
    /\ h_date_to (self s') = h_date_to (self s)
    /\ trace s' = trace s ++ [EOpen path_to_conf_file ReadText; ECallDump dump;
                              EOpen dump WriteBinary]
    /\ (str_in dump (unwritable s) = true -> files s' = files s)
    /\ (str_in dump (unwritable s) = false -> picklable f = true ->
        files s' = <[dump := FPickle (Some f)]> (files s)).
Proof.
  intros Hbool Hconf Hdump.
  unfold __init__, dump_facility, open_read, open_write, pkl_dump, json_load,
    get_conf, get_facility, set_facility, set_conf, subscript, or_raise,
    try_except, bind, log, ret, raise.
  simpl. rewrite Hconf. simpl. rewrite Hbool. simpl. rewrite Hdump. simpl.
  destruct (str_in dump (unwritable s)) eqn:Hw; simpl.
  - eexists. split_and!; try reflexivity; try discriminate.
    simpl. now rewrite <- !app_assoc.
  - destruct (picklable f) eqn:Hp; simpl.
    + eexists. split_and!; try reflexivity; try discriminate.
      * simpl. now rewrite <- !app_assoc.
      * intros _ _. simpl. apply insert_insert_eq.
    + eexists. split_and!; try reflexivity; try discriminate.
      simpl. now rewrite <- !app_assoc.
Qed.

End Paths.

Section Forced.

Context `{Ext : Externals}.

Implicit Types (s : State) (db : option (list string)).

Lemma populate_never_restores (path : string) :
  never_logs is_restoring (populate_facility path).
Proof. unfold populate_facility, populate_body. log_steps. Qed.

Lemma insert_all_never_restores (mp peg : string) db :
  never_logs is_restoring (insert_all_transp_records mp peg db).
Proof.
  unfold insert_all_transp_records, insert_body, track_dates, in_error_list,
    out_of_boundaries, try_insert.
  log_steps.
  apply never_logs_silent. intros s. destruct (mpp_parse _ _); reflexivity.
Qed.

Lemma dump_never_restores (path : string) :
  never_logs is_restoring (dump_facility path).
Proof.
  unfold dump_facility, open_write, pkl_dump. log_steps.
  - apply never_logs_silent. intros s.
    destruct (str_in path (unwritable s)); reflexivity.
  - apply never_logs_silent. intros s.
    destruct (can_pickle x1); reflexivity.
Qed.

Lemma rebuild_never_restores db : never_logs is_restoring (rebuild db).
Proof.
  unfold rebuild.
  repeat first
    [ apply populate_never_restores
    | apply insert_all_never_restores
    | apply dump_never_restores
    | apply never_logs_ret
    | apply never_logs_or_raise
    | apply never_logs_get_conf
    | apply never_logs_set_facility
    | apply never_logs_set_result
    | apply never_logs_bind; [|intros ?]
    | progress unfold subscript, index ].
Qed.

(** X11.  A forced build, and a build with date boundaries, never looks at
    the artifact of an earlier build: whatever the constructor is given
    besides, and whether it returns or raises, it does not ask whether the
    dump file exists and opens no file for binary reading. *)
Theorem forced_build_ignores_the_artifact
    (path_to_conf_file : string) (facility_instance : option Facility)
    (force_rebuild : bool) db s (r : exn + unit) s' :
  force_rebuild = true \/ db_bool db = true ->
  __init__ path_to_conf_file facility_instance force_rebuild db s = (r, s') ->
  exists evs, trace s' = trace s ++ evs
              /\ Forall (fun ev => is_restoring ev = false) evs.
Proof.
  intros Hforced.
  assert (negb (db_bool db) && negb force_rebuild = false) as Hcond.
  { destruct Hforced as [-> | ->]; [apply andb_false_r | reflexivity]. }
  revert s r s'.
  change (never_logs is_restoring
            (__init__ path_to_conf_file facility_instance force_rebuild db)).
  unfold __init__, can_restore. rewrite Hcond.
  repeat first
    [ apply rebuild_never_restores
    | apply dump_never_restores
    | apply never_logs_open; reflexivity
    | apply never_logs_ret
    | apply never_logs_or_raise
    | apply never_logs_get_conf
    | apply never_logs_get_facility
    | apply never_logs_set_facility
    | apply never_logs_set_conf
    | apply never_logs_json_load
    | apply never_logs_bind; [|intros ?]
    | progress unfold subscript
    | match goal with
      | |- never_logs _ (if ?b then _ else _) => destruct b
      end ].
Qed.

End Forced.

(** ** A build, then a construction from its artifact *)

Section RoundTrip.

Context `{Ext : Externals}.

Implicit Types (s : State) (db : option (list string)).

Lemma keeps_disk_of_facility_only {A} (m : M State A) :
  facility_only m -> keeps_disk m.
Proof.
  intros H s r s' E. destruct (H _ _ _ E) as (? & ? & _). auto.
Qed.

Lemma keeps_disk_set_result res : keeps_disk (set_result res).
Proof. intros s r s' [= <- <-]. split; reflexivity. Qed.

Lemma persists_at_bind {A B} (dump : string) (m : M State A)
    (k : A -> M State B) :
  keeps_disk m -> (forall x, persists_at dump (k x)) ->
  persists_at dump (bind m k).
Proof.
  intros Hm Hk s y s'. unfold bind.
  destruct (m s) as [[e|x] s1] eqn:E; [discriminate|].
  intros Hkx Hw Hp.
  destruct (Hm _ _ _ E) as [Hf Hu].
  rewrite <- Hf. eapply Hk; eauto. now rewrite Hu.
Qed.

Lemma persists_at_dump (dump : string) :
  persists_at dump (dump_facility dump ;; ret tt).
Proof.
  intros s x s'.
  unfold dump_facility, open_write, pkl_dump, get_facility, try_except, bind,
    log, ret, raise. simpl.
  intros Hrun Hw. rewrite Hw in Hrun. simpl in Hrun.
  destruct (can_pickle (h_facility (self s))) eqn:Hp; simpl in Hrun;
    injection Hrun as <- <-; simpl.
  - intros _. apply insert_insert_eq.
  - congruence.
Qed.

(** The rebuilding branch, from a handler whose configuration names
    [dump]. *)
Lemma rebuild_persists db s s' (conf : JsonDoc) (dump : string) :
  h_conf (self s) = Some conf ->
  facility_dump_path conf = Some dump ->
  rebuild db s = (inr tt, s') ->
  str_in dump (unwritable s) = false ->
  can_pickle (h_facility (self s')) = true ->
  files s' = <[dump := FPickle (h_facility (self s'))]> (files s).
Proof.
  intros Hc Hd. unfold rebuild. unfold bind at 1.
  unfold get_conf, or_raise. rewrite Hc. unfold ret at 1.
  assert (persists_at dump
    (bs0 <- subscript "facility_boundaries" (facility_boundaries conf) ;;
     lo <- index bs0 0 ;;
     bs1 <- subscript "facility_boundaries" (facility_boundaries conf) ;;
     hi <- index bs1 1 ;;
     set_facility (Some (Facility_new lo hi)) ;;
     src <- subscript "facility_source_path" (facility_source_path conf) ;;
     populate_facility src ;;
     mp <- subscript "masterplan_csv_path" (masterplan_csv_path conf) ;;
     peg <- subscript "peg_csv_path" (peg_csv_path conf) ;;
     res <- insert_all_transp_records mp peg db ;;
     set_result res ;;
     dump0 <- subscript "facility_dump_path" (facility_dump_path conf) ;;
     dump_facility dump0 ;; ret tt)) as Hp.
  { rewrite Hd.
    repeat first
      [ apply persists_at_dump
      | apply persists_at_bind; [|intros ?]
      | apply keeps_disk_set_result
      | apply keeps_disk_of_facility_only
      | apply facility_only_populate_facility
      | apply facility_only_insert_all
      | apply facility_only_set_facility
      | apply facility_only_or_raise
      | apply facility_only_ret
      | progress unfold subscript, index ]. }
  intros Hrun. eapply Hp; eauto.
Qed.


End RoundTrip.

(** ** The boundaries [get_data_filtered] builds, and the slice *)

Lemma length_append (a b : string) :
  String.length (a +:+ b) = (String.length a + String.length b)%nat.
Proof. induction a as [|c a IH]; simpl; [reflexivity | now rewrite IH]. Qed.

Lemma list_ascii_of_string_app (a b : string) :
  list_ascii_of_string (a +:+ b)
  = list_ascii_of_string a ++ list_ascii_of_string b.
Proof. induction a as [|c a IH]; simpl; [reflexivity | now rewrite IH]. Qed.

(** What the parser gives is a datetime the constructor accepts. *)
Lemma strptime_valid (date_string : string) (d : datetime) :
  strptime date_string = Some d -> valid_datetime d = true.
Proof.
  unfold strptime.
  destruct (re_date _) as [[dt [|c rest]]|]; try discriminate.
  destruct (valid_datetime dt) eqn:Hv; [|discriminate].
  now intros [= <-].
Qed.

(** *** What a match of the expression has read *)

Section Matchers.

Context {R : Type}.

Implicit Types (k : Z -> list ascii -> option R) (r : R).

Lemma or_else_Some (a b : option R) r :
  or_else a b = Some r -> a = Some r \/ b = Some r.
Proof. destruct a; simpl; auto. Qed.

Lemma two_sound pa pb k l r :
  two pa pb k l = Some r ->
  exists tok v rest, l = tok ++ rest /\ digits_token tok v /\ k v rest = Some r.
Proof.
  unfold two. destruct l as [|a [|b rest]]; try discriminate.
  destruct (pa a && pb b); [|discriminate].
  destruct (digit_of_ascii a) as [x|] eqn:Ha; [|discriminate].
  destruct (digit_of_ascii b) as [y|] eqn:Hb; [|discriminate].
  intros H. exists [a; b], (10 * x + y), rest. split_and!; auto.
  right. exists a, b, x, y. auto.
Qed.

Lemma one_sound p k l r :
  one p k l = Some r ->
  exists tok v rest, l = tok ++ rest /\ digits_token tok v /\ k v rest = Some r.
Proof.
  unfold one. destruct l as [|a rest]; try discriminate.
  destruct (p a); [|discriminate].
  destruct (digit_of_ascii a) as [x|] eqn:Ha; [|discriminate].
  intros H. exists [a], x, rest. split_and!; auto.
  left. exists a. auto.
Qed.

Lemma sp_one_sound p k l r :
  sp_one p k l = Some r ->
  exists pre v rest, l = pre ++ rest /\ k v rest = Some r.
Proof.
  unfold sp_one. destruct l as [|sp rest]; try discriminate.
  destruct (is_char " " sp); [|discriminate].
  intros H. apply one_sound in H as (tok & v & rest' & -> & _ & H).
  exists (sp :: tok), v, rest'. auto.
Qed.

Lemma lit_sound c (k : list ascii -> option R) l r :
  lit c k l = Some r -> exists rest, l = c :: rest /\ k rest = Some r.
Proof.
  unfold lit. destruct l as [|x rest]; try discriminate.
  destruct (is_char c x) eqn:E; [|discriminate].
  apply Ascii.eqb_eq in E as ->. eauto.
Qed.

Lemma re_spaces_star_sound (k : list ascii -> option R) l r :
  re_spaces_star k l = Some r ->
  exists ws rest, l = ws ++ rest /\ k rest = Some r.
Proof.
  induction l as [|c l IH]; simpl.
  - intros H. exists [], []. auto.
  - destruct (re_space c).
    + intros H. apply or_else_Some in H as [H | H].
      * destruct (IH H) as (ws & rest & -> & Hk). exists (c :: ws), rest. auto.
      * exists [], (c :: l). auto.
    + intros H. exists [], (c :: l). auto.
Qed.

Lemma re_spaces_sound (k : list ascii -> option R) l r :
  re_spaces k l = Some r ->
  exists ws rest, l = ws ++ rest /\ k rest = Some r.
Proof.
  unfold re_spaces. destruct l as [|c l]; try discriminate.
  destruct (re_space c); [|discriminate].
  intros H. apply re_spaces_star_sound in H as (ws & rest & -> & Hk).
  exists (c :: ws), rest. auto.
Qed.

Lemma re_Y_sound k l r :
  re_Y k l = Some r ->
  exists pre v rest, l = pre ++ rest /\ k v rest = Some r.
Proof.
  unfold re_Y. intros H.
  apply two_sound in H as (t1 & hi & r1 & -> & _ & H).
  apply two_sound in H as (t2 & lo & r2 & -> & _ & H).
  exists (t1 ++ t2), (100 * hi + lo), r2. rewrite <- app_assoc. auto.
Qed.

Lemma re_m_sound k l r :
  re_m k l = Some r ->
  exists pre v rest, l = pre ++ rest /\ k v rest = Some r.
Proof.
  unfold re_m. intros H.
  repeat (apply or_else_Some in H as [H | H]);
    first [apply two_sound in H | apply one_sound in H];
    destruct H as (tok & v & rest & -> & _ & H); eauto.
Qed.

Lemma re_d_sound k l r :
  re_d k l = Some r ->
  exists pre v rest, l = pre ++ rest /\ k v rest = Some r.
Proof.
  unfold re_d. intros H.
  repeat (apply or_else_Some in H as [H | H]);
    try (first [apply two_sound in H | apply one_sound in H];
         destruct H as (tok & v & rest & -> & _ & H); eauto).
  apply sp_one_sound in H. exact H.
Qed.

Lemma re_H_sound k l r :
  re_H k l = Some r ->
  exists tok v rest, l = tok ++ rest /\ digits_token tok v /\ k v rest = Some r.
Proof.
  unfold re_H. intros H.
  repeat (apply or_else_Some in H as [H | H]);
    first [apply two_sound in H | apply one_sound in H]; exact H.
Qed.

Lemma re_M_sound k l r :
  re_M k l = Some r ->
  exists tok v rest, l = tok ++ rest /\ digits_token tok v /\ k v rest = Some r.
Proof.
  unfold re_M. intros H.
  repeat (apply or_else_Some in H as [H | H]);
    first [apply two_sound in H | apply one_sound in H]; exact H.
Qed.

Lemma re_S_sound k l r :
  re_S k l = Some r ->
  exists tok v rest, l = tok ++ rest /\ digits_token tok v /\ k v rest = Some r.
Proof.
  unfold re_S. intros H.
  repeat (apply or_else_Some in H as [H | H]);
    first [apply two_sound in H | apply one_sound in H]; exact H.
Qed.

End Matchers.

(** The time of day that a match has read stands at its end: the hour, the
    minute and the second, each with one digit or two, with colons
    between. *)
Lemma re_date_time (l : list ascii) (dt : datetime) (rest : list ascii) :
  re_date l = Some (dt, rest) ->
  exists pre htok ntok stok,
    l = pre ++ htok ++ ":"%char :: ntok ++ ":"%char :: stok ++ rest
    /\ digits_token htok (hour dt)
    /\ digits_token ntok (minute dt)
    /\ digits_token stok (second dt).
Proof.
  unfold re_date. intros H.
  apply re_Y_sound in H as (p1 & y & r1 & -> & H). cbv beta in H.
  apply lit_sound in H as (r2 & -> & H).
  apply re_m_sound in H as (p2 & m & r3 & -> & H). cbv beta in H.
  apply lit_sound in H as (r4 & -> & H).
  apply re_d_sound in H as (p3 & d & r5 & -> & H). cbv beta in H.
  apply re_spaces_sound in H as (ws & r6 & -> & H).
  apply re_H_sound in H as (htok & h & r7 & -> & Hh & H). cbv beta in H.
  apply lit_sound in H as (r8 & -> & H).
  apply re_M_sound in H as (ntok & n & r9 & -> & Hn & H). cbv beta in H.
  apply lit_sound in H as (r10 & -> & H).
  apply re_S_sound in H as (stok & sec & r11 & -> & Hs & H). cbv beta in H.
  injection H as <- <-.
  exists (p1 ++ "-"%char :: p2 ++ "-"%char :: p3 ++ ws), htok, ntok, stok.
  split_and!; try assumption.
  repeat (rewrite <- ?app_assoc; simpl). reflexivity.
Qed.

(** A date string that ends in [dummy_time] is read as a midnight. *)
Lemma strptime_dummy_time (date : string) (d : datetime) :
  strptime (date +:+ dummy_time) = Some d -> at_midnight d.
Proof.
  unfold strptime.
  destruct (re_date _) as [[dt [|c rest]]|] eqn:E; try discriminate.
  destruct (valid_datetime dt); [|discriminate].
  intros [= <-].
  apply re_date_time in E as (pre & htok & ntok & stok & Hl & Hh & Hn & Hs).
  rewrite list_ascii_of_string_app, app_nil_r in Hl.
  apply (f_equal (@rev ascii)) in Hl.
  destruct Hh as [(h1 & -> & Hh) | (h1 & h2 & hx & hy & -> & Hh1 & Hh2 & Hh)];
  destruct Hn as [(n1 & -> & Hn) | (n1 & n2 & nx & ny & -> & Hn1 & Hn2 & Hn)];
  destruct Hs as [(s1 & -> & Hs) | (s1 & s2 & sx & sy & -> & Hs1 & Hs2 & Hs)];
    rewrite !rev_app_distr in Hl; simpl in Hl;
    repeat (rewrite <- ?app_assoc in Hl; simpl in Hl);
    simplify_eq;
    repeat match goal with
           | H : digit_of_ascii "0" = Some _ |- _ => injection H as H
           end;
    unfold at_midnight; lia.
Qed.

(** The slice takes off a suffix of four characters. *)
Lemma substring_prefix (a b : string) :
  substring 0 (String.length a) (a +:+ b) = a.
Proof. induction a as [|c a IH]; simpl; [now destruct b | now rewrite IH]. Qed.

Section Views.

Context `{Ext : Externals}.

Implicit Types (s : State) (l : Locals) (rec : TranspRec).

(** X13.  [get_data_filtered] needs both request arguments: a missing
    [start] or [end] raises [TypeError] before anything is built.
    Otherwise it hands on two boundaries, each argument followed by
    [" 00:00:00"], so the list counts as true and the handler filters.  The
    upper boundary is then the midnight that begins the [end] day: a record
    of that day at any later time of day is outside and is skipped. *)
Theorem get_data_filtered_stops_at_midnight (start end_ : option string) :
  (start = None \/ end_ = None ->
   get_data_filtered_boundaries start end_ = inl TypeError)
  /\ (forall bs, get_data_filtered_boundaries start end_ = inr bs ->
        exists a b,
          start = Some a /\ end_ = Some b
          /\ bs = [a +:+ " 00:00:00"; b +:+ " 00:00:00"]
          /\ db_bool (Some bs) = true
          /\ forall lo hi,
               strptime (a +:+ " 00:00:00") = Some lo ->
               strptime (b +:+ " 00:00:00") = Some hi ->
               at_midnight hi
               /\ forall rec t s,
                    strptime (strip4 (rec2 rec)) = Some t ->
                    same_day t hi ->
                    ~ at_midnight t ->
                    out_of_boundaries (Some bs) rec s = (inr true, s)).
Proof.
  split.
  - intros [-> | ->]; [reflexivity|].
    destruct start; reflexivity.
  - intros bs. unfold get_data_filtered_boundaries, add_dummy_time.
    destruct start as [a|]; [|discriminate].
    destruct end_ as [b|]; [|discriminate].
    intros [= <-]. exists a, b. split_and!; try reflexivity.
    intros lo hi Hlo Hhi.
    pose proof (strptime_dummy_time b hi Hhi) as Hmid.
    split; [exact Hmid|].
    intros rec t s Ht Hday Hnot.
    rewrite (out_of_boundaries_with _ _ _ _ _ _ _ Hlo Hhi Ht).
    assert (dt_leb t hi = false) as Hout.
    { destruct (dt_leb t hi) eqn:Hle; [|reflexivity]. exfalso.
      pose proof (strptime_valid _ _ Ht) as Hv.
      unfold valid_datetime in Hv.
      repeat (apply andb_prop in Hv as [Hv ?]).
      apply dt_leb_spec in Hle.
      destruct Hmid as (Hh & Hn & Hs). destruct Hday as (Hy & Hm & Hd).
      destruct Hle as [-> | Hbefore].
      - apply Hnot. repeat split; assumption.
      - unfold dt_before in Hbefore. lia. }
    rewrite Hout, andb_false_r. reflexivity.
Qed.

(** X14.  The slice [rec[2][:-4]] removes exactly the last four characters:
    a time stamp followed by any four characters gives the time stamp back,
    and a field of four characters or fewer gives the empty string, which
    does not parse, so that without boundaries the date tracking raises
    [ValueError] on such a record. *)
Theorem strip4_takes_four_off (stamp : string) :
  (forall suffix, String.length suffix = 4%nat ->
     strip4 (stamp +:+ suffix) = stamp)
  /\ ((String.length stamp <= 4)%nat -> strip4 stamp = ""%string)
  /\ (forall db rec l s,
        rec2 rec = stamp -> (String.length stamp <= 4)%nat ->
        db_bool db = false ->
        track_dates db rec l s = (inl ValueError, s)).
Proof.
  assert ((String.length stamp <= 4)%nat -> strip4 stamp = ""%string) as Hshort.
  { intros Hlen. unfold strip4.
    replace (String.length stamp - 4)%nat with 0%nat by lia.
    destruct stamp; reflexivity. }
  split_and!.
  - intros suffix Hlen. unfold strip4. rewrite length_append, Hlen.
    replace (String.length stamp + 4 - 4)%nat with (String.length stamp) by lia.
    apply substring_prefix.
  - exact Hshort.
  - intros db rec l s Hrec Hlen Hdb.
    apply track_dates_unparsed; [exact Hdb|].
    rewrite Hrec, (Hshort Hlen). reflexivity.
Qed.

End Views.

(** ** The method from its loop *)

Section Method.

Context `{Ext : Externals}.

Implicit Types (s : State) (l : Locals) (rec : TranspRec)
  (db : option (list string)).

(** The method is its loop, run from the start locals on what the parser
    gave, and followed by the formatting of the two dates. *)
Lemma insert_all_from_start (mp peg : string) db s :
  insert_all_transp_records mp peg db s
  = match mpp_parse (files s !! mp) (files s !! peg) with
    | inl e => (inl e, parsed mp peg s)
    | inr res =>
        match start_locals db with
        | inl e => (inl e, parsed mp peg s)
        | inr l0 => finish (for_each res (insert_body db) l0 (parsed mp peg s))
        end
    end.
Proof.
  unfold insert_all_transp_records, bind, log, of_result, ret, raise.
  fold (parsed mp peg s).
  destruct (mpp_parse _ _) as [e|res]; [reflexivity|].
  unfold start_locals.
  destruct db as [[|b0 rest]|]; simpl.
  - destruct (for_each res _ _ _) as [[e|l] s']; reflexivity.
  - unfold db_index, index, or_raise, bind, ret, raise. simpl.
    destruct (strptime b0) as [lo|]; [|reflexivity].
    destruct rest as [|b1 rest]; simpl; [reflexivity|].
    destruct (strptime b1) as [hi|]; [|reflexivity].
    destruct (for_each res _ _ _) as [[e|l] s']; reflexivity.
  - destruct (for_each res _ _ _) as [[e|l] s']; reflexivity.
Qed.

(** The loop over a list in two parts. *)
Lemma for_each_app {A L : Type} (body : A -> L -> M State L)
    (xs ys : list A) (l : L) s :
  for_each (xs ++ ys) body l s
  = match for_each xs body l s with
    | (inl e, s') => (inl e, s')
    | (inr l', s') => for_each ys body l' s'
    end.
Proof.
  revert l s. induction xs as [|x xs IH]; intros l s; simpl; [reflexivity|].
  unfold bind. destruct (body x l s) as [[e|l1] s1]; [reflexivity|]. apply IH.
Qed.

(** What the loop does to the state, and whether it raises, does not depend
    on the self-edge weight it starts from; the weight it ends with is
    shifted as the one it started from. *)
Lemma track_dates_counted db rec l s (w : Z) :
  track_dates db rec (counted w l) s = and_counted w (track_dates db rec l s).
Proof.
  unfold track_dates. destruct (negb (db_bool db)); [|reflexivity].
  unfold bind, or_raise, ret, raise.
  destruct (strptime (strip4 (rec2 rec))) as [t|]; [|reflexivity]. simpl.
  destruct (dt_ltb t (date_from l)); simpl;
    destruct (dt_gtb t _); reflexivity.
Qed.

Lemma try_insert_counted rec l s (w : Z) :
  try_insert rec (counted w l) s = and_counted w (try_insert rec l s).
Proof.
  unfold try_insert, the_facility, get_facility, set_facility, try_except,
    bind, or_raise, of_result, ret, raise.
  destruct (h_facility (self s)) as [f|]; simpl; [|reflexivity].
  destruct (py_int (rec3 rec)) as [w0|]; simpl; [|reflexivity].
  destruct (add_transp_record f _ _ w0) as [e|f']; simpl; [|reflexivity].
  destruct (is_SelfEdgesNotSupported e); simpl; [|reflexivity].
  unfold counted. simpl. do 3 f_equal. lia.
Qed.

Lemma insert_body_counted db entry l s (w : Z) :
  insert_body db entry (counted w l) s
  = and_counted w (insert_body db entry l s).
Proof.
  unfold insert_body, bind. rewrite track_dates_counted.
  destruct (track_dates db entry.2 l s) as [[e|l1] s1]; cbn [and_counted];
    [reflexivity|].
  destruct (in_error_list entry.2 s1) as [[e|skip] s2]; [reflexivity|].
  destruct skip; [reflexivity|].
  destruct (out_of_boundaries db entry.2 s2) as [[e|out] s3]; [reflexivity|].
  destruct out; [reflexivity|].
  apply try_insert_counted.
Qed.

Lemma for_each_counted db (res : list (string * TranspRec)) (w : Z) :
  forall l s,
    for_each res (insert_body db) (counted w l) s
    = and_counted w (for_each res (insert_body db) l s).
Proof.
  induction res as [|entry res IH]; intros l s; simpl; [reflexivity|].
  unfold bind. rewrite insert_body_counted.
  destruct (insert_body db entry l s) as [[e|l1] s1]; [reflexivity|].
  simpl. apply IH.
Qed.

(** C3.  Let the parser give the records [pre], then [rec], then [post],
    let the loop get through [pre], and let [rec] reach the insertion and
    [add_transp_record] raise [SelfEdgesNotSupported] on it.  The error is
    not propagated: the body returns with exactly [int(rec[3])] added to the
    running self-edge weight and with the state, and so the facility and its
    edges, as it was before the record.  The method goes on with [post] from
    there, and what it returns or raises is what [post] makes of it: had the
    record added nothing, [post] would leave the same state and raise the
    same exception, and when it returns, the total the method returns as
    its first element is larger by exactly that weight. *)
Theorem self_edge_is_counted
    (mp peg : string) db s (pre post : list (string * TranspRec))
    (key : string) rec l0 l l1 s1 (f : Facility) (w : Z) :
  mpp_parse (files s !! mp) (files s !! peg) = inr (pre ++ (key, rec) :: post) ->
  start_locals db = inr l0 ->
  for_each pre (insert_body db) l0 (parsed mp peg s) = (inr l, s1) ->
  track_dates db rec l s1 = (inr l1, s1) ->
  in_error_list rec s1 = (inr false, s1) ->
  out_of_boundaries db rec s1 = (inr false, s1) ->
  h_facility (self s1) = Some f ->
  py_int (rec3 rec) = Some w ->
  add_transp_record f (rec0 rec +:+ ".centroid") (rec1 rec +:+ ".centroid") w
    = inl SelfEdgesNotSupported ->
  insert_body db (key, rec) l s1 = (inr (counted w l1), s1)
  /\ self_edges_weight (counted w l1) = self_edges_weight l + w
  /\ insert_all_transp_records mp peg db s
     = finish (for_each post (insert_body db) (counted w l1) s1)
  /\ (forall r s',
        for_each post (insert_body db) l1 s1 = (r, s') ->
        insert_all_transp_records mp peg db s
        = match r with
          | inl e => (inl e, s')
          | inr l' =>
              (inr (self_edges_weight l' + w,
                    strftime (date_from l'), strftime (date_to l')), s')
          end).
Proof.
  intros Hparse Hstart Hpre Htrack Herr Hout Hf Hw Hadd.
  pose proof (try_insert_self_edge rec l1 s1 f w Hf Hw Hadd) as Htry.
  assert (insert_body db (key, rec) l s1 = (inr (counted w l1), s1)) as Hbody.
  { unfold insert_body, bind. simpl. rewrite Htrack, Herr, Hout. exact Htry. }
  assert (insert_all_transp_records mp peg db s
          = finish (for_each post (insert_body db) (counted w l1) s1)) as Hrun.
  { rewrite insert_all_from_start, Hparse, Hstart, for_each_app, Hpre.
    simpl. unfold bind. now rewrite Hbody. }
  split_and!.
  - exact Hbody.
  - simpl. f_equal.
    unfold track_dates in Htrack.
    destruct (negb (db_bool db)); unfold bind, or_raise, ret, raise in Htrack;
      repeat case_match; simplify_eq; reflexivity.
  - exact Hrun.
  - intros r s' Hpost. rewrite Hrun, for_each_counted, Hpost.
    destruct r as [e|l']; reflexivity.
Qed.

(** C4, as amended.  With the date boundaries [from] and [to], a record that
    the error list does not exclude is handed to [add_transp_record] exactly
    when its time stamp [t] satisfies [from <= t <= to], both ends included.
    Outside the interval it is skipped, state and locals being left as they
    were.  Inside, the insertion decides: the facility [add_transp_record]
    returns becomes the handler's facility, a [SelfEdgesNotSupported] adds
    the weight to the self-edge total and leaves the facility as it was, any
    other exception and a weight that is no integer abort the loop.  The
    method runs this loop over the parsed records from a total of zero, and
    when the loop returns it returns the loop's total and state with the two
    boundaries parsed and formatted again. *)
Theorem boundaries_filter_and_echo (from to : string) (lo hi : datetime) :
  strptime from = Some lo ->
  strptime to = Some hi ->
  (forall (key : string) rec l s (conf : JsonDoc) (errs : list string)
          (t : datetime) (f : Facility),
      h_conf (self s) = Some conf ->
      error_dep_list conf = Some errs ->
      str_in (rec0 rec) errs || str_in (rec1 rec) errs = false ->
      strptime (strip4 (rec2 rec)) = Some t ->
      h_facility (self s) = Some f ->
      (dt_leb lo t && dt_leb t hi = false ->
       insert_body (Some [from; to]) (key, rec) l s = (inr l, s))
      /\ (dt_leb lo t && dt_leb t hi = true ->
          insert_body (Some [from; to]) (key, rec) l s
          = match py_int (rec3 rec) with
            | None => (inl ValueError, s)
            | Some w =>
                match add_transp_record f (rec0 rec +:+ ".centroid")
                        (rec1 rec +:+ ".centroid") w with
                | inr f' => (inr l, with_facility (Some f') s)
                | inl e =>
                    if is_SelfEdgesNotSupported e
                    then (inr (counted w l), s)
                    else (inl e, s)
                end
            end))
  /\ (forall (mp peg : string) s (res : list (string * TranspRec)),
        mpp_parse (files s !! mp) (files s !! peg) = inr res ->
        forall r s',
          for_each res (insert_body (Some [from; to]))
            {| self_edges_weight := 0; date_from := lo; date_to := hi |}
            (parsed mp peg s) = (r, s') ->
          insert_all_transp_records mp peg (Some [from; to]) s
          = match r with
            | inl e => (inl e, s')
            | inr l' => (inr (self_edges_weight l', strftime lo, strftime hi), s')
            end).
Proof.
  intros Hlo Hhi. split.
  - intros key rec l s conf errs t f Hc He Hin Ht Hf.
    assert (insert_body (Some [from; to]) (key, rec) l s
            = if dt_leb lo t && dt_leb t hi then try_insert rec l s
              else (inr l, s)) as Hbody.
    { unfold insert_body, bind. cbn [snd].
      rewrite (track_dates_with (Some [from; to]) rec l s eq_refl).
      rewrite (in_error_list_conf _ _ _ _ Hc He), Hin.
      rewrite (out_of_boundaries_with _ _ _ _ _ _ _ Hlo Hhi Ht).
      destruct (dt_leb lo t && dt_leb t hi); reflexivity. }
    split; intros Hin_range; rewrite Hbody, Hin_range; [reflexivity|].
    unfold try_insert, the_facility, get_facility, set_facility, try_except,
      bind, or_raise, of_result, ret, raise.
    rewrite Hf. simpl.
    destruct (py_int (rec3 rec)) as [w|]; simpl; [|reflexivity].
    destruct (add_transp_record f _ _ w) as [e|f']; simpl; [|reflexivity].
    destruct (is_SelfEdgesNotSupported e); reflexivity.
  - intros mp peg s res Hparse r s' Hloop.
    rewrite insert_all_from_start, Hparse.
    unfold start_locals. simpl. rewrite Hlo, Hhi, Hloop.
    destruct r as [e|l']; [reflexivity|].
    destruct (for_each_dates_with (Some [from; to]) _ _ _ _ _ eq_refl Hloop)
      as [Hfrom Hto]. simpl in Hfrom, Hto.
    unfold finish, returned. now rewrite Hfrom, Hto.
Qed.

End Method.

(** ** A build that fails *)

Section FailedBuild.

Context `{Ext : Externals}.

Implicit Types (s : State) (db : option (list string)).

Lemma populate_facility_no_departments (path : string) s (doc : JsonDoc) :
  files s !! path = Some (FJson doc) ->
  departments doc = None ->
  populate_facility path s
  = (inl (KeyError "departments"),
     logged (EOpen path ReadText) (logged (ECallPopulate path) s)).
Proof.
  intros Hfile Hdeps.
  unfold populate_facility, open_read, json_load, subscript, or_raise, bind,
    log, ret, raise.
  simpl. rewrite Hfile. simpl. rewrite Hdeps. reflexivity.
Qed.

(** The constructor on the rebuilding branch, up to the two methods that
    read the sources: an exception of either is the constructor's, and the
    lines after them are not reached. *)
Lemma init_builds (path_to_conf_file : string)
    (facility_instance : option Facility) (force_rebuild : bool) db s
    (conf : JsonDoc) (low high : list Z) (more : list (list Z))
    (src mp peg : string) :
  obj_bool facility_instance = false ->
  files s !! path_to_conf_file = Some (FJson conf) ->
  facility_boundaries conf = Some (low :: high :: more) ->
  facility_source_path conf = Some src ->
  masterplan_csv_path conf = Some mp ->
  peg_csv_path conf = Some peg ->
  (negb (db_bool db) && negb force_rebuild = true ->
   exists dump, facility_dump_path conf = Some dump /\ files s !! dump = None) ->
  __init__ path_to_conf_file facility_instance force_rebuild db s
  = match populate_facility src
            (build_start path_to_conf_file force_rebuild db conf low high s) with
    | (inl e, s1) => (inl e, s1)
    | (inr _, s1) =>
        match insert_all_transp_records mp peg db s1 with
        | (inl e, s2) => (inl e, s2)
        | (inr res, s2) =>
            (set_result res ;;
             dump <- subscript "facility_dump_path" (facility_dump_path conf) ;;
             dump_facility dump ;;
             ret tt) s2
        end
    end.
Proof.
  intros Hbool Hconf Hb Hsrc Hmp Hpeg Hart.
  unfold __init__. unfold bind at 1. unfold set_facility at 1.
  unfold bind at 1. unfold open_read, bind, log, or_raise, ret. cbn [files logged with_self].
  rewrite Hconf. cbn [json_load ret].
  unfold set_conf at 1. unfold get_facility at 1.
  cbn [self with_self logged h_facility].
  rewrite Hbool. cbn [negb].
  assert (forall s0 : State,
            h_conf (self s0) = Some conf -> files s0 = files s ->
            can_restore force_rebuild db s0
            = (inr false, look_for force_rebuild db conf s0)) as Hcr.
  { intros s0 Hc Hfs. unfold can_restore, look_for.
    destruct (negb (db_bool db) && negb force_rebuild) eqn:Hcond; [|reflexivity].
    destruct (Hart eq_refl) as (dump & Hd & Hnone).
    unfold get_conf, subscript, isfile, or_raise, bind, log, ret.
    rewrite Hc. cbn [ret]. rewrite Hd. cbn [files logged].
    rewrite Hfs, Hnone. reflexivity. }
  rewrite Hcr; [|reflexivity|reflexivity].
  assert (forall s0 : State,
            h_conf (self s0) = Some conf ->
            rebuild db s0
            = match populate_facility src
                      (with_facility (Some (Facility_new low high)) s0) with
              | (inl e, s1) => (inl e, s1)
              | (inr _, s1) =>
                  match insert_all_transp_records mp peg db s1 with
                  | (inl e, s2) => (inl e, s2)
                  | (inr res, s2) =>
                      (set_result res ;;
                       dump <- subscript "facility_dump_path"
                                 (facility_dump_path conf) ;;
                       dump_facility dump ;;
                       ret tt) s2
                  end
              end) as Hreb.
  { intros s0 Hc. unfold rebuild. unfold bind at 1. unfold get_conf, or_raise.
    rewrite Hc. unfold ret at 1. rewrite Hb, Hsrc, Hmp, Hpeg.
    cbv [subscript index or_raise nth_error bind ret set_facility
         with_facility].
    reflexivity. }
  rewrite Hreb.
  - unfold build_start, look_for.
    destruct (negb (db_bool db) && negb force_rebuild);
      [destruct (facility_dump_path conf)|]; reflexivity.
  - unfold look_for.
    destruct (negb (db_bool db) && negb force_rebuild);
      [destruct (facility_dump_path conf)|]; reflexivity.
Qed.

(** C7.  On the rebuilding branch of the constructor (no facility supplied
    that counts as true, a configuration that loads and has its keys, and
    no artifact found where one is looked for), an error of the build is
    the constructor's error.  An exception of [populate_facility] is raised
    on, and so is one of [insert_all_transp_records]; in particular a layout
    without its ["departments"] key raises [KeyError], a department that
    [add_department] rejects raises its exception, and so does a record that
    [add_transp_record] rejects with anything but [SelfEdgesNotSupported].
    Whenever the constructor raises, no file has been written: the files
    are as they were, a prior artifact included, and among the steps taken
    there is no call of [dump_facility] and no file opened for writing. *)
Theorem failed_build_writes_nothing
    (path_to_conf_file : string) (facility_instance : option Facility)
    (force_rebuild : bool) db s
    (conf : JsonDoc) (low high : list Z) (more : list (list Z))
    (src mp peg : string) :
  obj_bool facility_instance = false ->
  files s !! path_to_conf_file = Some (FJson conf) ->
  facility_boundaries conf = Some (low :: high :: more) ->
  facility_source_path conf = Some src ->
  masterplan_csv_path conf = Some mp ->
  peg_csv_path conf = Some peg ->
  (negb (db_bool db) && negb force_rebuild = true ->
   exists dump, facility_dump_path conf = Some dump /\ files s !! dump = None) ->
  let s_b := build_start path_to_conf_file force_rebuild db conf low high s in
  let init := __init__ path_to_conf_file facility_instance force_rebuild db in
  (forall e s1, populate_facility src s_b = (inl e, s1) -> init s = (inl e, s1))
  /\ (forall s1 e s2,
        populate_facility src s_b = (inr tt, s1) ->
        insert_all_transp_records mp peg db s1 = (inl e, s2) ->
        init s = (inl e, s2))
  /\ (forall doc,
        files s !! src = Some (FJson doc) ->
        departments doc = None ->
        exists s', init s = (inl (KeyError "departments"), s'))
  /\ (forall doc deps e f',
        files s !! src = Some (FJson doc) ->
        departments doc = Some deps ->
        add_departments (Facility_new low high) deps = (Some e, f') ->
        exists s', init s = (inl e, s') /\ h_facility (self s') = Some f')
  /\ (forall s1 (pre post : list (string * TranspRec)) (key : string) rec
             l0 l l1 s2 (f : Facility) (w : Z) e,
        populate_facility src s_b = (inr tt, s1) ->
        mpp_parse (files s1 !! mp) (files s1 !! peg)
          = inr (pre ++ (key, rec) :: post) ->
        start_locals db = inr l0 ->
        for_each pre (insert_body db) l0 (parsed mp peg s1) = (inr l, s2) ->
        track_dates db rec l s2 = (inr l1, s2) ->
        in_error_list rec s2 = (inr false, s2) ->
        out_of_boundaries db rec s2 = (inr false, s2) ->
        h_facility (self s2) = Some f ->
        py_int (rec3 rec) = Some w ->
        add_transp_record f (rec0 rec +:+ ".centroid")
          (rec1 rec +:+ ".centroid") w = inl e ->
        e <> SelfEdgesNotSupported ->
        init s = (inl e, s2))
  /\ (forall e s',
        init s = (inl e, s') ->
        files s' = files s
        /\ exists evs, trace s' = trace s ++ evs
                       /\ Forall (fun ev => is_writing ev = false) evs).
Proof.
  intros Hbool Hconf Hb Hsrc Hmp Hpeg Hart s_b init.
  pose proof (init_builds _ _ _ _ _ _ _ _ _ _ _ _ Hbool Hconf Hb Hsrc Hmp Hpeg Hart)
    as Hinit.
  fold s_b in Hinit. fold init in Hinit.
  assert (forall e s1, populate_facility src s_b = (inl e, s1) ->
                       init s = (inl e, s1)) as Hpop.
  { intros e s1 H. now rewrite Hinit, H. }
  assert (forall s1 e s2,
            populate_facility src s_b = (inr tt, s1) ->
            insert_all_transp_records mp peg db s1 = (inl e, s2) ->
            init s = (inl e, s2)) as Hins.
  { intros s1 e s2 H1 H2. now rewrite Hinit, H1, H2. }
  split_and!.
  - exact Hpop.
  - exact Hins.
  - intros doc Hfile Hdeps. eexists. apply Hpop.
    apply populate_facility_no_departments with (doc := doc); assumption.
  - intros doc deps e f' Hfile Hdeps Hadd. eexists. split.
    + apply Hpop.
      rewrite (populate_facility_loop src s_b doc deps Hfile Hdeps).
      rewrite (for_each_populate deps
                 (logged (EOpen src ReadText) (logged (ECallPopulate src) s_b))
                 (Facility_new low high) eq_refl).
      rewrite Hadd. reflexivity.
    + reflexivity.
  - intros s1 pre post key rec l0 l l1 s2 f w e
      Hp Hparse Hstart Hpre Htrack Herr Hout Hf Hw Hadd Hne.
    apply (Hins s1 e s2 Hp).
    rewrite insert_all_from_start, Hparse, Hstart, for_each_app, Hpre.
    simpl. unfold bind at 1. unfold insert_body, bind. simpl.
    rewrite Htrack, Herr, Hout.
    unfold try_insert, the_facility, get_facility, try_except, bind, or_raise,
      of_result, ret, raise.
    rewrite Hf. simpl. rewrite Hw. simpl. rewrite Hadd. simpl.
    destruct e; try reflexivity. congruence.
  - intros e s'. apply fails_quietly_init.
Qed.

End FailedBuild.

(** ** The properties above on the small installation *)

Lemma self_edge_is_counted_witness :
  insert_body None ("3"%string, record_AA)
    (seen (mkdt 2015 5 26 9 30 0) (seen (mkdt 2015 5 25 18 0 0) initial_locals))
    after_two_trips
  = (inr (counted 10
            (seen (mkdt 2015 5 27 12 0 0)
               (seen (mkdt 2015 5 26 9 30 0)
                  (seen (mkdt 2015 5 25 18 0 0) initial_locals)))),
     after_two_trips)
  /\ h_facility (self after_two_trips) = Some (the_facility_with_trip 8)
  /\ insert_all_transp_records "masterplan.csv" "peg.csv" None
       (populated scenario_primary scenario_lookup)
     = (inr (10, "2015-05-20 07:15:00"%string, "2015-05-27 12:00:00"%string),
        after_two_trips).
Proof.
  pose proof (self_edge_is_counted (Ext := registry)
                "masterplan.csv" "peg.csv" None
                (populated scenario_primary scenario_lookup)
                [("1"%string, record_AB); ("2"%string, record_AB')]
                [("4"%string, record_ZB)] "3" record_AA
                initial_locals
                (seen (mkdt 2015 5 26 9 30 0)
                   (seen (mkdt 2015 5 25 18 0 0) initial_locals))
                (seen (mkdt 2015 5 27 12 0 0)
                   (seen (mkdt 2015 5 26 9 30 0)
                      (seen (mkdt 2015 5 25 18 0 0) initial_locals)))
                after_two_trips (the_facility_with_trip 8) 10
                eq_refl eq_refl eq_refl eq_refl eq_refl eq_refl eq_refl
                eq_refl eq_refl)
    as (Hbody & _ & _ & Hrun).
  split_and!; [exact Hbody | reflexivity |].
  exact (Hrun (inr (seen (mkdt 2015 5 20 7 15 0)
                      (seen (mkdt 2015 5 27 12 0 0)
                         (seen (mkdt 2015 5 26 9 30 0)
                            (seen (mkdt 2015 5 25 18 0 0) initial_locals)))))
              after_two_trips eq_refl).
Defined.

(** C4, refuted as stated.  The self edge on A is not on the error list and
    its time stamp, 2015-05-27 12:00:00, lies within the boundaries, yet it
    is not inserted: its weight is counted and the handler, its facility
    included, is as before.  And the boundaries written as 2015-5-26 and
    2015-5-27 are accepted and come back as 2015-05-26 and 2015-05-27, which
    are not the strings supplied. *)
Lemma in_range_self_edge_is_not_inserted :
  str_in (rec0 record_AA) ["Z"] || str_in (rec1 record_AA) ["Z"] = false
  /\ strptime (strip4 (rec2 record_AA)) = Some (mkdt 2015 5 27 12 0 0)
  /\ dt_leb (mkdt 2015 5 27 0 0 0) (mkdt 2015 5 27 12 0 0)
     && dt_leb (mkdt 2015 5 27 12 0 0) (mkdt 2015 5 28 0 0 0) = true
  /\ insert_body (Some self_edge_day) ("3"%string, record_AA) initial_locals
       (populated scenario_primary scenario_lookup)
     = (inr (counted 10 initial_locals),
        populated scenario_primary scenario_lookup)
  /\ (insert_all_transp_records "masterplan.csv" "peg.csv"
        (Some second_trip_only_unpadded)
        (populated scenario_primary scenario_lookup)).1
     = inr (0, "2015-05-26 00:00:00"%string, "2015-05-27 00:00:00"%string)
  /\ second_trip_only_unpadded
     <> ["2015-05-26 00:00:00"; "2015-05-27 00:00:00"]%string.
Proof.
  split_and!; try reflexivity. discriminate.
Qed.

Lemma boundaries_filter_and_echo_witness :
  insert_body (Some second_trip_only) ("1"%string, record_AB) initial_locals
    (populated scenario_primary scenario_lookup)
  = (inr initial_locals, populated scenario_primary scenario_lookup)
  /\ insert_body (Some second_trip_only) ("2"%string, record_AB')
       initial_locals (populated scenario_primary scenario_lookup)
     = (inr initial_locals,
        with_facility (Some (the_facility_with_trip 3))
          (populated scenario_primary scenario_lookup))
  /\ insert_all_transp_records "masterplan.csv" "peg.csv"
       (Some second_trip_only) (populated scenario_primary scenario_lookup)
     = (inr (0, "2015-05-26 00:00:00"%string, "2015-05-27 00:00:00"%string),
        with_facility (Some (the_facility_with_trip 3))
          (parsed "masterplan.csv" "peg.csv"
             (populated scenario_primary scenario_lookup))).
Proof.
  pose proof (boundaries_filter_and_echo (Ext := registry)
                "2015-05-26 00:00:00" "2015-05-27 00:00:00"
                (mkdt 2015 5 26 0 0 0) (mkdt 2015 5 27 0 0 0) eq_refl eq_refl)
    as [Hstep Hrun].
  split_and!.
  - exact (proj1 (Hstep "1"%string record_AB initial_locals
                    (populated scenario_primary scenario_lookup) the_conf
                    ["Z"%string] (mkdt 2015 5 25 18 0 0) the_facility_ABC
                    eq_refl eq_refl eq_refl eq_refl eq_refl) eq_refl).
  - exact (proj2 (Hstep "2"%string record_AB' initial_locals
                    (populated scenario_primary scenario_lookup) the_conf
                    ["Z"%string] (mkdt 2015 5 26 9 30 0) the_facility_ABC
                    eq_refl eq_refl eq_refl eq_refl eq_refl) eq_refl).
  - exact (Hrun "masterplan.csv"%string "peg.csv"%string
             (populated scenario_primary scenario_lookup) scenario_records
             eq_refl
             (inr {| self_edges_weight := 0;
                     date_from := mkdt 2015 5 26 0 0 0;
                     date_to := mkdt 2015 5 27 0 0 0 |})
             (with_facility (Some (the_facility_with_trip 3))
                (parsed "masterplan.csv" "peg.csv"
                   (populated scenario_primary scenario_lookup)))
             eq_refl).
Defined.

Lemma failed_build_writes_nothing_witness :
  exists s' : @State registry,
    __init__ "config.json" None true None
      (fresh (Ext := registry) broken_layout [])
    = (inl (KeyError "departments"), s')
    /\ files s' = broken_layout
    /\ exists evs, trace s' = [] ++ evs
                   /\ Forall (fun ev => is_writing ev = false) evs.
Proof.
  assert (negb (db_bool None) && negb true = true ->
          exists dump, facility_dump_path the_conf = Some dump
                       /\ (broken_layout : gmap string (FileData Registry))
                          !! dump = None) as Hart
    by (intros H; discriminate H).
  pose proof (failed_build_writes_nothing (Ext := registry)
                "config.json" None true None
                (fresh (Ext := registry) broken_layout [])
                the_conf [0; 0] [100; 100] [] "layout.json" "masterplan.csv"
                "peg.csv" eq_refl eq_refl eq_refl eq_refl eq_refl eq_refl Hart)
    as (_ & _ & Hkey & _ & _ & Hquiet).
  destruct (Hkey the_conf eq_refl eq_refl) as [s' Hrun].
  exists s'. split; [exact Hrun|].
  exact (Hquiet _ _ Hrun).
Defined.

Lemma populate_facility_adds_in_order_witness :
  populate_facility "layout.json"
    (unpopulated (installation scenario_primary scenario_lookup))
  = (inr tt,
     with_facility (Some the_facility_ABC)
       (logged (EOpen "layout.json" ReadText)
          (logged (ECallPopulate "layout.json")
             (unpopulated (installation scenario_primary scenario_lookup))))).
Proof.
  exact (populate_facility_adds_in_order (Ext := registry) "layout.json"
           (unpopulated (installation scenario_primary scenario_lookup))
           (reg_new [0; 0] [100; 100]) the_layout
           [dep_A; dep_B; dep_C] eq_refl eq_refl eq_refl).
Defined.

Lemma populate_facility_keeps_what_it_added_witness :
  populate_facility "layout.json" (unpopulated installation_with_duplicate)
  = (inl (FacilityError "DuplicateLabel"),
     with_facility (Some the_facility_AB)
       (logged (EOpen "layout.json" ReadText)
          (logged (ECallPopulate "layout.json")
             (unpopulated installation_with_duplicate)))).
Proof.
  apply (populate_facility_keeps_what_it_added (Ext := registry) "layout.json"
           (unpopulated installation_with_duplicate)
           (reg_new [0; 0] [100; 100]) the_facility_AB layout_with_duplicate
           [dep_A; dep_B] [dep_C] dep_A
           {| label := "A";
              points := [ {| px := 0; py := 0 |}; {| px := 1; py := 0 |};
                          {| px := 1; py := 1 |}; {| px := 0; py := 1 |} ] |}
           (FacilityError "DuplicateLabel")); reflexivity.
Defined.

Lemma insert_all_changes_the_facility_only_witness :
  (insert_all_transp_records "masterplan.csv" "peg.csv" None
     (populated scenario_primary scenario_lookup)).1
  = inr (10, "2015-05-20 07:15:00"%string, "2015-05-27 12:00:00"%string)
  /\ same_but_facility (populated scenario_primary scenario_lookup)
       (insert_all_transp_records "masterplan.csv" "peg.csv" None
          (populated scenario_primary scenario_lookup)).2
  /\ trace (insert_all_transp_records "masterplan.csv" "peg.csv" None
              (populated scenario_primary scenario_lookup)).2
     = [] ++ [ECallInsertAll "masterplan.csv" "peg.csv";
              ENewParser "masterplan.csv" "peg.csv";
              EParse "masterplan.csv" "peg.csv"].
Proof.
  split; [reflexivity|].
  apply (insert_all_changes_the_facility_only (Ext := registry)
           "masterplan.csv" "peg.csv" None
           (populated scenario_primary scenario_lookup)
           (insert_all_transp_records "masterplan.csv" "peg.csv" None
              (populated scenario_primary scenario_lookup)).1
           (insert_all_transp_records "masterplan.csv" "peg.csv" None
              (populated scenario_primary scenario_lookup)).2).
  reflexivity.
Defined.

Lemma boundaries_are_checked_first_witness :
  exists e,
    insert_all_transp_records "masterplan.csv" "peg.csv"
      (Some ["2015-05-26 00:00:00"%string])
      (populated scenario_primary scenario_lookup)
    = (inl e, parsed "masterplan.csv" "peg.csv"
                (populated scenario_primary scenario_lookup))
    /\ (forall res,
          mpp_parse (files (populated scenario_primary scenario_lookup)
                       !! "masterplan.csv")
                    (files (populated scenario_primary scenario_lookup)
                       !! "peg.csv") = inr res ->
          e = ValueError \/ e = IndexError).
Proof.
  apply (boundaries_are_checked_first (Ext := registry)
           "masterplan.csv" "peg.csv" ["2015-05-26 00:00:00"%string]
           (populated scenario_primary scenario_lookup)).
  - discriminate.
  - intros (b0 & b1 & lo & hi & _ & H & _). discriminate H.
Defined.

Lemma inverted_boundaries_insert_nothing_witness :
  insert_all_transp_records "masterplan.csv" "peg.csv"
    (Some ["2015-05-27 00:00:00"%string; "2015-05-26 00:00:00"%string])
    (populated scenario_primary scenario_lookup)
  = (inr (0, "2015-05-27 00:00:00"%string, "2015-05-26 00:00:00"%string),
     parsed "masterplan.csv" "peg.csv"
       (populated scenario_primary scenario_lookup)).
Proof.
  apply (inverted_boundaries_insert_nothing (Ext := registry)
           "masterplan.csv" "peg.csv"
           "2015-05-27 00:00:00" "2015-05-26 00:00:00"
           (mkdt 2015 5 27 0 0 0) (mkdt 2015 5 26 0 0 0)
           (populated scenario_primary scenario_lookup)
           the_conf ["Z"%string] scenario_records);
    try reflexivity.
  unfold scenario_records.
  repeat (apply List.Forall_cons;
          [right; intros H; vm_compute in H; discriminate H|]).
  apply List.Forall_nil.
Defined.

Lemma insertion_errors_propagate_witness :
  for_each [("1"%string, record_AQ); ("2"%string, record_AB)]
    (insert_body None) initial_locals
    (populated scenario_primary scenario_lookup)
  = (inl (FacilityError "UnknownLabel"),
     populated scenario_primary scenario_lookup).
Proof.
  pose proof (insertion_errors_propagate (Ext := registry) None "1" record_AQ
                [("2"%string, record_AB)] initial_locals
                (seen (mkdt 2015 5 25 18 0 0) initial_locals)
                (populated scenario_primary scenario_lookup)
                the_facility_ABC eq_refl eq_refl eq_refl eq_refl)
    as [_ Hraise].
  apply (Hraise 5 (FacilityError "UnknownLabel"));
    [reflexivity | reflexivity | discriminate].
Defined.

Lemma unparsed_timestamp_aborts_witness :
  for_each [("1"%string, record_undated); ("2"%string, record_AB)]
    (insert_body None) initial_locals
    (populated scenario_primary scenario_lookup)
  = (inl ValueError, populated scenario_primary scenario_lookup).
Proof.
  apply (unparsed_timestamp_aborts (Ext := registry) None "1" record_undated
           [("2"%string, record_AB)] initial_locals
           (populated scenario_primary scenario_lookup)
           the_conf ["Z"%string]);
    [reflexivity | reflexivity | reflexivity | reflexivity | left; reflexivity].
Defined.

Lemma observed_dates_ignore_the_order_witness :
  (insert_all_transp_records "masterplan.csv" "peg.csv" None
     (populated scenario_primary scenario_lookup)).1
  = inr (10, "2015-05-20 07:15:00"%string, "2015-05-27 12:00:00"%string)
  /\ (insert_all_transp_records "masterplan.csv" "peg.csv" None
        (populated scenario_primary_reversed scenario_lookup)).1
     = inr (10, "2015-05-20 07:15:00"%string, "2015-05-27 12:00:00"%string)
  /\ "2015-05-20 07:15:00"%string = "2015-05-20 07:15:00"%string
  /\ "2015-05-27 12:00:00"%string = "2015-05-27 12:00:00"%string.
Proof.
  split; [reflexivity|]. split; [reflexivity|].
  apply (observed_dates_ignore_the_order (Ext := registry)
           "masterplan.csv" "peg.csv" None
           (populated scenario_primary scenario_lookup)
           (populated scenario_primary_reversed scenario_lookup)
           (insert_all_transp_records "masterplan.csv" "peg.csv" None
              (populated scenario_primary scenario_lookup)).2
           (insert_all_transp_records "masterplan.csv" "peg.csv" None
              (populated scenario_primary_reversed scenario_lookup)).2
           10 10 "2015-05-20 07:15:00" "2015-05-27 12:00:00"
           "2015-05-20 07:15:00" "2015-05-27 12:00:00"
           scenario_records scenario_records_reversed).
  - reflexivity.
  - reflexivity.
  - reflexivity.
  - intros e. unfold scenario_records, scenario_records_reversed. simpl. tauto.
  - reflexivity.
  - reflexivity.
Defined.

Lemma observed_range_is_ordered_witness :
  exists m_from m_to,
    "2015-05-20 07:15:00"%string = strftime m_from
    /\ "2015-05-27 12:00:00"%string = strftime m_to
    /\ dt_le m_from m_to
    /\ forall e, In e scenario_records ->
         exists t, timestamp e = Some t /\ dt_le m_from t /\ dt_le t m_to.
Proof.
  apply (observed_range_is_ordered (Ext := registry)
           "masterplan.csv" "peg.csv" None
           (populated scenario_primary scenario_lookup)
           (insert_all_transp_records "masterplan.csv" "peg.csv" None
              (populated scenario_primary scenario_lookup)).2
           10 "2015-05-20 07:15:00" "2015-05-27 12:00:00" scenario_records).
  - reflexivity.
  - reflexivity.
  - discriminate.
  - reflexivity.
Defined.

Lemma supplied_facility_is_only_persisted_witness :
  exists s' : @State registry,
    __init__ "config.json" (Some the_facility_ABC) false None
      (fresh (Ext := registry)
         (installation scenario_primary scenario_lookup) [])
    = (inr tt, s')
    /\ h_facility (self s') = Some the_facility_ABC
    /\ trace s' = [] ++ [EOpen "config.json" ReadText; ECallDump "facility.pkl";
                         EOpen "facility.pkl" WriteBinary]
    /\ files s' = <["facility.pkl" := FPickle (Some the_facility_ABC)]>
                    (installation scenario_primary scenario_lookup).
Proof.
  destruct (supplied_facility_is_only_persisted (Ext := registry)
              "config.json" the_facility_ABC false None
              (fresh (Ext := registry)
                 (installation scenario_primary scenario_lookup) [])
              the_conf "facility.pkl" eq_refl eq_refl eq_refl)
    as (s' & Hrun & Hf & _ & _ & _ & _ & Htrace & _ & Hfiles).
  exists s'. split_and!; [exact Hrun | exact Hf | exact Htrace |].
  apply Hfiles; reflexivity.
Defined.

(** The forced build on the scenario returns, and [built] is the state it
    leaves. *)
Lemma scenario_build_returns :
  __init__ "config.json" None true None
    (fresh (Ext := registry) (installation scenario_primary scenario_lookup) [])
  = (inr tt, built).
Proof.
  pose proof scenario_build as [Hret _]. unfold built.
  destruct (__init__ _ _ _ _ _) as [r s1]. simpl in Hret |- *.
  now rewrite Hret.
Qed.

Lemma forced_build_ignores_the_artifact_witness :
  (__init__ "config.json" None true None
     (fresh (Ext := registry) with_artifact [])).1 = inr tt
  /\ exists evs,
       trace (__init__ "config.json" None true None
                (fresh (Ext := registry) with_artifact [])).2
         = [] ++ evs
       /\ Forall (fun ev => is_restoring ev = false) evs.
Proof.
  split; [vm_compute; reflexivity|].
  apply (forced_build_ignores_the_artifact (Ext := registry)
           "config.json" None true None
           (fresh (Ext := registry) with_artifact [])
           (__init__ "config.json" None true None
              (fresh (Ext := registry) with_artifact [])).1
           (__init__ "config.json" None true None
              (fresh (Ext := registry) with_artifact [])).2).
  - left. reflexivity.
  - apply surjective_pairing.
Defined.

